(** * Notion <-> Google Keep synchronisation: mapping store, cooldown guard
      and the two drivers (webhook push, cron poll).

    The development embeds [lib/sync-state.ts], [lib/keep-client.ts]
    (the [upsertKeepNote] dispatch), [api/notion/webhook.ts] and
    [api/cron/poll-keep.ts].

    Modelling conventions.
    - The Vercel KV store holds two disjoint key spaces: the keys
      [sync:mapping:<notionPageId>] and the single key [sync:state].  No
      string with the first prefix equals the second key, and prefixing is
      injective, so the store is a pair: a finite map keyed by page id and an
      optional state object.
    - [state.mappings] is a JavaScript object used as a dictionary.  Its
      enumeration order ([Object.keys]) is observable through
      [Array.prototype.find], so it is an association list in enumeration
      order: array-index keys first, in ascending numeric order, then the
      other keys in the order of their creation.  An assignment
      [obj[key] = value] overwrites an own property where it stands, places
      a new array index at its numeric position, appends any other new key,
      and creates nothing for the key [__proto__], which reaches the setter
      of [Object.prototype].
    - Every KV request, every remote API call and every translator call can
      throw.  What the outside world answers during one unit of work (one
      webhook delivery, one note of a poll batch) is an [Env]; the code is
      written in a state-and-exception monad over the persistent [World].
    - A failed KV request leaves the store as it was.
    - [Date.now()], the stored timestamps and the cooldown are integer
      numbers of milliseconds; [new Date(s).getTime()] is a parameter
      [toTime], with [None] for [NaN].
    - The payload computed by [lib/mapping.ts] is passed to the remote side
      and never read back by the reconciliation logic; remote calls are
      recorded by method and target only, and the translator only by whether
      it throws. *)

From Stdlib Require Import ZArith List String Bool Lia.
From stdpp Require Import base gmap strings list.
Import ListNotations.

Local Open Scope string_scope.

(** ** lib/types.ts *)

Inductive Origin := notion | keep.

Definition origin_eqb (a b : Origin) : bool :=
  match a, b with
  | notion, notion | keep, keep => true
  | _, _ => false
  end.

Record NotionPage := {
  id : string;
  last_edited_time : string
}.

Record NotionWebhookPayload := {
  object : string;
  payload_id : string;
  type : string
}.

(** [updateTime] and [trashed] are optional fields: [None] is [undefined],
    and an absent [trashed] is falsy. *)
Record KeepNote := {
  name : string;
  updateTime : option string;
  trashed : bool
}.

(** [lastSyncedKeepUpdateTime] is written from an optional field through a
    non-null assertion, so at run time it can be [undefined]. *)
Record SyncMapping := {
  notionPageId : string;
  keepNoteName : string;
  lastSyncedNotionEditedTime : string;
  lastSyncedKeepUpdateTime : option string;
  lastWriteOrigin : Origin;
  lastWriteTimestamp : Z
}.

(** A JavaScript object used as a dictionary: its own properties in
    enumeration order, the order of [Object.keys], [Object.values] and
    [JSON.stringify] (array-index keys first, in ascending numeric order,
    then the other keys in the order of their creation).  An object has
    each key once; [prop_get] and [prop_set] act on the first occurrence
    and [prop_delete] leaves none.  The assignment [js_assign] and
    [prop_delete] keep a list in enumeration order. *)
Definition JsObject (V : Type) : Type := list (string * V).

Definition keys {V} (o : JsObject V) : list string := map fst o.

Fixpoint prop_get {V} (k : string) (o : JsObject V) : option V :=
  match o with
  | [] => None
  | (k', v) :: o' => if String.eqb k' k then Some v else prop_get k o'
  end.

Fixpoint prop_set {V} (k : string) (v : V) (o : JsObject V) : JsObject V :=
  match o with
  | [] => [(k, v)]
  | (k', v') :: o' =>
      if String.eqb k' k then (k', v) :: o' else (k', v') :: prop_set k v o'
  end.

Fixpoint prop_delete {V} (k : string) (o : JsObject V) : JsObject V :=
  match o with
  | [] => []
  | (k', v') :: o' =>
      if String.eqb k' k then prop_delete k o' else (k', v') :: prop_delete k o'
  end.

(** [Object.prototype.hasOwnProperty.call(o, k)]. *)
Definition hasOwnProperty {V} (k : string) (o : JsObject V) : bool :=
  match prop_get k o with
  | Some _ => true
  | None => false
  end.

Definition decimal_digit (c : Ascii.ascii) : option N :=
  let n := Ascii.N_of_ascii c in
  if ((48 <=? n) && (n <=? 57))%N then Some (n - 48)%N else None.

(** The number written by a string of decimal digits, after [acc]. *)
Fixpoint decimal (acc : N) (s : string) : option N :=
  match s with
  | EmptyString => Some acc
  | String c s' =>
      match decimal_digit c with
      | Some d => decimal (acc * 10 + d)%N s'
      | None => None
      end
  end.

(** [array_index k] is the number [k] writes when [k] is an array index:
    the canonical decimal form (no leading zero) of an integer from 0 to
    2^32 - 2.  These are the keys an object enumerates first. *)
Definition array_index (k : string) : option N :=
  if String.eqb k "" then None
  else if String.prefix "0" k && negb (String.eqb k "0") then None
  else
    match decimal 0 k with
    | Some n => if (n <? 4294967295)%N then Some n else None
    | None => None
    end.

(** A new property under the array index [n]: it is enumerated after the
    array indices below [n] and before every other key. *)
Fixpoint insert_index {V} (n : N) (k : string) (v : V) (o : JsObject V)
  : JsObject V :=
  match o with
  | [] => [(k, v)]
  | (k', v') :: o' =>
      match array_index k' with
      | Some n' =>
          if (n' <? n)%N then (k', v') :: insert_index n k v o'
          else (k, v) :: o
      | None => (k, v) :: o
      end
  end.

(** [obj[key] = value] on a plain object.  An own property is overwritten
    where it stands.  Otherwise the key [__proto__] reaches the setter
    inherited from [Object.prototype], which sets the prototype and creates
    no property; any other key becomes a new own property, enumerated at
    its numeric position when it is an array index and last when it is
    not. *)
Definition js_assign {V} (key : string) (value : V) (o : JsObject V)
  : JsObject V :=
  if hasOwnProperty key o then prop_set key value o
  else if String.eqb key "__proto__" then o
  else
    match array_index key with
    | Some n => insert_index n key value o
    | None => (o ++ [(key, value)])%list
    end.

Record SyncState := {
  lastPolledAt : Z;
  mappings : JsObject SyncMapping
}.

Record ErrorEntry := {
  entry_id : string;
  entry_error : string
}.

Record Summary := {
  processed : nat;
  created : nat;
  updated : nat;
  skipped : nat;
  errors : list ErrorEntry
}.

(** ** Effects *)

Inductive Result (A : Type) : Type :=
| Ok (a : A)
| Throw (message : string).
Arguments Ok {A} a.
Arguments Throw {A} message.

(** The Vercel KV store. *)
Record KV := {
  mappingKeys : gmap string SyncMapping;
  stateKey : option SyncState
}.

(** Write requests issued to the two remote services. *)
Inductive Call :=
| KeepUpdate (noteName : string)
| KeepCreate
| NotionUpdate (pageId : string)
| NotionCreate (databaseId : string).

Record World := {
  store : KV;
  calls : list Call;
  kvCalls : nat
}.

(** The answers of the outside world during one unit of work. *)
Record Env := {
  kvFault : nat -> option string;
  nowCooldown : Z;
  nowWrite : Z;
  signatureCheck : Result bool;
  pageReply : Result NotionPage;
  translation : Result unit;
  keepReply : Result KeepNote;
  notionReply : Result NotionPage;
  NOTION_DATABASE_ID : string
}.

Definition M (S A : Type) : Type := S -> Result A * S.

Definition ret {S A} (a : A) : M S A := fun s => (Ok a, s).

Definition throw {S A} (message : string) : M S A := fun s => (Throw message, s).

Definition bind {S A B} (m : M S A) (k : A -> M S B) : M S B :=
  fun s =>
    match m s with
    | (Ok a, s') => k a s'
    | (Throw message, s') => (Throw message, s')
    end.

Definition try_catch {S A} (m : M S A) (handler : string -> M S A) : M S A :=
  fun s =>
    match m s with
    | (Ok a, s') => (Ok a, s')
    | (Throw message, s') => handler message s'
    end.

Definition liftR {S A} (r : Result A) : M S A := fun s => (r, s).

Declare Scope js_scope.
Delimit Scope js_scope with js.
Notation "'let!' x ':=' m 'in' k" := (bind m (fun x => k))
  (at level 10, x name, m at level 100, k at level 200) : js_scope.
Notation "'run!' m 'in' k" := (bind m (fun _ => k))
  (at level 10, m at level 100, k at level 200) : js_scope.
Local Open Scope js_scope.

(** One KV request: it is counted, and either throws or runs [op]. *)
Definition kv_request {A} (e : Env) (op : KV -> A * KV) : M World A :=
  fun w =>
    match kvFault e (kvCalls w) with
    | Some message =>
        (Throw message,
         {| store := store w; calls := calls w; kvCalls := S (kvCalls w) |})
    | None =>
        let (a, kv') := op (store w) in
        (Ok a, {| store := kv'; calls := calls w; kvCalls := S (kvCalls w) |})
    end.

(** One write request to a remote service: it is recorded, then answered. *)
Definition remote_write {A} (c : Call) (reply : Result A) : M World A :=
  fun w =>
    (reply, {| store := store w; calls := calls w ++ [c]; kvCalls := kvCalls w |}).

(** ** lib/sync-state.ts *)

Definition getSyncState (e : Env) : M World SyncState :=
  let! state := kv_request e (fun kv => (stateKey kv, kv)) in
  ret (match state with
       | Some s => s
       | None => {| lastPolledAt := 0; mappings := [] |}
       end).

Definition kv_set_state (e : Env) (s : SyncState) : M World unit :=
  kv_request e (fun kv =>
    (tt, {| mappingKeys := mappingKeys kv; stateKey := Some s |})).

Definition updateLastPolled (e : Env) (timestamp : Z) : M World unit :=
  let! state := getSyncState e in
  kv_set_state e {| lastPolledAt := timestamp; mappings := mappings state |}.

Definition getMapping (e : Env) (notionPageId : string)
  : M World (option SyncMapping) :=
  kv_request e (fun kv => (mappingKeys kv !! notionPageId, kv)).

Definition getMappingByKeepName (e : Env) (keepNoteName' : string)
  : M World (option SyncMapping) :=
  let! state := getSyncState e in
  let notionPageId :=
    find (fun id =>
            match prop_get id (mappings state) with
            | Some m => String.eqb (keepNoteName m) keepNoteName'
            | None => false
            end)
         (keys (mappings state)) in
  match notionPageId with
  | None => ret None
  | Some id => if String.eqb id "" then ret None else getMapping e id
  end.

Definition getAllMappings (e : Env) : M World (list SyncMapping) :=
  let! state := getSyncState e in
  ret (map snd (mappings state)).

Definition upsertMapping (e : Env) (mapping : SyncMapping) : M World unit :=
  run! kv_request e (fun kv =>
    (tt, {| mappingKeys := <[notionPageId mapping := mapping]> (mappingKeys kv);
            stateKey := stateKey kv |})) in
  let! state := getSyncState e in
  kv_set_state e
    {| lastPolledAt := lastPolledAt state;
       mappings := js_assign (notionPageId mapping) mapping (mappings state) |}.

Definition deleteMapping (e : Env) (notionPageId : string) : M World unit :=
  run! kv_request e (fun kv =>
    (tt, {| mappingKeys := delete notionPageId (mappingKeys kv);
            stateKey := stateKey kv |})) in
  let! state := getSyncState e in
  kv_set_state e
    {| lastPolledAt := lastPolledAt state;
       mappings := prop_delete notionPageId (mappings state) |}.

Definition defaultCooldownMs : Z := 30000.

(** [now] is the reading of [Date.now()] inside the function. *)
Definition shouldSkipDueToCooldown (now : Z) (mapping : option SyncMapping)
    (origin : Origin) (cooldownMs : Z) : bool :=
  match mapping with
  | None => false
  | Some m =>
      if negb (origin_eqb (lastWriteOrigin m) origin) then false
      else
        let timeSinceLastWrite := (now - lastWriteTimestamp m)%Z in
        (timeSinceLastWrite <? cooldownMs)%Z
  end.

(** ** lib/keep-client.ts and lib/notion-client.ts: the write calls *)

Definition updateKeepNote (e : Env) (noteName : string) : M World KeepNote :=
  remote_write (KeepUpdate noteName) (keepReply e).

Definition createKeepNote (e : Env) : M World KeepNote :=
  remote_write KeepCreate (keepReply e).

(** [s || null] on a string that may be [undefined]. *)
Definition or_null (s : option string) : option string :=
  match s with
  | Some s' => if String.eqb s' "" then None else Some s'
  | None => None
  end.

Definition upsertKeepNote (e : Env) (existingNoteName : option string)
  : M World KeepNote :=
  match or_null existingNoteName with
  | Some noteName => updateKeepNote e noteName
  | None => createKeepNote e
  end.

Definition getNotionPage (e : Env) (pageId : string) : M World NotionPage :=
  liftR (pageReply e).

Definition updateNotionPage (e : Env) (pageId : string) : M World NotionPage :=
  remote_write (NotionUpdate pageId) (notionReply e).

Definition createNotionPage (e : Env) (databaseId : string) : M World NotionPage :=
  remote_write (NotionCreate databaseId) (notionReply e).

(** ** HTTP responses of the two handlers *)

Inductive Body :=
| BError (error : string)
| BMessage (message : string)
| BSynced (keepNoteName : string)
| BPolled (details : Summary)
| BInternalError (message : string).

Record Response := {
  status : nat;
  body : Body
}.

Definition json (status : nat) (body : Body) : Response :=
  {| status := status; body := body |}.

(** ** api/notion/webhook.ts *)

Record WebhookRequest := {
  method : string;
  notion_signature : option string;
  payload : NotionWebhookPayload
}.

Module Webhook.

Definition handler (e : Env) (req : WebhookRequest) : M World Response :=
  if negb (String.eqb (method req) "POST") then
    ret (json 405 (BError "Method not allowed"))
  else
    try_catch
      (match or_null (notion_signature req) with
       | None => ret (json 401 (BError "Missing signature"))
       | Some _ =>
         let! isValid := liftR (signatureCheck e) in
         if negb isValid then ret (json 401 (BError "Invalid signature"))
         else if negb (String.eqb (object (payload req)) "page") then
           ret (json 200 (BMessage "Not a page event, skipping"))
         else
           let pageId := payload_id (payload req) in
           let eventType := type (payload req) in
           if String.eqb eventType "page_deleted" then
             ret (json 200 (BMessage "Page deleted, skipping"))
           else
             let! page := getNotionPage e pageId in
             let! existingMapping := getMapping e pageId in
             if shouldSkipDueToCooldown (nowCooldown e) existingMapping notion
                  defaultCooldownMs
             then ret (json 200 (BMessage "Skipped due to cooldown"))
             else
               run! liftR (translation e) in
               let! savedNote :=
                 upsertKeepNote e
                   (or_null (option_map keepNoteName existingMapping)) in
               let mapping :=
                 {| notionPageId := pageId;
                    keepNoteName := name savedNote;
                    lastSyncedNotionEditedTime := last_edited_time page;
                    lastSyncedKeepUpdateTime := updateTime savedNote;
                    lastWriteOrigin := notion;
                    lastWriteTimestamp := nowWrite e |} in
               run! upsertMapping e mapping in
               ret (json 200 (BSynced (name savedNote)))
       end)
      (fun message => ret (json 500 (BInternalError message))).

End Webhook.

(** ** api/cron/poll-keep.ts *)

Record PollRequest := {
  poll_method : string;
  authorization : option string
}.

(** The environment of one cron invocation: the process environment, the
    answer of [listKeepNotes], the environment of the i-th loop iteration,
    and the environment of the final [updateLastPolled(Date.now())]. *)
Record PollEnv := {
  VERCEL_CRON_SECRET : option string;
  NODE_ENV : option string;
  listReply : Result (list KeepNote);
  noteEnv : nat -> Env;
  finalEnv : Env;
  nowPolled : Z
}.

(** The local counters of the handler together with the world. *)
Record PollState := {
  world : World;
  summary : Summary
}.

Definition liftW {A} (m : M World A) : M PollState A :=
  fun s =>
    let (r, w') := m (world s) in
    (r, {| world := w'; summary := summary s |}).

Definition count (f : Summary -> Summary) : M PollState unit :=
  fun s => (Ok tt, {| world := world s; summary := f (summary s) |}).

Definition processed_incr (s : Summary) : Summary :=
  {| processed := S (processed s); created := created s; updated := updated s;
     skipped := skipped s; errors := errors s |}.

Definition created_incr (s : Summary) : Summary :=
  {| processed := processed s; created := S (created s); updated := updated s;
     skipped := skipped s; errors := errors s |}.

Definition updated_incr (s : Summary) : Summary :=
  {| processed := processed s; created := created s; updated := S (updated s);
     skipped := skipped s; errors := errors s |}.

Definition skipped_incr (s : Summary) : Summary :=
  {| processed := processed s; created := created s; updated := updated s;
     skipped := S (skipped s); errors := errors s |}.

Definition errors_push (x : ErrorEntry) (s : Summary) : Summary :=
  {| processed := processed s; created := created s; updated := updated s;
     skipped := skipped s; errors := errors s ++ [x] |}.

(** The point at which one loop iteration ends.  The source has no such
    value: the labels name its [continue] statements, the end of the [try]
    block and the [catch] block. *)
Inductive Outcome :=
| Ignored
| SkippedCooldown
| SkippedUnchanged
| AppliedUpdated
| AppliedCreated
| Failed.

(** [a <= b] on numbers that may be [NaN]. *)
Definition js_le (a b : option Z) : bool :=
  match a, b with
  | Some x, Some y => (x <=? y)%Z
  | _, _ => false
  end.

Module PollKeep.
Section Handler.

(** [toTime s] is [new Date(s).getTime()], [None] standing for [NaN]. *)
Variable toTime : string -> option Z.

(** [new Date(x).getTime()] for a field that may be [undefined]. *)
Definition getTime (x : option string) : option Z :=
  match x with
  | Some s => toTime s
  | None => None
  end.

(** The body of the [try] block for one note.  The choice between the
    translated properties and [buildDefaultNotionProperties] only shapes the
    payload of [createNotionPage]. *)
Definition processNote (e : Env) (note : KeepNote) : M PollState Outcome :=
  if trashed note then ret Ignored
  else if String.eqb (name note) "" then ret Ignored
  else
    let! existingMapping := liftW (getMappingByKeepName e (name note)) in
    if shouldSkipDueToCooldown (nowCooldown e) existingMapping keep
         defaultCooldownMs
    then run! count skipped_incr in ret SkippedCooldown
    else
      let unchanged :=
        match existingMapping with
        | Some m =>
            let lastSyncedTime := getTime (lastSyncedKeepUpdateTime m) in
            let currentUpdateTime := getTime (updateTime note) in
            js_le currentUpdateTime lastSyncedTime
        | None => false
        end in
      if unchanged then run! count skipped_incr in ret SkippedUnchanged
      else
        run! liftR (translation e) in
        let! written :=
          match existingMapping with
          | Some m =>
              let! notionPage := liftW (updateNotionPage e (notionPageId m)) in
              run! count updated_incr in
              ret (notionPage, notionPageId m, AppliedUpdated)
          | None =>
              let! notionPage :=
                liftW (createNotionPage e (NOTION_DATABASE_ID e)) in
              run! count created_incr in
              ret (notionPage, id notionPage, AppliedCreated)
          end in
        let '(notionPage, notionPageId', outcome) := written in
        let mapping :=
          {| notionPageId := notionPageId';
             keepNoteName := name note;
             lastSyncedNotionEditedTime := last_edited_time notionPage;
             lastSyncedKeepUpdateTime := updateTime note;
             lastWriteOrigin := keep;
             lastWriteTimestamp := nowWrite e |} in
        run! liftW (upsertMapping e mapping) in
        run! count processed_incr in
        ret outcome.

(** [note.name || "unknown"]. *)
Definition name_or_unknown (note : KeepNote) : string :=
  if String.eqb (name note) "" then "unknown" else name note.

(** One loop iteration: the [try] block and its [catch]. *)
Definition noteStep (e : Env) (note : KeepNote) : M PollState Outcome :=
  try_catch (processNote e note)
    (fun message =>
       run! count (errors_push {| entry_id := name_or_unknown note;
                                  entry_error := message |}) in
       ret Failed).

(** The [for ... of] loop; [i] is the index of the first note of [notes]. *)
Fixpoint pollLoop (envs : nat -> Env) (i : nat) (notes : list KeepNote)
  : M PollState unit :=
  match notes with
  | [] => ret tt
  | note :: rest =>
      run! noteStep (envs i) note in
      pollLoop envs (S i) rest
  end.

Definition emptySummary : Summary :=
  {| processed := 0; created := 0; updated := 0; skipped := 0; errors := [] |}.

Definition bearer (secret : option string) : string :=
  "Bearer " ++ match secret with Some s => s | None => "undefined" end.

Definition handler (pe : PollEnv) (req : PollRequest) : M World Response :=
  if negb (String.eqb (poll_method req) "GET") then
    ret (json 405 (BError "Method not allowed"))
  else
    let authHeader := authorization req in
    let mismatch :=
      match authHeader with
      | Some h => negb (String.eqb h (bearer (VERCEL_CRON_SECRET pe)))
      | None => true
      end in
    let production :=
      match NODE_ENV pe with
      | Some v => String.eqb v "production"
      | None => false
      end in
    if mismatch && production && bool_decide (is_Some (or_null authHeader)) then
      ret (json 401 (BError "Unauthorized"))
    else
      try_catch
        (let! notes := liftR (listReply pe) in
         fun w =>
           let (r, s) :=
             pollLoop (noteEnv pe) 0 notes
               {| world := w; summary := emptySummary |} in
           (let! _ := liftR r in
            run! updateLastPolled (finalEnv pe) (nowPolled pe) in
            ret (json 200 (BPolled (summary s)))) (world s))
        (fun message => ret (json 500 (BInternalError message))).

End Handler.
End PollKeep.

Import PollKeep.

(** ** Quantities the statements below speak about *)

(** [creates key o]: after [o[key] = value] the key is an own property of
    [o].  It is not when the key is [__proto__] and [o] has no own property
    of that name. *)
Definition creates {V} (key : string) (o : JsObject V) : bool :=
  hasOwnProperty key o || negb (String.eqb key "__proto__").

(** [precedes k k']: the key [k] may stand before the key [k'] in the
    enumeration of an object.  An array index is preceded only by array
    indices that are not above it. *)
Definition precedes (k k' : string) : Prop :=
  match array_index k' with
  | Some n' => exists n, array_index k = Some n /\ (n <= n')%N
  | None => True
  end.

(** The keys [ks] are in enumeration order: the array indices first, in
    ascending order, then the other keys. *)
Fixpoint enumeration_order (ks : list string) : Prop :=
  match ks with
  | [] => True
  | k :: ks' => (forall k', In k' ks' -> precedes k k') /\ enumeration_order ks'
  end.

(** The [mappings] dictionary as [getSyncState] returns it. *)
Definition index (kv : KV) : JsObject SyncMapping :=
  match stateKey kv with
  | Some s => mappings s
  | None => []
  end.

(** A store in which every index entry repeats the primary record stored
    under its own, non-empty, page id.  The empty store is such a store, and
    a completed [upsertMapping] of a record with a non-empty page id keeps
    the property. *)
Definition store_ok (kv : KV) : Prop :=
  forall pageId m,
    prop_get pageId (index kv) = Some m ->
    pageId <> "" /\ mappingKeys kv !! pageId = Some m /\ notionPageId m = pageId.

(** No KV request fails. *)
Definition kv_reliable (e : Env) : Prop := forall n, kvFault e n = None.

(** ** Concrete instances used in the examples *)

Definition digit (c : Ascii.ascii) : option Z :=
  let n := Z.of_N (Ascii.N_of_ascii c) in
  if ((48 <=? n) && (n <=? 57))%Z then Some (n - 48)%Z else None.

Fixpoint number (acc : Z) (cs : list Ascii.ascii) : option Z :=
  match cs with
  | [] => Some acc
  | c :: cs' =>
      match digit c with
      | Some d => number (acc * 10 + d)%Z cs'
      | None => None
      end
  end.

Definition field (s : string) (start len : nat) : option Z :=
  let part := substring start len s in
  if Nat.eqb (String.length part) len
  then number 0%Z (list_ascii_of_string part) else None.

Definition sep (s : string) (i : nat) (c : string) : bool :=
  String.eqb (substring i 1 s) c.

Definition leap (y : Z) : bool :=
  ((y mod 4 =? 0) && (negb (y mod 100 =? 0) || (y mod 400 =? 0)))%Z.

Definition days_in_month (y m : Z) : Z :=
  (if m =? 2 then (if leap y then 29 else 28)
   else if (m =? 4) || (m =? 6) || (m =? 9) || (m =? 11) then 30 else 31)%Z.

(** Days from 1970-01-01 to the given date of the proleptic Gregorian
    calendar. *)
Definition days_from_civil (y m d : Z) : Z :=
  (let y' := if m <=? 2 then y - 1 else y in
   let era := y' / 400 in
   let yoe := y' - era * 400 in
   let doy := (153 * (if 2 <? m then m - 3 else m + 9) + 2) / 5 + d - 1 in
   let doe := yoe * 365 + yoe / 4 - yoe / 100 + doy in
   era * 146097 + doe - 719468)%Z.

(** An instance of [toTime] for the examples: the value of
    [new Date(s).getTime()] on a timestamp [YYYY-MM-DDTHH:MM:SS.mmmZ] with a
    valid date and time, the format both services emit.  Other strings are
    not used in the examples and are left without a value. *)
Definition isoTime (s : string) : option Z :=
  if Nat.eqb (String.length s) 24 && sep s 4 "-" && sep s 7 "-"
     && sep s 10 "T" && sep s 13 ":" && sep s 16 ":" && sep s 19 "."
     && sep s 23 "Z"
  then
    match field s 0 4, field s 5 2, field s 8 2,
          field s 11 2, field s 14 2, field s 17 2, field s 20 3 with
    | Some y, Some mo, Some d, Some h, Some mi, Some se, Some ms =>
        if ((1 <=? mo) && (mo <=? 12) && (1 <=? d) && (d <=? days_in_month y mo)
            && (h <=? 23) && (mi <=? 59) && (se <=? 59))%Z
        then Some ((((days_from_civil y mo d * 24 + h) * 60 + mi) * 60 + se)
                   * 1000 + ms)%Z
        else None
    | _, _, _, _, _, _, _ => None
    end
  else None.

Definition emptyStore : KV := {| mappingKeys := ∅; stateKey := None |}.

Definition worldOf (kv : KV) : World :=
  {| store := kv; calls := []; kvCalls := 0 |}.

(** An environment in which nothing fails: the clock reads [now], Notion
    answers with [page] and Keep with [note]. *)
Definition calm (now : Z) (page : NotionPage) (note : KeepNote) : Env :=
  {| kvFault := fun _ => None;
     nowCooldown := now;
     nowWrite := now;
     signatureCheck := Ok true;
     pageReply := Ok page;
     translation := Ok tt;
     keepReply := Ok note;
     notionReply := Ok page;
     NOTION_DATABASE_ID := "db" |}.

Definition page1 : NotionPage :=
  {| id := "page-1"; last_edited_time := "2024-01-01T00:00:00.000Z" |}.

Definition note1 : KeepNote :=
  {| name := "notes/n1";
     updateTime := Some "2024-01-01T00:00:05.000Z";
     trashed := false |}.

Definition pageUpdated (pageId : string) : WebhookRequest :=
  {| method := "POST";
     notion_signature := Some "sig";
     payload := {| object := "page"; payload_id := pageId;
                   type := "page_updated" |} |}.

Definition pageDeleted (pageId : string) : WebhookRequest :=
  {| method := "POST";
     notion_signature := Some "sig";
     payload := {| object := "page"; payload_id := pageId;
                   type := "page_deleted" |} |}.

(** 2024-01-01T00:00:10Z in milliseconds. *)
Definition t0 : Z := 1704067210000.

(** The mapping of [page1] and [note1] after a write initiated from [o] at
    time [ts]. *)
Definition mappingFrom (o : Origin) (ts : Z) : SyncMapping :=
  {| notionPageId := "page-1";
     keepNoteName := "notes/n1";
     lastSyncedNotionEditedTime := "2024-01-01T00:00:00.000Z";
     lastSyncedKeepUpdateTime := Some "2024-01-01T00:00:05.000Z";
     lastWriteOrigin := o;
     lastWriteTimestamp := ts |}.

(** The store holding the single mapping [m]. *)
Definition storeWith (m : SyncMapping) : KV :=
  {| mappingKeys := {[ notionPageId m := m ]};
     stateKey := Some {| lastPolledAt := 0;
                         mappings := [(notionPageId m, m)] |} |}.

(** How one loop iteration that ends at [o] changes the counters. *)
Definition step_effect (o : Outcome) (a b : Summary) : Prop :=
  match o with
  | Ignored => b = a
  | SkippedCooldown | SkippedUnchanged => b = skipped_incr a
  | AppliedUpdated => b = processed_incr (updated_incr a)
  | AppliedCreated => b = processed_incr (created_incr a)
  | Failed =>
      exists entry,
        b = errors_push entry a
        \/ b = errors_push entry (updated_incr a)
        \/ b = errors_push entry (created_incr a)
  end.

(** An environment in which the translator and both remote writes throw. *)
Definition failingWrites (now : Z) : Env :=
  {| kvFault := fun _ => None;
     nowCooldown := now;
     nowWrite := now;
     signatureCheck := Ok true;
     pageReply := Ok page1;
     translation := Ok tt;
     keepReply := Throw "Keep API error: 503";
     notionReply := Throw "Notion API error: 503";
     NOTION_DATABASE_ID := "db" |}.

(** An environment in which the translator throws. *)
Definition failingTranslation (now : Z) : Env :=
  {| kvFault := fun _ => None;
     nowCooldown := now;
     nowWrite := now;
     signatureCheck := Ok true;
     pageReply := Ok page1;
     translation := Throw "TranslationError";
     keepReply := Ok note1;
     notionReply := Ok page1;
     NOTION_DATABASE_ID := "db" |}.

(** An environment in which the remote calls succeed and the KV requests
    numbered [n] and above fail. *)
Definition kvDownFrom (n : nat) (now : Z) (page : NotionPage) : Env :=
  {| kvFault := fun k => if Nat.leb n k then Some "KV unreachable" else None;
     nowCooldown := now;
     nowWrite := now;
     signatureCheck := Ok true;
     pageReply := Ok page;
     translation := Ok tt;
     keepReply := Ok note1;
     notionReply := Ok page;
     NOTION_DATABASE_ID := "db" |}.

Definition noteNamed (n : string) : KeepNote :=
  {| name := n; updateTime := Some "2024-01-01T00:00:05.000Z";
     trashed := false |}.

Definition pageWithId (i : string) : NotionPage :=
  {| id := i; last_edited_time := "2024-01-01T00:00:09.000Z" |}.

Definition startOf (kv : KV) : PollState :=
  {| world := worldOf kv; summary := emptySummary |}.

(** Ten unmapped notes; while the fourth is processed the translator throws,
    and Notion answers the i-th creation with a page of its own. *)
Definition tenNotes : list KeepNote :=
  map noteNamed
    ["notes/a"; "notes/b"; "notes/c"; "notes/d"; "notes/e";
     "notes/f"; "notes/g"; "notes/h"; "notes/i"; "notes/j"].

Definition tenEnvs (i : nat) : Env :=
  if Nat.eqb i 3 then failingTranslation t0
  else calm t0 (pageWithId (String (Ascii.ascii_of_nat (65 + i)) "")) note1.

(** The relation between the counters of a poll summary. *)
Definition counters_bounded (d : Summary) : Prop :=
  processed d <= created d + updated d
  /\ created d + updated d <= processed d + length (errors d).

(** One cron invocation over [notes], authorised, in production. *)
Definition cronEnv (notes : list KeepNote) (envs : nat -> Env) : PollEnv :=
  {| VERCEL_CRON_SECRET := Some "s3cret";
     NODE_ENV := Some "production";
     listReply := Ok notes;
     noteEnv := envs;
     finalEnv := calm (t0 + 1000) page1 note1;
     nowPolled := t0 + 1000 |}.

Definition cronRequest : PollRequest :=
  {| poll_method := "GET"; authorization := Some "Bearer s3cret" |}.

(** The predicate [getMappingByKeepName] hands to [find]. *)
Definition names (o : JsObject SyncMapping) (keepNoteName' : string)
  : string -> bool :=
  fun id =>
    match prop_get id o with
    | Some m => String.eqb (keepNoteName m) keepNoteName'
    | None => false
    end.

(** What [getMappingByKeepName] returns when its KV requests are answered. *)
Definition lookupByName (kv : KV) (keepNoteName' : string)
  : option SyncMapping :=
  match find (names (index kv) keepNoteName') (keys (index kv)) with
  | None => None
  | Some id => if String.eqb id "" then None else mappingKeys kv !! id
  end.

(** The store after a completed [upsertMapping]. *)
Definition upsert_store (m : SyncMapping) (kv : KV) : KV :=
  {| mappingKeys := <[notionPageId m := m]> (mappingKeys kv);
     stateKey :=
       Some {| lastPolledAt := match stateKey kv with
                               | Some s => lastPolledAt s
                               | None => 0%Z
                               end;
               mappings := js_assign (notionPageId m) m (index kv) |} |}.

(** The store after a completed [deleteMapping]. *)
Definition delete_store (pageId : string) (kv : KV) : KV :=
  {| mappingKeys := delete pageId (mappingKeys kv);
     stateKey :=
       Some {| lastPolledAt := match stateKey kv with
                               | Some s => lastPolledAt s
                               | None => 0%Z
                               end;
               mappings := prop_delete pageId (index kv) |} |}.

(** A webhook delivery that gets as far as the reconciliation steps: an
    authenticated POST of a page event other than a deletion, whose page
    Notion returns. *)
Definition reaches_reconciler (e : Env) (req : WebhookRequest)
    (page : NotionPage) : Prop :=
  method req = "POST"
  /\ is_Some (or_null (notion_signature req))
  /\ signatureCheck e = Ok true
  /\ object (payload req) = "page"
  /\ type (payload req) <> "page_deleted"
  /\ pageReply e = Ok page.

(** A note the poll loop does not pass over. *)
Definition polled (note : KeepNote) : Prop :=
  trashed note = false /\ name note <> "".

Definition tick (w : World) (n : nat) : World :=
  {| store := store w; calls := calls w; kvCalls := n + kvCalls w |}.

(** The scenario of the specification: [doc1] was written from Notion five
    seconds before [t0], at version [t1]. *)
Definition scenarioMapping : SyncMapping :=
  {| notionPageId := "doc1";
     keepNoteName := "notes/note1";
     lastSyncedNotionEditedTime := "t1";
     lastSyncedKeepUpdateTime := Some "2024-01-01T00:00:05.000Z";
     lastWriteOrigin := notion;
     lastWriteTimestamp := t0 - 5000 |}.

Definition doc1 : NotionPage := {| id := "doc1"; last_edited_time := "t1" |}.

(** The world after the webhook has synchronised [page1] into an empty
    store at [t0], Keep answering with [note1]. *)
Definition afterWebhook : World :=
  snd (Webhook.handler (calm t0 page1 note1) (pageUpdated "page-1")
         (worldOf emptyStore)).

(** The world [afterWebhook] once a cron run has recorded its polling time,
    one second later. *)
Definition afterWebhookPolled : World :=
  snd (updateLastPolled (calm (t0 + 1000) page1 note1) (t0 + 1000)
         afterWebhook).

(** The state after the poll loop has synchronised [note1] into an empty
    store at [t0], Notion answering with [page1]. *)
Definition afterPoll : PollState :=
  snd (noteStep isoTime (calm t0 page1 note1) note1 (startOf emptyStore)).

(** The state in which the next cron run starts: the world of [afterPoll]
    once the run has ended, recording its polling time one second later,
    and fresh counters. *)
Definition afterCronRun : PollState :=
  {| world := snd (updateLastPolled (calm (t0 + 1000) page1 note1)
                     (t0 + 1000) (world afterPoll));
     summary := emptySummary |}.

Definition mappingOf (pageId noteName : string) : SyncMapping :=
  {| notionPageId := pageId;
     keepNoteName := noteName;
     lastSyncedNotionEditedTime := "2024-01-01T00:00:00.000Z";
     lastSyncedKeepUpdateTime := Some "2024-01-01T00:00:05.000Z";
     lastWriteOrigin := notion;
     lastWriteTimestamp := t0 |}.

(** The store after the mappings [ms] have been upserted into the empty
    store, in that order. *)
Definition storeOf (ms : list SyncMapping) : KV :=
  fold_left (fun kv m => upsert_store m kv) ms emptyStore.

Definition threeMappings : list SyncMapping :=
  [mappingOf "page-a" "notes/a"; mappingOf "page-b" "notes/b";
   mappingOf "page-c" "notes/c"].

(** The world after an upsert of a fourth mapping whose last KV request,
    the one that rewrites the state object, fails. *)
Definition halfUpserted : World :=
  snd (upsertMapping (kvDownFrom 2 t0 page1) (mappingOf "page-d" "notes/d")
         (worldOf (storeOf threeMappings))).

(** The last-polled timestamp as [getSyncState] returns it. *)
Definition polledAt (kv : KV) : Z :=
  match stateKey kv with
  | Some s => lastPolledAt s
  | None => 0%Z
  end.

(** The notes of a summary that are accounted for: processed, skipped or
    recorded as an error. *)
Definition accounted (d : Summary) : nat :=
  processed d + skipped d + length (errors d).

(** The notes the poll loop does not pass over, as a test. *)
Definition isPolled (note : KeepNote) : bool :=
  negb (trashed note) && negb (String.eqb (name note) "").

(** ** lib/notion-client.ts: signature check and property extractors *)

(** [crypto.timingSafeEqual] on the UTF-8 bytes of two strings: it throws a
    [RangeError] when the lengths differ. *)
Definition timingSafeEqual (a b : string) : Result bool :=
  if Nat.eqb (String.length a) (String.length b) then Ok (String.eqb a b)
  else Throw "Input buffers must have the same byte length".

Section Signature.

(** [hmacSha256Hex secret body] is the hexadecimal HMAC-SHA256 digest
    computed by Node's [crypto] module. *)
Variable hmacSha256Hex : string -> string -> string.

Definition verifyNotionWebhook (body signature secret : string) : Result bool :=
  let expectedSignature := hmacSha256Hex secret body in
  timingSafeEqual signature expectedSignature.

End Signature.

(** A property value of a Notion page, an object of type [any]: the fields
    the code reads.  [None] is an absent (or [null]) field; the items of
    [title] and [rich_text] are given by their [plain_text], the options of
    [select] and [multi_select] by their [name]. *)
Record PropertyValue := {
  ptype : option string;
  ptitle : option (list string);
  prich_text : option (list string);
  pselect : option string;
  pmulti_select : option (list string);
  pcheckbox : bool
}.

(** [prop.type === t]. *)
Definition has_type (t : string) (prop : PropertyValue) : bool :=
  match ptype prop with
  | Some t' => String.eqb t' t
  | None => false
  end.

(** [page.properties] is a dictionary in enumeration order. *)
Definition extractNotionTitle (properties : JsObject PropertyValue) : string :=
  match find (has_type "title") (map snd properties) with
  | None => ""
  | Some titleProp =>
      match ptitle titleProp with
      | None => ""
      | Some items =>
          if Nat.eqb (length items) 0 then "" else String.concat "" items
      end
  end.

Definition extractRichText (property : option PropertyValue) : string :=
  match property with
  | None => ""
  | Some p =>
      match prich_text p with
      | None => ""
      | Some items => String.concat "" items
      end
  end.

Definition extractSelect (property : option PropertyValue) : option string :=
  match property with
  | None => None
  | Some p => pselect p
  end.

Definition extractMultiSelect (property : option PropertyValue) : list string :=
  match property with
  | None => []
  | Some p =>
      match pmulti_select p with
      | None => []
      | Some options => options
      end
  end.

Definition extractCheckbox (property : option PropertyValue) : bool :=
  match property with
  | None => false
  | Some p => if negb (has_type "checkbox" p) then false else pcheckbox p
  end.

(** ** lib/mapping.ts *)

(** The content fields of a Keep note, the ones the translators build and
    read: [note_title] is [title], [body_text] is [body.text.text] and
    [body_list] is [body.list.listItems], each [None] when absent. *)
Record ListItem := {
  item_text : string;
  checked : bool
}.

Record NoteBody := {
  body_text : option string;
  body_list : option (list ListItem)
}.

Record NoteContent := {
  note_title : option string;
  note_body : option NoteBody
}.

(** The properties sent to Notion. *)
Inductive NotionProp :=
| PTitle (content : string)
| PRichText (content : string)
| PCheckbox (value : bool).

Definition LF : string := String (Ascii.ascii_of_nat 10) "".

(** [s] is truthy. *)
Definition truthy (s : string) : bool := negb (String.eqb s "").

(** [s || d]. *)
Definition or_default (s : option string) (d : string) : string :=
  match s with
  | Some s' => if truthy s' then s' else d
  | None => d
  end.

Fixpoint drop (n : nat) (s : string) : string :=
  match n, s with
  | 0, _ => s
  | S n', String _ s' => drop n' s'
  | S _, EmptyString => EmptyString
  end.

(** [s.replace(pattern, "")]: the first occurrence of [pattern] is removed. *)
Fixpoint remove_first (pattern s : string) : string :=
  if String.prefix pattern s then drop (String.length pattern) s
  else
    match s with
    | EmptyString => EmptyString
    | String c s' => String c (remove_first pattern s')
    end.

(** [s.split(separator)] for a non-empty separator; [skip] characters of a
    separator just met are still to be passed, [current] is the piece being
    read. *)
Fixpoint split_from (separator : string) (skip : nat) (current s : string)
  : list string :=
  match s with
  | EmptyString => [current]
  | String c s' =>
      match skip with
      | S k => split_from separator k current s'
      | 0 =>
          if String.prefix separator s
          then current :: split_from separator (String.length separator - 1) "" s'
          else split_from separator 0 (current ++ String c "") s'
      end
  end.

Definition js_split (separator s : string) : list string :=
  split_from separator 0 "" s.

Definition bodyParts (properties : JsObject PropertyValue) : list string :=
  flat_map
    (fun entry : string * PropertyValue =>
       let (key, value) := entry in
       if has_type "rich_text" value then
         let text := extractRichText (Some value) in
         if truthy text then [key ++ ": " ++ text] else []
       else [])
    properties.

Definition listItems (properties : JsObject PropertyValue) : list ListItem :=
  flat_map
    (fun entry : string * PropertyValue =>
       let (key, value) := entry in
       if has_type "checkbox" value
       then [{| item_text := key; checked := extractCheckbox (Some value) |}]
       else [])
    properties.

Definition notionToKeep (properties : JsObject PropertyValue) : NoteContent :=
  let title := extractNotionTitle properties in
  let hasCheckboxes := existsb (has_type "checkbox") (map snd properties) in
  {| note_title := Some (or_default (Some title) "Untitled");
     note_body :=
       Some (if hasCheckboxes
             then {| body_text := None;
                     body_list := Some (listItems properties) |}
             else {| body_text := Some (String.concat (LF ++ LF)
                                          (bodyParts properties));
                     body_list := None |}) |}.

(** [note.body?.text?.text]. *)
Definition text_of (note : NoteContent) : option string :=
  match note_body note with
  | Some b => body_text b
  | None => None
  end.

(** [note.body?.list?.listItems]. *)
Definition items_of (note : NoteContent) : option (list ListItem) :=
  match note_body note with
  | Some b => body_list b
  | None => None
  end.

Definition buildDefaultNotionProperties (title content : string)
  : JsObject NotionProp :=
  [("Name", PTitle title); ("Notes", PRichText content)].

Definition extractKeepNoteId (noteName : string) : string :=
  remove_first "notes/" noteName.

Definition buildKeepNoteName (noteId : string) : string :=
  "notes/" ++ noteId.

Section Mapping.

(** [matchLine line] is [line.match(/^(.+?):\s*(.+)$/)]: the two groups of
    a match, [None] when the line does not match. *)
Variable matchLine : string -> option (string * string).

Definition keepToNotion (note : NoteContent) : JsObject NotionProp :=
  let properties :=
    match note_title note with
    | Some t => if truthy t then [("Name", PTitle t)] else []
    | None => []
    end in
  match text_of note with
  | Some text =>
      if truthy text then
        fold_left
          (fun props line =>
             match matchLine line with
             | Some (key, value) => js_assign key (PRichText value) props
             | None => props
             end)
          (js_split (LF ++ LF) text) properties
      else
        match items_of note with
        | Some items =>
            fold_left
              (fun props item =>
                 js_assign (item_text item) (PCheckbox (checked item)) props)
              items properties
        | None => properties
        end
  | None =>
      match items_of note with
      | Some items =>
          fold_left
            (fun props item =>
               js_assign (item_text item) (PCheckbox (checked item)) props)
            items properties
      | None => properties
      end
  end.

(** The properties [api/cron/poll-keep.ts] hands to [createNotionPage]. *)
Definition createProperties (note : NoteContent) : JsObject NotionProp :=
  let notionProps := keepToNotion note in
  if Nat.ltb 0 (length (keys notionProps)) then notionProps
  else buildDefaultNotionProperties
         (or_default (note_title note) "Untitled")
         (or_default (text_of note) "").

End Mapping.

(** One step of the checklist loop of [keepToNotion]. *)
Definition assign_item (props : JsObject NotionProp) (item : ListItem)
  : JsObject NotionProp :=
  js_assign (item_text item) (PCheckbox (checked item)) props.

Definition titleValue (plain : list string) : PropertyValue :=
  {| ptype := Some "title"; ptitle := Some plain; prich_text := None;
     pselect := None; pmulti_select := None; pcheckbox := false |}.

Definition richTextValue (plain : list string) : PropertyValue :=
  {| ptype := Some "rich_text"; ptitle := None; prich_text := Some plain;
     pselect := None; pmulti_select := None; pcheckbox := false |}.

Definition checkboxValue (b : bool) : PropertyValue :=
  {| ptype := Some "checkbox"; ptitle := None; prich_text := None;
     pselect := None; pmulti_select := None; pcheckbox := b |}.

(** A page with a title, a rich text and two checkboxes. *)
Definition taskPage : JsObject PropertyValue :=
  [("Name", titleValue ["Groceries"]);
   ("Notes", richTextValue ["for "; "Sunday"]);
   ("Milk", checkboxValue true);
   ("Eggs", checkboxValue false)].

(** A stand-in for the regular expression of [keepToNotion] that matches no
    line. *)
Definition matchNothing (line : string) : option (string * string) := None.

(** A stand-in for the HMAC: a digest of 64 characters whatever the input. *)
Definition constantDigest (secret body : string) : string :=
  "0000000000000000000000000000000000000000000000000000000000000000".

(** ** api/internal/sync.ts *)

(** [req.body] when it is an object: [action] and [direction] are [None]
    when absent or not strings (no such value equals a [case] label or is
    included in the list of directions). *)
Record SyncRequestBody := {
  action : option string;
  direction : option string
}.

Record SyncRequest := {
  sync_method : string;
  x_api_key : option string;
  sync_body : option SyncRequestBody
}.

(** The environment of one call of the internal endpoint: the configured
    key, the answers to the KV requests, the answers of [listKeepNotes] and
    [queryNotionDatabase], [new Date(t).toISOString()] (which throws on an
    invalid time value) and the message of the [TypeError] thrown when
    [req.body] is [undefined]. *)
Record SyncEnv := {
  INTERNAL_API_KEY : option string;
  storeEnv : Env;
  keepNotesReply : Result (list KeepNote);
  notionPagesReply : Result (list NotionPage);
  toISOString : Z -> Result string;
  destructuringError : string
}.

Record MappingEntry := {
  entry_notionPageId : string;
  entry_keepNoteName : string;
  entry_lastSyncedNotionTime : string;
  entry_lastSyncedKeepTime : option string;
  entry_lastWriteOrigin : Origin;
  entry_lastWriteTimestamp : string
}.

Inductive SyncAnswer :=
| SError (error : string)
| SInvalidAction (validActions : list string)
| SInvalidDirection (validDirections : list string)
| SStatus (mappings_count keepNotes_count notionPages_count : nat)
    (unmappedKeep unmappedNotion : Z)
| SMappings (entries : list MappingEntry)
| SForceSync (message note : string)
| SInternalError (message : string).

Record SyncResponse := {
  sync_status : nat;
  sync_answer : SyncAnswer
}.

(** [array.map(f)] for an [f] that can throw: the first throw ends it. *)
Fixpoint map_throwing {S A B} (f : A -> M S B) (l : list A) : M S (list B) :=
  match l with
  | [] => ret []
  | x :: l' =>
      let! y := f x in
      let! ys := map_throwing f l' in
      ret (y :: ys)
  end.

(** The object [handleListMappings] builds for one mapping, [iso] being
    its formatted timestamp. *)
Definition mappingEntry (m : SyncMapping) (iso : string) : MappingEntry :=
  {| entry_notionPageId := notionPageId m;
     entry_keepNoteName := keepNoteName m;
     entry_lastSyncedNotionTime := lastSyncedNotionEditedTime m;
     entry_lastSyncedKeepTime := lastSyncedKeepUpdateTime m;
     entry_lastWriteOrigin := lastWriteOrigin m;
     entry_lastWriteTimestamp := iso |}.

Module InternalSync.

Definition listKeepNotes (se : SyncEnv) : M World (list KeepNote) :=
  liftR (keepNotesReply se).

Definition queryNotionDatabase (se : SyncEnv) (databaseId : string)
  : M World (list NotionPage) :=
  liftR (notionPagesReply se).

Definition handleStatus (se : SyncEnv) : M World SyncResponse :=
  let! mappings := getAllMappings (storeEnv se) in
  let! keepNotes := listKeepNotes se in
  let! notionPages :=
    queryNotionDatabase se (NOTION_DATABASE_ID (storeEnv se)) in
  ret {| sync_status := 200;
         sync_answer :=
           SStatus (length mappings) (length keepNotes) (length notionPages)
             (Z.of_nat (length keepNotes) - Z.of_nat (length mappings))
             (Z.of_nat (length notionPages) - Z.of_nat (length mappings)) |}.

Definition handleListMappings (se : SyncEnv) : M World SyncResponse :=
  let! mappings := getAllMappings (storeEnv se) in
  let! entries :=
    map_throwing
      (fun m =>
         let! iso := liftR (toISOString se (lastWriteTimestamp m)) in
         ret (mappingEntry m iso))
      mappings in
  ret {| sync_status := 200; sync_answer := SMappings entries |}.

Definition validDirections : list string :=
  ["notion-to-keep"; "keep-to-notion"; "both"].

Definition handleForceSync (body : SyncRequestBody) : M World SyncResponse :=
  match or_null (direction body) with
  | Some d =>
      if existsb (String.eqb d) validDirections then
        ret {| sync_status := 200;
               sync_answer :=
                 SForceSync ("Force sync initiated: " ++ d)
                   "This is a placeholder. Implement full sync logic as needed." |}
      else
        ret {| sync_status := 400;
               sync_answer := SInvalidDirection validDirections |}
  | None =>
      ret {| sync_status := 400;
             sync_answer := SInvalidDirection validDirections |}
  end.

Definition handler (se : SyncEnv) (req : SyncRequest) : M World SyncResponse :=
  if negb (String.eqb (sync_method req) "POST") then
    ret {| sync_status := 405; sync_answer := SError "Method not allowed" |}
  else if negb (bool_decide (x_api_key req = INTERNAL_API_KEY se)) then
    ret {| sync_status := 401; sync_answer := SError "Unauthorized" |}
  else
    try_catch
      (match sync_body req with
       | None => throw (destructuringError se)
       | Some body =>
           let invalid :=
             ret {| sync_status := 400;
                    sync_answer :=
                      SInvalidAction
                        ["status"; "list-mappings"; "force-sync"] |} in
           match action body with
           | Some a =>
               if String.eqb a "status" then handleStatus se
               else if String.eqb a "list-mappings" then handleListMappings se
               else if String.eqb a "force-sync" then handleForceSync body
               else invalid
           | None => invalid
           end
       end)
      (fun message =>
         ret {| sync_status := 500; sync_answer := SInternalError message |}).

End InternalSync.

(** The date of the proleptic Gregorian calendar that lies [z] days after
    1970-01-01, as year, month and day. *)
Definition civil_from_days (z : Z) : Z * Z * Z :=
  (let z := z + 719468 in
   let era := z / 146097 in
   let doe := z - era * 146097 in
   let yoe := (doe - doe / 1460 + doe / 36524 - doe / 146096) / 365 in
   let doy := doe - (365 * yoe + yoe / 4 - yoe / 100) in
   let mp := (5 * doy + 2) / 153 in
   let d := doy - (153 * mp + 2) / 5 + 1 in
   let m := if mp <? 10 then mp + 3 else mp - 9 in
   let y := yoe + era * 400 in
   (if m <=? 2 then y + 1 else y, m, d))%Z.

(** The last [width] decimal digits of [n]. *)
Fixpoint digits (width : nat) (n : Z) : string :=
  match width with
  | 0 => ""
  | S w =>
      digits w (n / 10)
      ++ String (Ascii.ascii_of_nat (48 + Z.to_nat (n mod 10))) ""
  end.

(** An instance of [toISOString] for the examples: [new
    Date(t).toISOString()], which throws on a time value outside the range
    of [Date]. *)
Definition isoString (t : Z) : Result string :=
  if ((t <? -8640000000000000) || (8640000000000000 <? t))%Z
  then Throw "Invalid time value"
  else
    let day := (t / 86400000)%Z in
    let ms := (t mod 86400000)%Z in
    let '(y, m, d) := civil_from_days day in
    let year :=
      if ((0 <=? y) && (y <=? 9999))%Z then digits 4 y
      else (if (y <? 0)%Z then "-" else "+") ++ digits 6 (Z.abs y) in
    Ok (year ++ "-" ++ digits 2 m ++ "-" ++ digits 2 d ++ "T"
        ++ digits 2 (ms / 3600000)%Z ++ ":" ++ digits 2 (ms / 60000 mod 60)%Z
        ++ ":" ++ digits 2 (ms / 1000 mod 60)%Z ++ "."
        ++ digits 3 (ms mod 1000)%Z ++ "Z").

(** An environment of the internal endpoint with the key [k3y], in which
    nothing fails. *)
Definition syncEnv : SyncEnv :=
  {| INTERNAL_API_KEY := Some "k3y";
     storeEnv := calm t0 page1 note1;
     keepNotesReply := Ok [note1];
     notionPagesReply := Ok [page1];
     toISOString := isoString;
     destructuringError :=
       "Cannot destructure property 'action' of 'req.body' as it is undefined." |}.

Definition syncRequest (a : string) (d : option string) : SyncRequest :=
  {| sync_method := "POST";
     x_api_key := Some "k3y";
     sync_body := Some {| action := Some a; direction := d |} |}.

(** * Properties *)

(** ** The example clock *)

Example isoTime_epoch : isoTime "1970-01-01T00:00:00.000Z" = Some 0%Z.
Proof. reflexivity. Qed.

Example isoTime_2024 :
  isoTime "2024-01-01T00:00:10.000Z" = Some t0
  /\ isoTime "2024-02-29T12:34:56.789Z" = Some 1709210096789%Z
  /\ isoTime "2023-02-29T12:34:56.789Z" = None
  /\ isoTime "yesterday" = None.
Proof. repeat split; reflexivity. Qed.

(** ** Frame lemmas for the store operations *)

Arguments shouldSkipDueToCooldown : simpl never.

Ltac munfold :=
  unfold bind, ret, throw, liftR, liftW, count, try_catch in *; simpl in *.

Lemma kv_request_read_frame {A} e (f : KV -> A) w :
  store (snd (kv_request e (fun kv => (f kv, kv)) w)) = store w
  /\ calls (snd (kv_request e (fun kv => (f kv, kv)) w)) = calls w.
Proof. unfold kv_request. destruct (kvFault e (kvCalls w)); simpl; auto. Qed.

Lemma kv_request_calls {A} e (op : KV -> A * KV) w :
  calls (snd (kv_request e op w)) = calls w.
Proof.
  unfold kv_request. destruct (kvFault e (kvCalls w)); simpl; auto.
  destruct (op (store w)); reflexivity.
Qed.

Lemma getSyncState_frame e w :
  store (snd (getSyncState e w)) = store w
  /\ calls (snd (getSyncState e w)) = calls w.
Proof.
  unfold getSyncState, kv_request. munfold.
  destruct (kvFault e (kvCalls w)); simpl; auto.
Qed.

Lemma getMapping_frame e pageId w :
  store (snd (getMapping e pageId w)) = store w
  /\ calls (snd (getMapping e pageId w)) = calls w.
Proof. apply kv_request_read_frame. Qed.

Lemma getMappingByKeepName_frame e noteName w :
  store (snd (getMappingByKeepName e noteName w)) = store w
  /\ calls (snd (getMappingByKeepName e noteName w)) = calls w.
Proof.
  unfold getMappingByKeepName. munfold.
  pose proof (getSyncState_frame e w) as [Hs Hc].
  destruct (getSyncState e w) as [[state|message] w1]; simpl in *; auto.
  destruct (find _ _) as [pageId|]; simpl; auto.
  destruct (String.eqb pageId ""); simpl; auto.
  pose proof (getMapping_frame e pageId w1) as [Hs' Hc'].
  rewrite Hs', Hc'. auto.
Qed.

Lemma upsertMapping_calls e m w :
  calls (snd (upsertMapping e m w)) = calls w.
Proof.
  unfold upsertMapping, getSyncState, kv_set_state, kv_request. munfold.
  repeat (case_match; simpl in *; simplify_eq; auto).
Qed.

(** ** C5: the cooldown guard *)

Lemma guard_same_origin (now : Z) (m : SyncMapping) (c : Z) :
  shouldSkipDueToCooldown now (Some m) (lastWriteOrigin m) c
  = (now - lastWriteTimestamp m <? c)%Z.
Proof.
  unfold shouldSkipDueToCooldown.
  destruct (lastWriteOrigin m); reflexivity.
Qed.

Lemma guard_other_origin (now : Z) (m : SyncMapping) (o : Origin) (c : Z) :
  lastWriteOrigin m <> o -> shouldSkipDueToCooldown now (Some m) o c = false.
Proof.
  unfold shouldSkipDueToCooldown.
  destruct (lastWriteOrigin m), o; simpl; congruence.
Qed.

(** C5. For a mapping whose last write came from the incoming origin, the
    guard suppresses exactly when the time elapsed since that write is
    strictly below the cooldown; at an elapsed time equal to the cooldown it
    does not suppress. *)
Theorem cooldown_guard_boundary (now : Z) (m : SyncMapping) (o : Origin) (c : Z) :
  o = lastWriteOrigin m ->
  (shouldSkipDueToCooldown now (Some m) o c = true
     <-> (now - lastWriteTimestamp m < c)%Z)
  /\ ((now - lastWriteTimestamp m = c)%Z ->
      shouldSkipDueToCooldown now (Some m) o c = false).
Proof.
  intros ->. rewrite guard_same_origin. split.
  - apply Z.ltb_lt.
  - intros ->. apply Z.ltb_irrefl.
Qed.

Lemma cooldown_guard_boundary_witness :
  (shouldSkipDueToCooldown (t0 + 29999) (Some (mappingFrom keep t0)) keep 30000
     = true
     <-> (t0 + 29999 - lastWriteTimestamp (mappingFrom keep t0) < 30000)%Z)
  /\ ((t0 + 29999 - lastWriteTimestamp (mappingFrom keep t0) = 30000)%Z ->
      shouldSkipDueToCooldown (t0 + 29999) (Some (mappingFrom keep t0)) keep
        30000 = false).
Proof.
  apply (cooldown_guard_boundary (t0 + 29999) (mappingFrom keep t0) keep 30000).
  reflexivity.
Defined.

(** One millisecond before the end of the window the guard suppresses; at
    the end of the window, and from the other origin, it does not. *)
Example guard_at_the_boundary :
  shouldSkipDueToCooldown (t0 + 29999) (Some (mappingFrom keep t0)) keep
    defaultCooldownMs = true
  /\ shouldSkipDueToCooldown (t0 + 30000) (Some (mappingFrom keep t0)) keep
       defaultCooldownMs = false
  /\ shouldSkipDueToCooldown (t0 + 1) (Some (mappingFrom keep t0)) notion
       defaultCooldownMs = false
  /\ shouldSkipDueToCooldown (t0 + 1) None keep defaultCooldownMs = false.
Proof. repeat split; reflexivity. Qed.

(** ** C8: deletion notifications *)

(** C8. A [page_deleted] notification never touches the world: no write
    request is issued and the store is left as it was, whatever else the
    request holds.  When it is an authenticated POST, it is acknowledged
    with status 200. *)
Theorem page_deleted_is_noop (e : Env) (req : WebhookRequest) (w : World) :
  type (payload req) = "page_deleted" ->
  snd (Webhook.handler e req w) = w
  /\ (method req = "POST" ->
      is_Some (or_null (notion_signature req)) ->
      signatureCheck e = Ok true ->
      exists b, fst (Webhook.handler e req w) = Ok (json 200 (BMessage b))).
Proof.
  intros Hdel. unfold Webhook.handler. rewrite Hdel. split.
  - destruct (negb (String.eqb (method req) "POST")); [reflexivity|].
    munfold. destruct (or_null (notion_signature req)); [|reflexivity].
    destruct (signatureCheck e) as [[|]|]; simpl; try reflexivity.
    destruct (negb (String.eqb (object (payload req)) "page")); reflexivity.
  - intros -> [sig ->] Hsig. munfold. rewrite Hsig. simpl.
    destruct (negb (String.eqb (object (payload req)) "page")); simpl; eauto.
Qed.

Lemma page_deleted_is_noop_witness :
  snd (Webhook.handler (calm t0 page1 note1) (pageDeleted "page-1")
         (worldOf (storeWith (mappingFrom keep t0))))
  = worldOf (storeWith (mappingFrom keep t0))
  /\ (method (pageDeleted "page-1") = "POST" ->
      is_Some (or_null (notion_signature (pageDeleted "page-1"))) ->
      signatureCheck (calm t0 page1 note1) = Ok true ->
      exists b,
        fst (Webhook.handler (calm t0 page1 note1) (pageDeleted "page-1")
               (worldOf (storeWith (mappingFrom keep t0))))
        = Ok (json 200 (BMessage b))).
Proof.
  apply (page_deleted_is_noop (calm t0 page1 note1) (pageDeleted "page-1")
           (worldOf (storeWith (mappingFrom keep t0)))).
  reflexivity.
Defined.

(** ** C6: a failed write leaves the mapping store alone *)

Lemma webhook_write_failure (e : Env) (req : WebhookRequest) (w : World)
    (message : string) :
  keepReply e = Throw message ->
  store (snd (Webhook.handler e req w)) = store w.
Proof.
  intros Hk. unfold Webhook.handler.
  destruct (negb (String.eqb (method req) "POST")); [reflexivity|].
  munfold. destruct (or_null (notion_signature req)); [|reflexivity].
  destruct (signatureCheck e) as [[|]|]; simpl; try reflexivity.
  destruct (negb (String.eqb (object (payload req)) "page")); [reflexivity|].
  destruct (String.eqb (type (payload req)) "page_deleted"); [reflexivity|].
  unfold getNotionPage. munfold.
  destruct (pageReply e) as [page|]; simpl; [|reflexivity].
  pose proof (getMapping_frame e (payload_id (payload req)) w) as [Hs _].
  destruct (getMapping e (payload_id (payload req)) w) as [[existing|] w1];
    simpl in *; [|exact Hs].
  destruct (shouldSkipDueToCooldown _ _ _ _); simpl; [exact Hs|].
  destruct (translation e); simpl; [|exact Hs].
  unfold upsertKeepNote, updateKeepNote, createKeepNote, remote_write.
  rewrite Hk. destruct (or_null _); simpl; exact Hs.
Qed.

Lemma poll_write_failure (toTime : string -> option Z) (e : Env)
    (note : KeepNote) (s : PollState) (message : string) :
  notionReply e = Throw message ->
  store (world (snd (noteStep toTime e note s))) = store (world s).
Proof.
  intros Hn. unfold noteStep, processNote.
  destruct (trashed note); [reflexivity|].
  destruct (String.eqb (name note) ""); [reflexivity|].
  munfold.
  pose proof (getMappingByKeepName_frame e (name note) (world s)) as [Hs _].
  destruct (getMappingByKeepName e (name note) (world s))
    as [[existing|] w1]; simpl in *; [|exact Hs].
  destruct (shouldSkipDueToCooldown _ _ _ _); simpl; [exact Hs|].
  destruct (match existing with Some _ => _ | None => _ end); simpl;
    [exact Hs|].
  destruct (translation e); simpl; [|exact Hs].
  unfold updateNotionPage, createNotionPage, remote_write.
  rewrite Hn. destruct existing; simpl; exact Hs.
Qed.

(** C6. When the write to the other side throws, the whole store (every
    primary record and the state object with its index) is the one from
    before the event: the mapping upsert is not run.  This holds for a
    webhook delivery whose Keep write fails and for a polled note whose
    Notion write fails. *)
Theorem write_failure_leaves_mappings (toTime : string -> option Z) (e : Env)
    (req : WebhookRequest) (note : KeepNote) (w : World) (s : PollState)
    (keepMessage notionMessage : string) :
  keepReply e = Throw keepMessage ->
  notionReply e = Throw notionMessage ->
  store (snd (Webhook.handler e req w)) = store w
  /\ store (world (snd (noteStep toTime e note s))) = store (world s).
Proof.
  intros Hk Hn.
  split; [eapply webhook_write_failure | eapply poll_write_failure]; eauto.
Qed.

Lemma write_failure_leaves_mappings_witness :
  store (snd (Webhook.handler (failingWrites t0) (pageUpdated "page-1")
                (worldOf (storeWith (mappingFrom keep 0)))))
  = store (worldOf (storeWith (mappingFrom keep 0)))
  /\ store (world (snd (noteStep isoTime (failingWrites t0) (noteNamed "notes/z")
                          (startOf (storeWith (mappingFrom keep 0))))))
     = store (world (startOf (storeWith (mappingFrom keep 0)))).
Proof.
  apply (write_failure_leaves_mappings isoTime (failingWrites t0)
           (pageUpdated "page-1") (noteNamed "notes/z")
           (worldOf (storeWith (mappingFrom keep 0)))
           (startOf (storeWith (mappingFrom keep 0)))
           "Keep API error: 503" "Notion API error: 503");
    reflexivity.
Defined.

(** At the input of the witness both writes are attempted and fail: the
    webhook answers 500, the poll loop records the error. *)
Example write_failure_is_reached :
  Webhook.handler (failingWrites t0) (pageUpdated "page-1")
    (worldOf (storeWith (mappingFrom keep 0)))
  = (Ok (json 500 (BInternalError "Keep API error: 503")),
     {| store := storeWith (mappingFrom keep 0);
        calls := [KeepUpdate "notes/n1"]; kvCalls := 1 |})
  /\ noteStep isoTime (failingWrites t0) (noteNamed "notes/z")
       (startOf (storeWith (mappingFrom keep 0)))
     = (Ok Failed,
        {| world := {| store := storeWith (mappingFrom keep 0);
                       calls := [NotionCreate "db"]; kvCalls := 1 |};
           summary := errors_push {| entry_id := "notes/z";
                                     entry_error := "Notion API error: 503" |}
                        emptySummary |}).
Proof. split; reflexivity. Qed.

(** ** The poll loop, one iteration at a time *)

Ltac note_cases :=
  unfold noteStep, processNote, updateNotionPage, createNotionPage,
    remote_write in *;
  munfold;
  repeat (case_match; simpl in *; simplify_eq).

(** An iteration always ends normally, at one of the six exits, and changes
    the counters as that exit prescribes. *)
Lemma noteStep_effect (toTime : string -> option Z) (e : Env)
    (note : KeepNote) (s : PollState) :
  exists o s',
    noteStep toTime e note s = (Ok o, s')
    /\ step_effect o (summary s) (summary s').
Proof.
  note_cases;
    (eexists _, _; split; [reflexivity | simpl; eauto]).
Qed.


Lemma ignored_note (toTime : string -> option Z) (e : Env) (note : KeepNote)
    (s : PollState) :
  trashed note = true \/ name note = "" ->
  noteStep toTime e note s = (Ok Ignored, s).
Proof.
  intros [H|H]; unfold noteStep, processNote; munfold; rewrite H.
  - reflexivity.
  - destruct (trashed note); reflexivity.
Qed.

Lemma pollLoop_total (toTime : string -> option Z) (envs : nat -> Env)
    (notes : list KeepNote) :
  forall i s, exists s', pollLoop toTime envs i notes s = (Ok tt, s').
Proof.
  induction notes as [|note rest IH]; intros i s; simpl.
  - eexists; reflexivity.
  - destruct (noteStep_effect toTime (envs i) note s) as (o & s1 & Hstep & _).
    unfold bind at 1. rewrite Hstep. apply IH.
Qed.


(** An iteration accounts for its note exactly once, unless it passes it
    over. *)
Lemma noteStep_accounted (toTime : string -> option Z) (e : Env)
    (note : KeepNote) (s : PollState) :
  accounted (summary (snd (noteStep toTime e note s)))
  = accounted (summary s) + (if isPolled note then 1 else 0).
Proof.
  unfold accounted, isPolled.
  note_cases; simpl; rewrite ?length_app; simpl; lia.
Qed.

Lemma step_effect_bounded (o : Outcome) (a b : Summary) :
  step_effect o a b -> counters_bounded a -> counters_bounded b.
Proof.
  unfold counters_bounded.
  destruct o; simpl; intros H [H1 H2]; subst; simpl; try lia;
    destruct H as (entry & [-> | [-> | ->]]); simpl;
    rewrite length_app; simpl; lia.
Qed.

Lemma pollLoop_bounded (toTime : string -> option Z) (envs : nat -> Env)
    (notes : list KeepNote) :
  forall i s,
    counters_bounded (summary s) ->
    counters_bounded (summary (snd (pollLoop toTime envs i notes s))).
Proof.
  induction notes as [|note rest IH]; intros i s Hs; simpl; [exact Hs|].
  destruct (noteStep_effect toTime (envs i) note s) as (o & s1 & Hstep & Heff).
  unfold bind. rewrite Hstep. apply IH.
  eapply step_effect_bounded; eauto.
Qed.

Lemma upsertMapping_reliable (e : Env) (m : SyncMapping) (w : World) :
  kv_reliable e -> exists w', upsertMapping e m w = (Ok tt, w').
Proof.
  intros Hrel. unfold upsertMapping, getSyncState, kv_set_state, kv_request.
  munfold. rewrite !Hrel. simpl. eexists; reflexivity.
Qed.

Lemma noteStep_balanced (toTime : string -> option Z) (e : Env)
    (note : KeepNote) (s : PollState) :
  kv_reliable e ->
  processed (summary s) = created (summary s) + updated (summary s) ->
  processed (summary (snd (noteStep toTime e note s)))
  = created (summary (snd (noteStep toTime e note s)))
    + updated (summary (snd (noteStep toTime e note s))).
Proof.
  intros Hrel Hs. note_cases; simpl; try lia;
    match goal with
    | H : upsertMapping ?e' ?m ?w = (Throw _, _) |- _ =>
        destruct (upsertMapping_reliable e' m w Hrel) as [? Hx];
        rewrite Hx in H; discriminate
    end.
Qed.

Lemma pollLoop_balanced (toTime : string -> option Z) (envs : nat -> Env)
    (notes : list KeepNote) :
  (forall i, kv_reliable (envs i)) ->
  forall i s,
    processed (summary s) = created (summary s) + updated (summary s) ->
    processed (summary (snd (pollLoop toTime envs i notes s)))
    = created (summary (snd (pollLoop toTime envs i notes s)))
      + updated (summary (snd (pollLoop toTime envs i notes s))).
Proof.
  intros Hrel. induction notes as [|note rest IH]; intros i s Hs; simpl;
    [exact Hs|].
  pose proof (noteStep_balanced toTime (envs i) note s (Hrel i) Hs) as Hb.
  destruct (noteStep_effect toTime (envs i) note s) as (o & s1 & Hstep & _).
  unfold bind. rewrite Hstep in *. apply IH. exact Hb.
Qed.

(** ** C7: batch isolation *)



(** The batch of the specification: ten unmapped notes, the translator
    throws on the fourth.  Nine pages are created, nine notes are counted as
    processed, one error is recorded, and the notes after the fourth are
    written like the ones before it. *)
Example ten_notes_fourth_throws :
  summary (snd (pollLoop isoTime tenEnvs 0 tenNotes (startOf emptyStore)))
  = {| processed := 9; created := 9; updated := 0; skipped := 0;
       errors := [{| entry_id := "notes/d";
                     entry_error := "TranslationError" |}] |}
  /\ calls (world (snd (pollLoop isoTime tenEnvs 0 tenNotes
                          (startOf emptyStore))))
     = repeat (NotionCreate "db") 9
  /\ map (fun m => keepNoteName (snd m))
       (index (store (world (snd (pollLoop isoTime tenEnvs 0 tenNotes
                                    (startOf emptyStore))))))
     = ["notes/a"; "notes/b"; "notes/c"; "notes/e"; "notes/f"; "notes/g";
        "notes/h"; "notes/i"; "notes/j"].
Proof. repeat split; vm_compute; reflexivity. Qed.

(** ** C10: the counters of a poll summary *)

(** C10, as stated, fails: [created] is incremented as soon as the page is
    created, [processed] only after the mapping upsert.  One unmapped note
    whose page is created and whose mapping upsert then throws gives a
    summary with [created = 1] and [processed = 0]. *)
Lemma processed_differs_from_created_plus_updated :
  fst (PollKeep.handler isoTime (cronEnv [note1] (fun _ => kvDownFrom 1 t0 page1))
         cronRequest (worldOf emptyStore))
  = Ok (json 200
          (BPolled {| processed := 0; created := 1; updated := 0; skipped := 0;
                      errors := [{| entry_id := "notes/n1";
                                    entry_error := "KV unreachable" |}] |})).
Proof. vm_compute. reflexivity. Qed.

Lemma noteStep_not_counted (toTime : string -> option Z) (e : Env)
    (note : KeepNote) (s : PollState) :
  exists o s1,
    noteStep toTime e note s = (Ok o, s1)
    /\ (o = SkippedCooldown \/ o = SkippedUnchanged \/ o = Failed ->
        processed (summary s1) = processed (summary s))
    /\ (trashed note = true \/ name note = "" -> o = Ignored /\ s1 = s).
Proof.
  destruct (noteStep_effect toTime e note s) as (o & s1 & Hstep & Heff).
  exists o, s1. split; [exact Hstep|]. split.
  - intros [-> | [-> | ->]]; simpl in Heff;
      try (rewrite Heff; reflexivity).
    destruct Heff as (entry & [-> | [-> | ->]]); reflexivity.
  - intros H. rewrite (ignored_note toTime e note s H) in Hstep.
    inversion Hstep. auto.
Qed.

(** C10 (amended). The poll handler always answers, and a summary it
    returns satisfies [processed <= created + updated <= processed +
    |errors|]; the three counters satisfy [processed = created + updated]
    when no KV request fails while the notes are processed.  A note that
    is skipped (by cooldown or by the version check) or that errors leaves
    [processed] as it was, and a trashed or nameless note changes nothing at
    all: no counter, no error entry, no state. *)
Theorem poll_summary_counters (toTime : string -> option Z) (pe : PollEnv)
    (req : PollRequest) (w : World) :
  (exists resp w',
     PollKeep.handler toTime pe req w = (Ok resp, w')
     /\ forall d,
         body resp = BPolled d ->
         processed d <= created d + updated d
         /\ created d + updated d <= processed d + length (errors d)
         /\ ((forall i, kv_reliable (noteEnv pe i)) ->
             processed d = created d + updated d))
  /\ (forall e note s,
        exists o s1,
          noteStep toTime e note s = (Ok o, s1)
          /\ (o = SkippedCooldown \/ o = SkippedUnchanged \/ o = Failed ->
              processed (summary s1) = processed (summary s))
          /\ (trashed note = true \/ name note = "" -> o = Ignored /\ s1 = s)).
Proof.
  split; [|apply noteStep_not_counted].
  unfold PollKeep.handler.
  destruct (negb (String.eqb (poll_method req) "GET"));
    [eexists _, _; split; [reflexivity | intros d H; discriminate]|].
  destruct (_ && _ && _);
    [eexists _, _; split; [reflexivity | intros d H; discriminate]|].
  unfold try_catch, bind at 1, liftR at 1.
  destruct (listReply pe) as [notes|message];
    [|eexists _, _; split; [reflexivity | intros d H; discriminate]].
  set (s0 := {| world := w; summary := emptySummary |}).
  pose proof (pollLoop_bounded toTime (noteEnv pe) notes 0 s0) as Hb.
  pose proof (fun H => pollLoop_balanced toTime (noteEnv pe) notes H 0 s0) as He.
  destruct (pollLoop_total toTime (noteEnv pe) notes 0 s0) as [s' Hloop].
  rewrite Hloop in *. simpl in Hb, He. munfold.
  destruct (updateLastPolled (finalEnv pe) (nowPolled pe) (world s'))
    as [[[]|message] w2];
    (eexists _, _; split; [reflexivity | simpl; intros d H; simplify_eq]).
  destruct Hb as [H1 H2]; [split; simpl; lia|].
  repeat split; auto.
Qed.

Lemma poll_summary_counters_witness :
  (exists resp w',
     PollKeep.handler isoTime (cronEnv tenNotes tenEnvs) cronRequest
       (worldOf emptyStore) = (Ok resp, w')
     /\ forall d,
         body resp = BPolled d ->
         processed d <= created d + updated d
         /\ created d + updated d <= processed d + length (errors d)
         /\ ((forall i, kv_reliable (noteEnv (cronEnv tenNotes tenEnvs) i)) ->
             processed d = created d + updated d))
  /\ (forall e note s,
        exists o s1,
          noteStep isoTime e note s = (Ok o, s1)
          /\ (o = SkippedCooldown \/ o = SkippedUnchanged \/ o = Failed ->
              processed (summary s1) = processed (summary s))
          /\ (trashed note = true \/ name note = "" -> o = Ignored /\ s1 = s)).
Proof.
  exact (poll_summary_counters isoTime (cronEnv tenNotes tenEnvs) cronRequest
           (worldOf emptyStore)).
Defined.

(** The handler does return a summary at that input, with all KV requests
    answered. *)
Example poll_summary_returned :
  fst (PollKeep.handler isoTime (cronEnv tenNotes tenEnvs) cronRequest
         (worldOf emptyStore))
  = Ok (json 200
          (BPolled {| processed := 9; created := 9; updated := 0; skipped := 0;
                      errors := [{| entry_id := "notes/d";
                                    entry_error := "TranslationError" |}] |})).
Proof. vm_compute. reflexivity. Qed.

(** ** The index object and the lookup by note name *)

Lemma prop_get_set {V} (k k' : string) (v : V) (o : JsObject V) :
  prop_get k' (prop_set k v o) = if String.eqb k k' then Some v else prop_get k' o.
Proof.
  induction o as [|[k0 v0] o IH]; simpl.
  - reflexivity.
  - destruct (String.eqb k0 k) eqn:E0; simpl.
    + apply String.eqb_eq in E0. subst k0.
      destruct (String.eqb k k'); reflexivity.
    + rewrite IH. destruct (String.eqb k0 k') eqn:E1; [|reflexivity].
      apply String.eqb_eq in E1. subst k0. rewrite String.eqb_sym, E0.
      reflexivity.
Qed.

Lemma prop_get_delete {V} (k : string) (o : JsObject V) :
  prop_get k (prop_delete k o) = None.
Proof.
  induction o as [|[k0 v0] o IH]; simpl; [reflexivity|].
  destruct (String.eqb k0 k) eqn:E0; simpl; [exact IH|].
  rewrite E0. exact IH.
Qed.

Lemma prop_get_keys {V} (k : string) (o : JsObject V) :
  In k (keys o) <-> is_Some (prop_get k o).
Proof.
  induction o as [|[k0 v0] o IH]; simpl.
  - split; [tauto | intros [? ?]; discriminate].
  - destruct (String.eqb k0 k) eqn:E0.
    + apply String.eqb_eq in E0. split; eauto.
    + apply String.eqb_neq in E0. rewrite <- IH. tauto.
Qed.

Lemma keys_prop_set {V} (k : string) (v : V) (o : JsObject V) :
  (In k (keys o) -> keys (prop_set k v o) = keys o)
  /\ (~ In k (keys o) -> keys (prop_set k v o) = (keys o ++ [k])%list).
Proof.
  induction o as [|[k0 v0] o [IH1 IH2]]; simpl.
  - split; [tauto | reflexivity].
  - destruct (String.eqb k0 k) eqn:E0; simpl.
    + apply String.eqb_eq in E0. split; [reflexivity | tauto].
    + apply String.eqb_neq in E0. unfold keys in *. split; intros H.
      * rewrite IH1; [reflexivity | tauto].
      * rewrite IH2; [reflexivity | tauto].
Qed.

(** [hasOwnProperty] and the keys. *)
Lemma hasOwnProperty_keys {V} (k : string) (o : JsObject V) :
  hasOwnProperty k o = true <-> In k (keys o).
Proof.
  rewrite prop_get_keys. unfold hasOwnProperty.
  destruct (prop_get k o); split; eauto; try discriminate.
  intros [? ?]; discriminate.
Qed.

Lemma hasOwnProperty_false {V} (k : string) (o : JsObject V) :
  hasOwnProperty k o = false <-> prop_get k o = None.
Proof.
  unfold hasOwnProperty. destruct (prop_get k o); split; congruence.
Qed.

(** Where a new property is placed: the object is cut in two, and the
    property stands between the two parts. *)
Lemma insert_index_split {V} (n : N) (k : string) (v : V) (o : JsObject V) :
  exists o1 o2,
    o = (o1 ++ o2)%list
    /\ insert_index n k v o = (o1 ++ (k, v) :: o2)%list
    /\ (forall k1, In k1 (keys o1) ->
          exists n1, array_index k1 = Some n1 /\ (n1 < n)%N)
    /\ match o2 with
       | [] => True
       | (k2, _) :: _ =>
           forall n2, array_index k2 = Some n2 -> (n <= n2)%N
       end.
Proof.
  induction o as [|[k0 v0] o (o1 & o2 & Ho & Hins & Hlow & Hhigh)]; simpl.
  - exists [], []. repeat split; auto. intros k1 [].
  - destruct (array_index k0) as [n0|] eqn:E0.
    + destruct (n0 <? n)%N eqn:Hlt.
      * exists ((k0, v0) :: o1), o2. simpl. rewrite Ho at 1. rewrite Hins.
        repeat split; auto.
        intros k1 [<-|H1]; [|auto].
        exists n0. split; [exact E0 | apply N.ltb_lt; exact Hlt].
      * exists [], ((k0, v0) :: o). simpl. repeat split; auto.
        -- intros k1 [].
        -- intros n2 H2. rewrite E0 in H2. injection H2 as <-.
           apply N.ltb_ge. exact Hlt.
    + exists [], ((k0, v0) :: o). simpl. repeat split; auto.
      * intros k1 [].
      * intros n2 H2. congruence.
Qed.

Lemma prop_get_app {V} (k : string) (o1 o2 : JsObject V) :
  prop_get k (o1 ++ o2)%list
  = match prop_get k o1 with
    | Some v => Some v
    | None => prop_get k o2
    end.
Proof.
  induction o1 as [|[k0 v0] o1 IH]; simpl; [reflexivity|].
  destruct (String.eqb k0 k); [reflexivity | exact IH].
Qed.

Lemma keys_app {V} (o1 o2 : JsObject V) :
  keys (o1 ++ o2)%list = (keys o1 ++ keys o2)%list.
Proof. apply map_app. Qed.

(** What an assignment creates: nothing for the key [__proto__] when it is
    not an own property, a property at the place described otherwise. *)
Lemma js_assign_cases {V} (key : string) (value : V) (o : JsObject V) :
  (hasOwnProperty key o = true /\ js_assign key value o = prop_set key value o)
  \/ (prop_get key o = None /\ key = "__proto__" /\ js_assign key value o = o)
  \/ (prop_get key o = None /\ key <> "__proto__"
      /\ exists o1 o2,
           o = (o1 ++ o2)%list
           /\ js_assign key value o = (o1 ++ (key, value) :: o2)%list
           /\ match array_index key with
              | Some n =>
                  (forall k1, In k1 (keys o1) ->
                     exists n1, array_index k1 = Some n1 /\ (n1 < n)%N)
                  /\ match o2 with
                     | [] => True
                     | (k2, _) :: _ =>
                         forall n2, array_index k2 = Some n2 -> (n <= n2)%N
                     end
              | None => o2 = []
              end).
Proof.
  unfold js_assign. destruct (hasOwnProperty key o) eqn:Hown; [auto|].
  apply hasOwnProperty_false in Hown. right.
  destruct (String.eqb key "__proto__") eqn:Hproto.
  - apply String.eqb_eq in Hproto. auto.
  - apply String.eqb_neq in Hproto. right. repeat split; auto.
    destruct (array_index key) as [n|].
    + destruct (insert_index_split n key value o)
        as (o1 & o2 & Ho & Hins & Hlow & Hhigh).
      exists o1, o2. auto.
    + exists o, []. rewrite app_nil_r. auto.
Qed.

Lemma prop_get_js_assign {V} (key k : string) (v : V) (o : JsObject V) :
  prop_get k (js_assign key v o)
  = if String.eqb key k && creates key o then Some v else prop_get k o.
Proof.
  unfold creates.
  destruct (js_assign_cases key v o)
    as [[Hown ->]|[(Hnone & -> & ->)|(Hnone & Hproto & o1 & o2 & Ho & -> & _)]].
  - rewrite prop_get_set, Hown. simpl. rewrite andb_true_r. reflexivity.
  - apply hasOwnProperty_false in Hnone. rewrite Hnone. simpl.
    rewrite andb_false_r. reflexivity.
  - apply String.eqb_neq in Hproto. rewrite Hproto, orb_true_r, andb_true_r.
    subst o. rewrite !prop_get_app in *. simpl.
    destruct (prop_get key o1) eqn:E1; [discriminate|].
    destruct (String.eqb key k) eqn:E.
    + apply String.eqb_eq in E. subst k. rewrite E1. reflexivity.
    + destruct (prop_get k o1); reflexivity.
Qed.

Lemma keys_js_assign {V} (key k : string) (v : V) (o : JsObject V) :
  In k (keys (js_assign key v o))
  <-> In k (keys o) \/ (k = key /\ creates key o = true).
Proof.
  rewrite !prop_get_keys, prop_get_js_assign.
  destruct (String.eqb key k) eqn:E; simpl.
  - apply String.eqb_eq in E. subst k.
    destruct (creates key o) eqn:C.
    + split; eauto.
    + split; [auto|]. intros [H|[_ H]]; [exact H | discriminate].
  - apply String.eqb_neq in E. split; [auto|].
    intros [H|[H _]]; [exact H | congruence].
Qed.

Lemma js_assign_own_keys {V} (key : string) (v : V) (o : JsObject V) :
  In key (keys o) -> keys (js_assign key v o) = keys o.
Proof.
  intros H. unfold js_assign.
  rewrite (proj2 (hasOwnProperty_keys key o) H).
  apply keys_prop_set. exact H.
Qed.

Lemma enumeration_order_app (l1 l2 : list string) :
  enumeration_order (l1 ++ l2)
  <-> enumeration_order l1 /\ enumeration_order l2
      /\ (forall a b, In a l1 -> In b l2 -> precedes a b).
Proof.
  induction l1 as [|k l1 IH]; simpl.
  - tauto.
  - rewrite IH. setoid_rewrite in_app_iff. split.
    + intros (Hk & H1 & H2 & H12). repeat split; auto.
      intros a b [<-|Ha] Hb; auto.
    + intros ((Hk & H1) & H2 & H12). repeat split; auto.
      intros k' [H|H]; auto.
Qed.

Lemma prop_delete_keys {V} (k x : string) (o : JsObject V) :
  In x (keys (prop_delete k o)) -> In x (keys o).
Proof.
  induction o as [|[k0 v0] o IH]; simpl; [tauto|].
  destruct (String.eqb k0 k); simpl; tauto.
Qed.

(** The write path keeps a dictionary in enumeration order: array indices
    first, in ascending order, then the other keys. *)
Lemma js_assign_enumeration_order {V} (key : string) (v : V) (o : JsObject V) :
  enumeration_order (keys o) -> enumeration_order (keys (js_assign key v o)).
Proof.
  intros Ho.
  destruct (js_assign_cases key v o)
    as [[Hown ->]|[(_ & _ & ->)|(_ & _ & o1 & o2 & -> & -> & Hpos)]];
    [|exact Ho|].
  - rewrite (proj1 (keys_prop_set key v o)); [exact Ho|].
    apply hasOwnProperty_keys. exact Hown.
  - rewrite keys_app in *. simpl.
    apply enumeration_order_app in Ho as (H1 & H2 & H12).
    destruct (array_index key) as [n|] eqn:Hkey.
    + destruct Hpos as [Hlow Hhigh].
      assert (Hafter : forall k', In k' (keys o2) -> precedes key k').
      { intros k' Hk'. unfold precedes.
        destruct (array_index k') as [n'|] eqn:E'; [|exact I].
        exists n. split; [exact Hkey|].
        destruct o2 as [|[k2 v2] o2]; [destruct Hk'|].
        simpl in Hk', H2. destruct Hk' as [<-|Hk'].
        - apply Hhigh. exact E'.
        - destruct H2 as [H2 _]. specialize (H2 k' Hk'). unfold precedes in H2.
          rewrite E' in H2. destruct H2 as (n2 & E2 & Hle).
          specialize (Hhigh n2 E2). lia. }
      apply enumeration_order_app. repeat split; simpl; auto.
      intros a b Ha [<-|Hb]; [|auto].
      unfold precedes. rewrite Hkey.
      destruct (Hlow a Ha) as (n1 & E1 & Hlt). exists n1. split; [exact E1|lia].
    + subst o2. simpl in *. apply enumeration_order_app. repeat split; simpl; auto.
      * intros k' [].
      * intros a b _ [<-|[]]. unfold precedes. rewrite Hkey. exact I.
Qed.

Lemma prop_delete_enumeration_order {V} (k : string) (o : JsObject V) :
  enumeration_order (keys o) -> enumeration_order (keys (prop_delete k o)).
Proof.
  induction o as [|[k0 v0] o IH]; simpl; [auto|].
  intros [Hk Ho]. destruct (String.eqb k0 k); simpl; [auto|].
  split; [|auto]. intros k' Hk'. apply Hk.
  apply prop_delete_keys in Hk'. exact Hk'.
Qed.

Lemma find_ext {A} (p q : A -> bool) (l : list A) :
  (forall x, In x l -> p x = q x) -> find p l = find q l.
Proof.
  induction l as [|x l IH]; simpl; intros H; [reflexivity|].
  rewrite <- (H x) by auto. destruct (p x); auto.
Qed.

Lemma find_first_kept (p : string -> bool) (k : string) (l : list string) :
  find p l = Some k ->
  find (fun x => String.eqb k x || p x) l = Some k.
Proof.
  induction l as [|x l IH]; simpl; [discriminate|].
  destruct (p x) eqn:Px.
  - intros [= ->]. rewrite String.eqb_refl. reflexivity.
  - intros H. destruct (String.eqb k x) eqn:E; simpl.
    + apply String.eqb_eq in E. congruence.
    + auto.
Qed.

(** A list in which [k] is the only match. *)
Lemma find_only_match (p : string -> bool) (k : string) (l : list string) :
  In k l -> p k = true -> (forall x, In x l -> p x = true -> x = k) ->
  find p l = Some k.
Proof.
  induction l as [|x l IH]; simpl; [tauto|].
  intros Hin Hk Hall. destruct (p x) eqn:Px.
  - f_equal. apply Hall; auto.
  - apply IH; auto. destruct Hin as [->|Hin]; [congruence | exact Hin].
Qed.

Lemma names_js_assign (o : JsObject SyncMapping) (m : SyncMapping) (k x : string) :
  creates k o = true ->
  names (js_assign k m o) (keepNoteName m) x
  = String.eqb k x || names o (keepNoteName m) x.
Proof.
  intros C. unfold names. rewrite prop_get_js_assign, C, andb_true_r.
  destruct (String.eqb k x); simpl; [apply String.eqb_refl | reflexivity].
Qed.

Lemma names_not_own (o : JsObject SyncMapping) (noteName x : string) :
  ~ In x (keys o) -> names o noteName x = false.
Proof.
  intros H. unfold names. destruct (prop_get x o) eqn:E; [|reflexivity].
  exfalso. apply H, prop_get_keys. eauto.
Qed.

(** After [state.mappings[k] = m] has left [k] an own property, the scan
    for the note name of [m] stops at [k], provided that before the
    assignment it stopped at [k] or found nothing. *)
Lemma find_after_js_assign (o : JsObject SyncMapping) (m : SyncMapping)
    (k : string) :
  creates k o = true ->
  find (names o (keepNoteName m)) (keys o) = Some k
  \/ find (names o (keepNoteName m)) (keys o) = None ->
  find (names (js_assign k m o) (keepNoteName m)) (keys (js_assign k m o))
  = Some k.
Proof.
  intros C H.
  rewrite (find_ext _ (fun x => String.eqb k x || names o (keepNoteName m) x))
    by (intros; apply names_js_assign; exact C).
  destruct H as [H|H].
  - rewrite js_assign_own_keys by (apply find_some in H; tauto).
    apply find_first_kept. exact H.
  - apply find_only_match.
    + apply keys_js_assign. auto.
    + rewrite String.eqb_refl. reflexivity.
    + intros x Hx Hp. destruct (String.eqb k x) eqn:E.
      * apply String.eqb_eq in E. auto.
      * simpl in Hp. exfalso.
        destruct (in_dec string_dec x (keys o)) as [Hin|Hout].
        -- pose proof (find_none _ _ H x Hin). congruence.
        -- rewrite names_not_own in Hp by exact Hout. discriminate.
Qed.

(** When the assignment creates nothing the index is the one from before. *)
Lemma js_assign_proto {V} (key : string) (v : V) (o : JsObject V) :
  creates key o = false -> js_assign key v o = o.
Proof.
  unfold creates, js_assign. intros C.
  apply orb_false_iff in C as [-> C]. apply negb_false_iff in C. rewrite C.
  reflexivity.
Qed.

Lemma getMappingByKeepName_cases (e : Env) (noteName : string) (w : World) :
  (exists n, snd (getMappingByKeepName e noteName w) = tick w n)
  /\ ((exists message, fst (getMappingByKeepName e noteName w) = Throw message)
      \/ fst (getMappingByKeepName e noteName w)
         = Ok (lookupByName (store w) noteName)).
Proof.
  unfold getMappingByKeepName, lookupByName, getSyncState, getMapping,
    kv_request, index, names, tick.
  munfold. destruct w as [kv cs n]; simpl.
  destruct (kvFault e n); simpl; [split; [exists 1 | left]; eauto|].
  destruct (stateKey kv) as [state|]; simpl.
  - destruct (find _ _) as [pageId|]; simpl; [|split; [exists 1 | right]; eauto].
    destruct (String.eqb pageId ""); simpl; [split; [exists 1 | right]; eauto|].
    destruct (kvFault e (S n)); simpl; split;
      try (exists 2; reflexivity); eauto.
  - split; [exists 1 | right]; eauto.
Qed.

Lemma getMappingByKeepName_reliable (e : Env) (noteName : string) (w : World) :
  kv_reliable e ->
  fst (getMappingByKeepName e noteName w) = Ok (lookupByName (store w) noteName).
Proof.
  intros Hrel.
  unfold getMappingByKeepName, lookupByName, getSyncState, getMapping,
    kv_request, index, names.
  munfold. rewrite Hrel. simpl.
  destruct (stateKey (store w)) as [state|]; simpl; [|reflexivity].
  destruct (find _ _) as [pageId|]; simpl; [|reflexivity].
  destruct (String.eqb pageId ""); simpl; [reflexivity|].
  rewrite Hrel. reflexivity.
Qed.

Lemma upsertMapping_ok (e : Env) (m : SyncMapping) (w w' : World) :
  upsertMapping e m w = (Ok tt, w') ->
  store w' = upsert_store m (store w) /\ calls w' = calls w.
Proof.
  unfold upsertMapping, getSyncState, kv_set_state, kv_request, upsert_store,
    index.
  munfold. intros H.
  repeat (case_match; simpl in *; simplify_eq); auto.
Qed.

Lemma deleteMapping_ok (e : Env) (pageId : string) (w w' : World) :
  deleteMapping e pageId w = (Ok tt, w') ->
  store w' = delete_store pageId (store w) /\ calls w' = calls w.
Proof.
  unfold deleteMapping, getSyncState, kv_set_state, kv_request, delete_store,
    index.
  munfold. intros H.
  repeat (case_match; simpl in *; simplify_eq); auto.
Qed.

Lemma updateLastPolled_ok (e : Env) (timestamp : Z) (w w' : World) :
  updateLastPolled e timestamp w = (Ok tt, w') ->
  store w'
  = {| mappingKeys := mappingKeys (store w);
       stateKey := Some {| lastPolledAt := timestamp;
                           mappings := index (store w) |} |}
  /\ calls w' = calls w.
Proof.
  unfold updateLastPolled, getSyncState, kv_set_state, kv_request, index.
  munfold. intros H.
  repeat (case_match; simpl in *; simplify_eq); auto.
Qed.

(** [updateLastPolled] rewrites the timestamp only: every lookup, by page
    id or by note name, answers as before. *)
Lemma updateLastPolled_lookup (e : Env) (timestamp : Z) (w w' : World)
    (noteName' : string) :
  updateLastPolled e timestamp w = (Ok tt, w') ->
  lookupByName (store w') noteName' = lookupByName (store w) noteName'
  /\ mappingKeys (store w') = mappingKeys (store w).
Proof.
  intros H. apply updateLastPolled_ok in H as [-> _]. split; reflexivity.
Qed.

(** From a store whose dictionary is in enumeration order, the completed
    writes lead to a store whose dictionary is in enumeration order. *)
Lemma store_enumeration_order (kv : KV) (m : SyncMapping) (pageId : string) :
  enumeration_order (keys (index kv)) ->
  enumeration_order (keys (index (upsert_store m kv)))
  /\ enumeration_order (keys (index (delete_store pageId kv))).
Proof.
  intros H. unfold upsert_store, delete_store, index at 1 3. simpl. split.
  - apply js_assign_enumeration_order. exact H.
  - apply prop_delete_enumeration_order. exact H.
Qed.

Lemma store_ok_empty : store_ok emptyStore.
Proof. intros pageId m H. discriminate. Qed.

Lemma store_ok_upsert (m : SyncMapping) (kv : KV) :
  store_ok kv -> notionPageId m <> "" -> store_ok (upsert_store m kv).
Proof.
  intros Hok Hid pageId m'. unfold upsert_store, index at 1. simpl.
  rewrite prop_get_js_assign.
  destruct (String.eqb (notionPageId m) pageId) eqn:E.
  - apply String.eqb_eq in E. subst pageId.
    destruct (creates (notionPageId m) (index kv)) eqn:C; simpl.
    + intros [= <-]. rewrite lookup_insert_eq. auto.
    + unfold creates in C. apply orb_false_iff in C as [C _].
      apply hasOwnProperty_false in C. rewrite C. discriminate.
  - apply String.eqb_neq in E. simpl. intros H.
    destruct (Hok pageId m' H) as (H1 & H2 & H3).
    rewrite lookup_insert_ne by exact E. auto.
Qed.

(** In a well-formed store the scan and the primary read agree. *)
Lemma lookupByName_find (kv : KV) (noteName : string) :
  store_ok kv ->
  match lookupByName kv noteName with
  | Some m =>
      find (names (index kv) noteName) (keys (index kv)) = Some (notionPageId m)
      /\ keepNoteName m = noteName
      /\ notionPageId m <> ""
  | None => find (names (index kv) noteName) (keys (index kv)) = None
  end.
Proof.
  intros Hok. unfold lookupByName.
  destruct (find _ _) as [pageId|] eqn:F; [|reflexivity].
  apply find_some in F as [_ F]. unfold names in F.
  destruct (prop_get pageId (index kv)) as [m|] eqn:G; [|discriminate].
  destruct (Hok pageId m G) as (H1 & H2 & H3).
  pose proof H1 as H1'. apply String.eqb_neq in H1'. rewrite H1', H2.
  apply String.eqb_eq in F. subst. auto.
Qed.

(** A key found by the scan is an own property, so an assignment to it
    creates no new one. *)
Lemma creates_found (o : JsObject SyncMapping) (noteName k : string) :
  find (names o noteName) (keys o) = Some k -> creates k o = true.
Proof.
  intros H. apply find_some in H as [H _]. unfold creates.
  rewrite (proj2 (hasOwnProperty_keys k o) H). reflexivity.
Qed.

Lemma creates_ordinary {V} (k : string) (o : JsObject V) :
  k <> "__proto__" -> creates k o = true.
Proof.
  intros H. apply String.eqb_neq in H. unfold creates. rewrite H.
  apply orb_true_r.
Qed.

(** The record just upserted is the one the next lookup by its note name
    returns, when the upsert followed a lookup by that name: it replaced the
    record found, or none was found and the page id is not [__proto__]. *)
Lemma lookup_after_upsert (kv : KV) (m : SyncMapping) :
  store_ok kv ->
  notionPageId m <> "" ->
  match lookupByName kv (keepNoteName m) with
  | Some m0 => notionPageId m0 = notionPageId m
  | None => notionPageId m <> "__proto__"
  end ->
  lookupByName (upsert_store m kv) (keepNoteName m) = Some m.
Proof.
  intros Hok Hid Hprev.
  pose proof (lookupByName_find kv (keepNoteName m) Hok) as Hfind.
  unfold lookupByName at 1. unfold upsert_store, index at 1 2. simpl.
  rewrite find_after_js_assign.
  - apply String.eqb_neq in Hid. rewrite Hid. apply lookup_insert_eq.
  - destruct (lookupByName kv (keepNoteName m)) as [m0|].
    + apply (creates_found _ (keepNoteName m)). rewrite <- Hprev. tauto.
    + apply creates_ordinary. exact Hprev.
  - destruct (lookupByName kv (keepNoteName m)) as [m0|].
    + left. rewrite <- Hprev. tauto.
    + right. exact Hfind.
Qed.

(** ** The two drivers on a mapped document *)

Ltac reach H :=
  destruct H as (Hpost & [sig Hsig] & Hcheck & Hobject & Htype & Hpage);
  apply String.eqb_neq in Htype;
  unfold Webhook.handler, getNotionPage;
  rewrite Hpost, Hsig, Hobject, Htype; munfold; rewrite Hcheck, Hpage; simpl.

(** A webhook delivery for a page whose mapping the guard suppresses. *)
Lemma webhook_cooldown (e : Env) (req : WebhookRequest) (page : NotionPage)
    (w : World) (m : SyncMapping) :
  reaches_reconciler e req page ->
  kvFault e (kvCalls w) = None ->
  mappingKeys (store w) !! payload_id (payload req) = Some m ->
  shouldSkipDueToCooldown (nowCooldown e) (Some m) notion defaultCooldownMs
  = true ->
  Webhook.handler e req w
  = (Ok (json 200 (BMessage "Skipped due to cooldown")), tick w 1).
Proof.
  intros Hreach Hkv Hm Hskip. reach Hreach.
  unfold getMapping, kv_request. rewrite Hkv, Hm. simpl. rewrite Hskip.
  reflexivity.
Qed.

(** A completed webhook synchronisation has written the mapping built from
    the page and from the note Keep returned. *)
Lemma webhook_applied (e : Env) (req : WebhookRequest) (w w1 : World)
    (noteName : string) :
  Webhook.handler e req w = (Ok (json 200 (BSynced noteName)), w1) ->
  exists page saved,
    pageReply e = Ok page
    /\ keepReply e = Ok saved
    /\ noteName = name saved
    /\ store w1
       = upsert_store
           {| notionPageId := payload_id (payload req);
              keepNoteName := name saved;
              lastSyncedNotionEditedTime := last_edited_time page;
              lastSyncedKeepUpdateTime := updateTime saved;
              lastWriteOrigin := notion;
              lastWriteTimestamp := nowWrite e |} (store w).
Proof.
  unfold Webhook.handler, getNotionPage, upsertKeepNote, updateKeepNote,
    createKeepNote, remote_write.
  munfold. intros H.
  destruct (negb (String.eqb (method req) "POST")); [discriminate|].
  destruct (or_null (notion_signature req)); [|discriminate].
  destruct (signatureCheck e) as [[|]|]; simpl in H; try discriminate.
  destruct (negb (String.eqb (object (payload req)) "page")); [discriminate|].
  destruct (String.eqb (type (payload req)) "page_deleted"); [discriminate|].
  destruct (pageReply e) as [page|]; simpl in H; [|discriminate].
  pose proof (getMapping_frame e (payload_id (payload req)) w) as [Hs _].
  destruct (getMapping e (payload_id (payload req)) w) as [[existing|] w0];
    simpl in *; [|discriminate].
  destruct (shouldSkipDueToCooldown _ _ _ _); [discriminate|].
  destruct (translation e); simpl in H; [|discriminate].
  destruct (keepReply e) as [saved|] eqn:Hk;
    [|destruct (or_null _); discriminate].
  exists page, saved.
  destruct (or_null _); simpl in H;
    match type of H with
    | context [upsertMapping ?e' ?m ?w'] =>
        destruct (upsertMapping e' m w') as [[[]|] w2] eqn:Hup;
          simpl in H; [|discriminate];
          apply upsertMapping_ok in Hup as [Hup _]; simpl in Hup;
          rewrite Hs in Hup; inversion H; subst; auto
    end.
Qed.

(** A polled note that ends applied has written the mapping built from the
    note and from the page Notion returned, under the page id of the mapping
    found for the note, or under the id of the new page when none was
    found. *)
Lemma poll_applied (toTime : string -> option Z) (e : Env) (note : KeepNote)
    (s s1 : PollState) (o : Outcome) :
  noteStep toTime e note s = (Ok o, s1) ->
  o = AppliedUpdated \/ o = AppliedCreated ->
  exists page pageId,
    notionReply e = Ok page
    /\ polled note
    /\ match lookupByName (store (world s)) (name note) with
       | Some m0 => pageId = notionPageId m0
       | None => pageId = id page
       end
    /\ store (world s1)
       = upsert_store
           {| notionPageId := pageId;
              keepNoteName := name note;
              lastSyncedNotionEditedTime := last_edited_time page;
              lastSyncedKeepUpdateTime := updateTime note;
              lastWriteOrigin := keep;
              lastWriteTimestamp := nowWrite e |} (store (world s)).
Proof.
  intros Hstep Ho.
  pose proof (getMappingByKeepName_cases e (name note) (world s))
    as [[n Htick] Hres].
  pose proof (getMappingByKeepName_frame e (name note) (world s)) as [Hs _].
  unfold noteStep, processNote, updateNotionPage, createNotionPage,
    remote_write, polled in *.
  munfold.
  destruct (trashed note); [destruct Ho; simplify_eq|].
  destruct (String.eqb (name note) "") eqn:Hname; [destruct Ho; simplify_eq|].
  apply String.eqb_neq in Hname.
  destruct (getMappingByKeepName e (name note) (world s)) as [[existing|] w1];
    simpl in *; [|destruct Ho; simplify_eq].
  destruct Hres as [[? ?]|Hres]; [discriminate|]. injection Hres as <-.
  destruct (shouldSkipDueToCooldown _ _ _ _); simpl in *;
    [destruct Ho; simplify_eq|].
  destruct (match existing with Some _ => _ | None => _ end); simpl in *;
    [destruct Ho; simplify_eq|].
  destruct (translation e); simpl in *; [|destruct Ho; simplify_eq].
  destruct (notionReply e) as [page|]; simpl in *;
    [|destruct existing; simpl in *; destruct Ho; simplify_eq].
  exists page.
  destruct existing as [m0|]; simpl in *;
    match type of Hstep with
    | context [upsertMapping ?e' ?m ?w'] =>
        destruct (upsertMapping e' m w') as [[[]|] w2] eqn:Hup;
          simpl in *; [|destruct Ho; simplify_eq];
          apply upsertMapping_ok in Hup as [Hup _]; simpl in Hup;
          rewrite Hs in Hup; inversion Hstep; subst; simpl;
          eexists; repeat split; eauto
    end.
Qed.

(** A polled note whose mapping the guard suppresses, or whose update time
    is not after the recorded one, is skipped without any write; the only
    other end is a failed KV read. *)
Lemma poll_no_write (toTime : string -> option Z) (e : Env) (note : KeepNote)
    (s : PollState) (m : SyncMapping) :
  polled note ->
  lookupByName (store (world s)) (name note) = Some m ->
  shouldSkipDueToCooldown (nowCooldown e) (Some m) keep defaultCooldownMs = true
  \/ js_le (getTime toTime (updateTime note))
       (getTime toTime (lastSyncedKeepUpdateTime m)) = true ->
  exists o s',
    noteStep toTime e note s = (Ok o, s')
    /\ store (world s') = store (world s)
    /\ calls (world s') = calls (world s)
    /\ (o = Failed /\ ~ kv_reliable e
        \/ o = (if shouldSkipDueToCooldown (nowCooldown e) (Some m) keep
                     defaultCooldownMs
                then SkippedCooldown else SkippedUnchanged)
           /\ summary s' = skipped_incr (summary s)).
Proof.
  intros [Htrashed Hname] Hm Hskip.
  pose proof (getMappingByKeepName_cases e (name note) (world s))
    as [_ Hres].
  pose proof (getMappingByKeepName_reliable e (name note) (world s)) as Hrel.
  pose proof (getMappingByKeepName_frame e (name note) (world s)) as [Hs Hc].
  apply String.eqb_neq in Hname.
  unfold noteStep, processNote. rewrite Htrashed, Hname. munfold.
  destruct (getMappingByKeepName e (name note) (world s)) as [[existing|] w1];
    simpl in *.
  - destruct Hres as [[? ?]|Hres]; [discriminate|].
    rewrite Hm in Hres. injection Hres as ->.
    destruct (shouldSkipDueToCooldown _ _ _ _); simpl.
    + eexists _, _. split; [reflexivity|]. simpl. auto.
    + destruct Hskip as [?|Hle]; [discriminate|]. rewrite Hle. simpl.
      eexists _, _. split; [reflexivity|]. simpl. auto.
  - eexists _, _. split; [reflexivity|]. simpl. repeat split; auto.
    left. split; [reflexivity|]. intros R. specialize (Hrel R). discriminate.
Qed.

Lemma guard_within (now : Z) (m : SyncMapping) (o : Origin) (c : Z) :
  lastWriteOrigin m = o -> (now - lastWriteTimestamp m < c)%Z ->
  shouldSkipDueToCooldown now (Some m) o c = true.
Proof.
  intros <- Ht. rewrite guard_same_origin. apply Z.ltb_lt. exact Ht.
Qed.

(** Both drivers keep the store well formed when they apply an event under
    a non-empty page id. *)
Lemma webhook_applied_store_ok (e : Env) (req : WebhookRequest) (w w1 : World)
    (noteName : string) :
  store_ok (store w) ->
  payload_id (payload req) <> "" ->
  Webhook.handler e req w = (Ok (json 200 (BSynced noteName)), w1) ->
  store_ok (store w1).
Proof.
  intros Hok Hid Hsync.
  destruct (webhook_applied e req w w1 noteName Hsync)
    as (page & saved & _ & _ & _ & ->).
  apply store_ok_upsert; assumption.
Qed.

Lemma poll_applied_store_ok (toTime : string -> option Z) (e : Env)
    (note : KeepNote) (s s1 : PollState) (o : Outcome) :
  store_ok (store (world s)) ->
  (forall page, notionReply e = Ok page -> id page <> "") ->
  noteStep toTime e note s = (Ok o, s1) ->
  o = AppliedUpdated \/ o = AppliedCreated ->
  store_ok (store (world s1)).
Proof.
  intros Hok Hids Hstep Ho.
  destruct (poll_applied toTime e note s s1 o Hstep Ho)
    as (page & pageId & Hreply & _ & Hprev & ->).
  apply store_ok_upsert; [assumption|]. simpl.
  pose proof (lookupByName_find (store (world s)) (name note) Hok) as Hfind.
  destruct (lookupByName (store (world s)) (name note)); subst pageId.
  - tauto.
  - apply Hids. exact Hreply.
Qed.

(** ** C4: a same-origin redelivery inside the cooldown window *)

(** C4, as stated, fails: in the scenario of the specification (mapping of
    [doc1] written from Notion 5000 ms ago at version [t1], the event
    arriving from Notion at version [t1]) the webhook answers "Skipped due
    to cooldown", and a polled note in the mirrored situation leaves the
    loop at the cooldown exit, not at the version check. *)
Lemma redelivery_in_window_is_cooldown_skip :
  Webhook.handler (calm t0 doc1 note1) (pageUpdated "doc1")
    (worldOf (storeWith scenarioMapping))
  = (Ok (json 200 (BMessage "Skipped due to cooldown")),
     {| store := storeWith scenarioMapping; calls := []; kvCalls := 1 |})
  /\ fst (noteStep isoTime (calm t0 page1 note1) note1
            (startOf (storeWith (mappingFrom keep (t0 - 5000)))))
     = Ok SkippedCooldown.
Proof. split; vm_compute; reflexivity. Qed.

(** C4 (amended). For a mapping whose stored version equals the version of
    the incoming event, with the event arriving from the origin of the last
    write 5000 ms after it, the outcome is skipped-cooldown on both drivers:
    the cooldown guard is evaluated first, no write is issued and the store
    is left as it was. *)
Theorem same_origin_redelivery_is_cooled (toTime : string -> option Z) :
  (forall e req page w m,
     reaches_reconciler e req page ->
     kvFault e (kvCalls w) = None ->
     mappingKeys (store w) !! payload_id (payload req) = Some m ->
     lastSyncedNotionEditedTime m = last_edited_time page ->
     lastWriteOrigin m = notion ->
     lastWriteTimestamp m = (nowCooldown e - 5000)%Z ->
     Webhook.handler e req w
     = (Ok (json 200 (BMessage "Skipped due to cooldown")), tick w 1))
  /\ (forall e note s m,
        polled note ->
        kv_reliable e ->
        lookupByName (store (world s)) (name note) = Some m ->
        lastSyncedKeepUpdateTime m = updateTime note ->
        lastWriteOrigin m = keep ->
        lastWriteTimestamp m = (nowCooldown e - 5000)%Z ->
        exists s',
          noteStep toTime e note s = (Ok SkippedCooldown, s')
          /\ store (world s') = store (world s)
          /\ calls (world s') = calls (world s)
          /\ summary s' = skipped_incr (summary s)).
Proof.
  split.
  - intros e req page w m Hreach Hkv Hm _ Ho Ht.
    eapply webhook_cooldown; eauto.
    apply guard_within; [exact Ho|]. rewrite Ht. unfold defaultCooldownMs. lia.
  - intros e note s m Hpolled Hrel Hm _ Ho Ht.
    assert (Hguard : shouldSkipDueToCooldown (nowCooldown e) (Some m) keep
                       defaultCooldownMs = true).
    { apply guard_within; [exact Ho|]. rewrite Ht. unfold defaultCooldownMs.
      lia. }
    destruct (poll_no_write toTime e note s m Hpolled Hm (or_introl Hguard))
      as (o & s' & Hstep & Hs & Hc & [[_ Hbad]|[Hout Hsum]]);
      [contradiction|].
    rewrite Hguard in Hout. subst o. eauto.
Qed.

Lemma same_origin_redelivery_is_cooled_witness :
  Webhook.handler (calm t0 doc1 note1) (pageUpdated "doc1")
    (worldOf (storeWith scenarioMapping))
  = (Ok (json 200 (BMessage "Skipped due to cooldown")),
     tick (worldOf (storeWith scenarioMapping)) 1)
  /\ exists s',
       noteStep isoTime (calm t0 page1 note1) note1
         (startOf (storeWith (mappingFrom keep (t0 - 5000))))
       = (Ok SkippedCooldown, s')
       /\ store (world s')
          = store (world (startOf (storeWith (mappingFrom keep (t0 - 5000)))))
       /\ calls (world s')
          = calls (world (startOf (storeWith (mappingFrom keep (t0 - 5000)))))
       /\ summary s'
          = skipped_incr
              (summary (startOf (storeWith (mappingFrom keep (t0 - 5000))))).
Proof.
  split.
  - apply (proj1 (same_origin_redelivery_is_cooled isoTime)
             (calm t0 doc1 note1) (pageUpdated "doc1") doc1
             (worldOf (storeWith scenarioMapping)) scenarioMapping);
      try reflexivity.
    repeat split; try reflexivity; [eexists; reflexivity | discriminate].
  - apply (proj2 (same_origin_redelivery_is_cooled isoTime)
             (calm t0 page1 note1) note1
             (startOf (storeWith (mappingFrom keep (t0 - 5000))))
             (mappingFrom keep (t0 - 5000)));
      try reflexivity.
    + split; [reflexivity | discriminate].
    + intros n. reflexivity.
Defined.

(** ** C2: an event from the side opposite to the last write *)

Lemma js_le_refl (x : option Z) : x <> None -> js_le x x = true.
Proof.
  destruct x as [z|]; [|congruence]. intros _. simpl. apply Z.leb_refl.
Qed.

(** C2, as stated, fails: after the webhook has written [note1] to Keep at
    [t0], the poll loop meets that note five seconds later, inside the
    cooldown window.  The event comes from the side opposite to the last
    write, the guard does not apply to it, and the iteration ends at the
    version check: skipped as unchanged, not skipped by cooldown. *)
Lemma echo_is_not_a_cooldown_skip :
  fst (Webhook.handler (calm t0 page1 note1) (pageUpdated "page-1")
         (worldOf emptyStore))
  = Ok (json 200 (BSynced "notes/n1"))
  /\ shouldSkipDueToCooldown (t0 + 5000)
       (mappingKeys (store afterWebhook) !! "page-1") keep defaultCooldownMs
     = false
  /\ noteStep isoTime (calm (t0 + 5000) page1 note1) note1
       {| world := afterWebhook; summary := emptySummary |}
     = (Ok SkippedUnchanged,
        {| world := tick afterWebhook 2;
           summary := skipped_incr emptySummary |}).
Proof. repeat split; vm_compute; reflexivity. Qed.

(** C2 (amended). An event arriving from the side opposite to the origin of
    the last write is never suppressed by the cooldown guard, whatever the
    time elapsed.  After a write that the webhook applied from Notion, for a
    page whose id is neither empty nor [__proto__], in a well-formed store in
    which the note name Keep returned was indexed under that page or not at
    all, the echo met by the poll loop (the note Keep returned, named and
    not trashed, with an update time not after the one Keep returned, both
    readable) results in no write at any time, as long as the lookup by
    that note name still answers what it answered right after the write: no
    write request is issued, the store is left as it was, and the iteration
    ends at the version check, skipped as unchanged (or failed, when a KV
    read fails).  A completed [updateLastPolled] between the write and the
    echo leaves every lookup by note name as it was. *)
Theorem echo_from_other_side (toTime : string -> option Z) :
  (forall now m o c,
     lastWriteOrigin m <> o ->
     shouldSkipDueToCooldown now (Some m) o c = false)
  /\ (forall e1 req w w1 noteName e2 echo s2,
        store_ok (store w) ->
        payload_id (payload req) <> "" ->
        payload_id (payload req) <> "__proto__" ->
        Webhook.handler e1 req w = (Ok (json 200 (BSynced noteName)), w1) ->
        match lookupByName (store w) noteName with
        | Some m0 => notionPageId m0 = payload_id (payload req)
        | None => True
        end ->
        lookupByName (store (world s2)) noteName
        = lookupByName (store w1) noteName ->
        polled echo ->
        name echo = noteName ->
        (forall saved,
           keepReply e1 = Ok saved ->
           js_le (getTime toTime (updateTime echo))
             (getTime toTime (updateTime saved)) = true) ->
        exists o s3,
          noteStep toTime e2 echo s2 = (Ok o, s3)
          /\ store (world s3) = store (world s2)
          /\ calls (world s3) = calls (world s2)
          /\ (o = Failed /\ ~ kv_reliable e2
              \/ o = SkippedUnchanged
                 /\ summary s3 = skipped_incr (summary s2)))
  /\ (forall e timestamp w w' noteName,
        updateLastPolled e timestamp w = (Ok tt, w') ->
        lookupByName (store w') noteName = lookupByName (store w) noteName).
Proof.
  split; [apply guard_other_origin|]. split.
  - intros e1 req w w1 noteName e2 echo s2 Hok Hid Hproto Hsync Hfree Hstore
      Hpolled Hname Hle.
    destruct (webhook_applied e1 req w w1 noteName Hsync)
      as (page & saved & _ & Hsaved & -> & Hw1).
    set (m := {| notionPageId := payload_id (payload req);
                 keepNoteName := name saved;
                 lastSyncedNotionEditedTime := last_edited_time page;
                 lastSyncedKeepUpdateTime := updateTime saved;
                 lastWriteOrigin := notion;
                 lastWriteTimestamp := nowWrite e1 |}) in *.
    assert (Hm : lookupByName (store (world s2)) (name echo) = Some m).
    { rewrite Hname, Hstore, Hw1.
      apply (lookup_after_upsert (store w) m Hok Hid). simpl.
      destruct (lookupByName (store w) (name saved)); auto. }
    assert (Hguard : shouldSkipDueToCooldown (nowCooldown e2) (Some m) keep
                       defaultCooldownMs = false)
      by (apply guard_other_origin; discriminate).
    destruct (poll_no_write toTime e2 echo s2 m Hpolled Hm
                (or_intror (Hle saved Hsaved)))
      as (o & s3 & Hstep & Hs & Hc & Hend).
    rewrite Hguard in Hend. exists o, s3. auto.
  - intros e timestamp w w' noteName H.
    apply (updateLastPolled_lookup e timestamp w w' noteName H).
Qed.

Lemma echo_from_other_side_witness :
  shouldSkipDueToCooldown (t0 + 5000) (Some (mappingFrom notion t0)) keep
    defaultCooldownMs = false
  /\ (exists o s3,
        noteStep isoTime (calm (t0 + 5000) page1 note1) note1
          {| world := afterWebhookPolled; summary := emptySummary |}
        = (Ok o, s3)
        /\ store (world s3) = store afterWebhookPolled
        /\ calls (world s3) = calls afterWebhookPolled
        /\ (o = Failed /\ ~ kv_reliable (calm (t0 + 5000) page1 note1)
            \/ o = SkippedUnchanged
               /\ summary s3 = skipped_incr emptySummary))
  /\ lookupByName (store afterWebhookPolled) "notes/n1"
     = lookupByName (store afterWebhook) "notes/n1".
Proof.
  split; [|split].
  - apply (proj1 (echo_from_other_side isoTime)). discriminate.
  - apply (proj1 (proj2 (echo_from_other_side isoTime)) (calm t0 page1 note1)
             (pageUpdated "page-1") (worldOf emptyStore) afterWebhook
             "notes/n1" (calm (t0 + 5000) page1 note1) note1
             {| world := afterWebhookPolled; summary := emptySummary |}).
    + apply store_ok_empty.
    + discriminate.
    + discriminate.
    + vm_compute. reflexivity.
    + exact I.
    + vm_compute. reflexivity.
    + split; [reflexivity | discriminate].
    + reflexivity.
    + intros saved [= <-]. reflexivity.
  - apply (proj2 (proj2 (echo_from_other_side isoTime))
             (calm (t0 + 1000) page1 note1) (t0 + 1000)%Z afterWebhook
             afterWebhookPolled "notes/n1").
    vm_compute. reflexivity.
Defined.

(** At the input of the witness the echo ends at the version check. *)
Example echo_after_a_poll_is_unchanged :
  fst (noteStep isoTime (calm (t0 + 5000) page1 note1) note1
         {| world := afterWebhookPolled; summary := emptySummary |})
  = Ok SkippedUnchanged.
Proof. vm_compute. reflexivity. Qed.

(** ** C3: the version check of the two drivers *)

(** C3. The webhook has no version check.  The mapping of [page1] records
    the page at version [2024-01-01T00:00:00.000Z], written from Keep at
    [t0] (so the guard does not apply to an event from Notion); a
    notification for the page at that same version is not skipped as
    unchanged: the note is updated in Keep and the mapping is rewritten with
    Notion as origin.  The poll loop, on a note at the recorded version,
    stops at its version check. *)
Theorem webhook_rewrites_unchanged_page :
  lastSyncedNotionEditedTime (mappingFrom keep t0) = last_edited_time page1
  /\ Webhook.handler (calm (t0 + 5000) page1 note1) (pageUpdated "page-1")
       (worldOf (storeWith (mappingFrom keep t0)))
     = (Ok (json 200 (BSynced "notes/n1")),
        {| store := storeWith (mappingFrom notion (t0 + 5000));
           calls := [KeepUpdate "notes/n1"];
           kvCalls := 4 |})
  /\ noteStep isoTime (calm (t0 + 5000) page1 note1) note1
       (startOf (storeWith (mappingFrom notion t0)))
     = (Ok SkippedUnchanged,
        {| world := {| store := storeWith (mappingFrom notion t0);
                       calls := []; kvCalls := 2 |};
           summary := skipped_incr emptySummary |}).
Proof. repeat split; vm_compute; reflexivity. Qed.

(** The same holds outside the cooldown window for an event from the origin
    of the last write: a second delivery of a notification the webhook has
    already applied is applied again. *)
Example webhook_applies_a_replay_after_the_window :
  Webhook.handler (calm (t0 + 30000) page1 note1) (pageUpdated "page-1")
    afterWebhook
  = (Ok (json 200 (BSynced "notes/n1")),
     {| store := storeWith (mappingFrom notion (t0 + 30000));
        calls := [KeepCreate; KeepUpdate "notes/n1"];
        kvCalls := 8 |}).
Proof. vm_compute. reflexivity. Qed.

(** ** C1: delivering the same event twice *)

(** C1, as stated, fails: a second delivery of the same event inside the
    cooldown window ends at the cooldown guard, which comes first, and not
    at skipped-unchanged.  Shown for a note polled twice, five seconds
    apart, and for a page notified twice, five seconds apart. *)
Lemma replay_in_window_is_cooldown_skip :
  fst (noteStep isoTime (calm t0 page1 note1) note1 (startOf emptyStore))
  = Ok AppliedCreated
  /\ fst (noteStep isoTime (calm (t0 + 5000) page1 note1) note1 afterPoll)
     = Ok SkippedCooldown
  /\ fst (Webhook.handler (calm t0 page1 note1) (pageUpdated "page-1")
            (worldOf emptyStore))
     = Ok (json 200 (BSynced "notes/n1"))
  /\ fst (Webhook.handler (calm (t0 + 5000) page1 note1) (pageUpdated "page-1")
            afterWebhook)
     = Ok (json 200 (BMessage "Skipped due to cooldown")).
Proof. repeat split; vm_compute; reflexivity. Qed.

(** C1 (amended). A note that the poll loop has applied (created or
    updated) in a well-formed store, Notion answering with a page whose id
    is neither empty nor [__proto__], and that is delivered a second time
    with the same name and the same, readable, update time, is never
    applied again as long as the lookup by its name still answers what it
    answered right after the first delivery: no write request is issued and
    the store is left as it was; the iteration ends skipped by cooldown when
    the second delivery comes within the cooldown of the first write,
    skipped as unchanged otherwise (or failed, when a KV read fails).  A
    notification that the webhook has applied, delivered a second time (an
    authenticated POST of the same page event, whose page Notion returns
    and whose KV read is answered) within the cooldown of the first write,
    while the primary record of its page is still the one that write
    stored, is skipped by cooldown.  A completed [updateLastPolled], which
    ends every cron run, leaves the lookups by note name and the primary
    records as they were. *)
Theorem replay_is_not_applied_twice (toTime : string -> option Z) :
  (forall e1 e2 note s s1 s2 o,
     store_ok (store (world s)) ->
     (forall page,
        notionReply e1 = Ok page -> id page <> "" /\ id page <> "__proto__") ->
     getTime toTime (updateTime note) <> None ->
     noteStep toTime e1 note s = (Ok o, s1) ->
     o = AppliedUpdated \/ o = AppliedCreated ->
     lookupByName (store (world s2)) (name note)
     = lookupByName (store (world s1)) (name note) ->
     exists o2 s3,
       noteStep toTime e2 note s2 = (Ok o2, s3)
       /\ store (world s3) = store (world s2)
       /\ calls (world s3) = calls (world s2)
       /\ (o2 = Failed /\ ~ kv_reliable e2
           \/ o2 = (if (nowCooldown e2 - nowWrite e1 <? defaultCooldownMs)%Z
                    then SkippedCooldown else SkippedUnchanged)
              /\ summary s3 = skipped_incr (summary s2)))
  /\ (forall e1 e2 req page2 w w1 w2 noteName,
        Webhook.handler e1 req w = (Ok (json 200 (BSynced noteName)), w1) ->
        mappingKeys (store w2) !! payload_id (payload req)
        = mappingKeys (store w1) !! payload_id (payload req) ->
        reaches_reconciler e2 req page2 ->
        kvFault e2 (kvCalls w2) = None ->
        (nowCooldown e2 - nowWrite e1 < defaultCooldownMs)%Z ->
        Webhook.handler e2 req w2
        = (Ok (json 200 (BMessage "Skipped due to cooldown")), tick w2 1))
  /\ (forall e timestamp w w' noteName,
        updateLastPolled e timestamp w = (Ok tt, w') ->
        lookupByName (store w') noteName = lookupByName (store w) noteName
        /\ mappingKeys (store w') = mappingKeys (store w)).
Proof.
  split; [|split].
  - intros e1 e2 note s s1 s2 o Hok Hids Htime Hstep Ho Hstore.
    destruct (poll_applied toTime e1 note s s1 o Hstep Ho)
      as (page & pageId & Hreply & Hpolled & Hprev & Hs1).
    set (m := {| notionPageId := pageId;
                 keepNoteName := name note;
                 lastSyncedNotionEditedTime := last_edited_time page;
                 lastSyncedKeepUpdateTime := updateTime note;
                 lastWriteOrigin := keep;
                 lastWriteTimestamp := nowWrite e1 |}) in *.
    pose proof (lookupByName_find (store (world s)) (name note) Hok) as Hfind.
    destruct (Hids page Hreply) as [Hne Hproto].
    assert (Hid : notionPageId m <> "").
    { simpl. destruct (lookupByName (store (world s)) (name note)) as [m0|].
      - subst pageId. tauto.
      - subst pageId. exact Hne. }
    assert (Hm : lookupByName (store (world s2)) (name note) = Some m).
    { rewrite Hstore, Hs1.
      apply (lookup_after_upsert (store (world s)) m Hok Hid). simpl.
      destruct (lookupByName (store (world s)) (name note)); subst pageId;
        auto. }
    assert (Hguard : shouldSkipDueToCooldown (nowCooldown e2) (Some m) keep
                       defaultCooldownMs
                     = (nowCooldown e2 - nowWrite e1 <? defaultCooldownMs)%Z)
      by apply (guard_same_origin (nowCooldown e2) m).
    rewrite <- Hguard.
    apply poll_no_write; auto.
    right. simpl. apply js_le_refl. exact Htime.
  - intros e1 e2 req page2 w w1 w2 noteName Hsync Hstore Hreach Hkv Ht.
    destruct (webhook_applied e1 req w w1 noteName Hsync)
      as (page & saved & _ & _ & _ & Hw1).
    eapply webhook_cooldown; eauto.
    + rewrite Hstore, Hw1. simpl. apply lookup_insert_eq.
    + apply guard_within; [reflexivity | exact Ht].
  - intros e timestamp w w' noteName H.
    apply (updateLastPolled_lookup e timestamp w w' noteName H).
Qed.

Lemma replay_is_not_applied_twice_witness :
  (exists o2 s3,
     noteStep isoTime (calm (t0 + 40000) page1 note1) note1 afterCronRun
     = (Ok o2, s3)
     /\ store (world s3) = store (world afterCronRun)
     /\ calls (world s3) = calls (world afterCronRun)
     /\ (o2 = Failed /\ ~ kv_reliable (calm (t0 + 40000) page1 note1)
         \/ o2 = (if (nowCooldown (calm (t0 + 40000) page1 note1)
                      - nowWrite (calm t0 page1 note1)
                      <? defaultCooldownMs)%Z
                  then SkippedCooldown else SkippedUnchanged)
            /\ summary s3 = skipped_incr (summary afterCronRun)))
  /\ Webhook.handler (calm (t0 + 5000) page1 note1) (pageUpdated "page-1")
       afterWebhookPolled
     = (Ok (json 200 (BMessage "Skipped due to cooldown")),
        tick afterWebhookPolled 1)
  /\ lookupByName (store (world afterCronRun)) "notes/n1"
     = lookupByName (store (world afterPoll)) "notes/n1"
  /\ mappingKeys (store (world afterCronRun))
     = mappingKeys (store (world afterPoll)).
Proof.
  split; [|split].
  - apply (proj1 (replay_is_not_applied_twice isoTime) (calm t0 page1 note1)
             (calm (t0 + 40000) page1 note1) note1 (startOf emptyStore)
             afterPoll afterCronRun AppliedCreated).
    + apply store_ok_empty.
    + intros page [= <-]. split; discriminate.
    + discriminate.
    + vm_compute. reflexivity.
    + right. reflexivity.
    + vm_compute. reflexivity.
  - apply (proj1 (proj2 (replay_is_not_applied_twice isoTime))
             (calm t0 page1 note1) (calm (t0 + 5000) page1 note1)
             (pageUpdated "page-1") page1 (worldOf emptyStore) afterWebhook
             afterWebhookPolled "notes/n1").
    + vm_compute. reflexivity.
    + vm_compute. reflexivity.
    + repeat split; try reflexivity; [eexists; reflexivity | discriminate].
    + reflexivity.
    + reflexivity.
  - apply (proj2 (proj2 (replay_is_not_applied_twice isoTime))
             (calm (t0 + 1000) page1 note1) (t0 + 1000)%Z (world afterPoll)
             (world afterCronRun) "notes/n1").
    vm_compute. reflexivity.
Defined.

(** Beyond the window the second delivery of the polled note ends at the
    version check. *)
Example replay_after_window_is_unchanged :
  fst (noteStep isoTime (calm (t0 + 40000) page1 note1) note1 afterPoll)
  = Ok SkippedUnchanged
  /\ fst (noteStep isoTime (calm (t0 + 40000) page1 note1) note1 afterCronRun)
     = Ok SkippedUnchanged.
Proof. split; vm_compute; reflexivity. Qed.

(** Two cron runs over the same note, forty seconds apart: the first
    creates the page, the second writes nothing and leaves the mapping
    records as they were. *)
Example second_cron_run_writes_nothing :
  fst (PollKeep.handler isoTime
         (cronEnv [note1] (fun _ => calm t0 page1 note1)) cronRequest
         (worldOf emptyStore))
  = Ok (json 200
          (BPolled {| processed := 1; created := 1; updated := 0;
                      skipped := 0; errors := [] |}))
  /\ PollKeep.handler isoTime
       (cronEnv [note1] (fun _ => calm (t0 + 40000) page1 note1)) cronRequest
       (snd (PollKeep.handler isoTime
               (cronEnv [note1] (fun _ => calm t0 page1 note1)) cronRequest
               (worldOf emptyStore)))
     = (Ok (json 200
              (BPolled {| processed := 0; created := 0; updated := 0;
                          skipped := 1; errors := [] |})),
        {| store := store (world afterCronRun);
           calls := [NotionCreate "db"];
           kvCalls := 10 |}).
Proof. split; vm_compute; reflexivity. Qed.

(** ** C9: the lookup by note name *)

Lemma prop_get_In {V} (k : string) (v : V) (o : JsObject V) :
  prop_get k o = Some v -> In (k, v) o.
Proof.
  induction o as [|[k0 v0] o IH]; simpl; [discriminate|].
  destruct (String.eqb k0 k) eqn:E.
  - apply String.eqb_eq in E. intros [= ->]. subst. auto.
  - auto.
Qed.

Lemma find_all_false {A} (p : A -> bool) (l : list A) :
  (forall x, In x l -> p x = false) -> find p l = None.
Proof.
  induction l as [|x l IH]; simpl; intros H; [reflexivity|].
  rewrite (H x) by auto. apply IH. auto.
Qed.

Lemma find_app_none {A} (p : A -> bool) (l l' : list A) :
  find p l = None -> find p (l ++ l') = find p l'.
Proof.
  induction l as [|x l IH]; simpl; [reflexivity|].
  destruct (p x); [discriminate | exact IH].
Qed.

(** The scan stops at the first entry that carries the note name. *)
Lemma find_first_entry (o1 o2 : JsObject SyncMapping) (k : string)
    (m : SyncMapping) (noteName : string) :
  (forall k1 m1, In (k1, m1) o1 -> k1 <> k /\ keepNoteName m1 <> noteName) ->
  keepNoteName m = noteName ->
  find (names (o1 ++ (k, m) :: o2)%list noteName)
    (keys (o1 ++ (k, m) :: o2)%list)
  = Some k.
Proof.
  intros Hbefore Hname. rewrite keys_app. simpl.
  rewrite find_app_none.
  - simpl. unfold names at 1. rewrite prop_get_app.
    destruct (prop_get k o1) as [m1|] eqn:E1.
    + apply prop_get_In, Hbefore in E1. tauto.
    + simpl. rewrite String.eqb_refl.
      apply String.eqb_eq in Hname. rewrite Hname. reflexivity.
  - apply find_all_false. intros x Hx. unfold names. rewrite prop_get_app.
    apply prop_get_keys in Hx as [m1 Hm1]. rewrite Hm1.
    apply prop_get_In, Hbefore in Hm1 as [_ Hm1].
    apply String.eqb_neq. exact Hm1.
Qed.

(** The scan finds nothing exactly when no entry carries the note name. *)
Lemma find_no_entry (o : JsObject SyncMapping) (noteName : string) :
  (forall k1 m1, In (k1, m1) o -> keepNoteName m1 <> noteName) ->
  find (names o noteName) (keys o) = None.
Proof.
  intros Hall. apply find_all_false. intros x Hx. unfold names.
  apply prop_get_keys in Hx as [m1 Hm1]. rewrite Hm1.
  apply prop_get_In, Hall in Hm1. apply String.eqb_neq. exact Hm1.
Qed.

(** The KV requests of a lookup by note name that are all answered: one for
    the state object, and one for the primary record of the key found. *)
Lemma getMappingByKeepName_run (e : Env) (noteName : string) (w : World) :
  kv_reliable e ->
  getMappingByKeepName e noteName w
  = match find (names (index (store w)) noteName) (keys (index (store w))) with
    | None => (Ok None, tick w 1)
    | Some k =>
        if String.eqb k "" then (Ok None, tick w 1)
        else (Ok (mappingKeys (store w) !! k), tick w 2)
    end.
Proof.
  intros Hrel.
  unfold getMappingByKeepName, getSyncState, getMapping, kv_request, index,
    names, tick.
  munfold. rewrite Hrel. simpl.
  destruct (stateKey (store w)) as [state|]; simpl; [|reflexivity].
  destruct (find _ _) as [k|]; simpl; [|reflexivity].
  destruct (String.eqb k ""); simpl; [reflexivity|].
  rewrite Hrel. reflexivity.
Qed.

(** C9, as stated, fails.  The index is not written together with the
    primary record: when the KV request that rewrites the state object
    fails, the primary record of the new mapping is stored and the lookup
    by its note name finds nothing.  And the lookup is answered from the
    dictionary keyed by page id: with three mappings, finding the third
    takes the request for the state object and the request for the primary
    record of the page found. *)
Lemma lookup_by_name_scans :
  fst (upsertMapping (kvDownFrom 2 t0 page1) (mappingOf "page-d" "notes/d")
         (worldOf (storeOf threeMappings)))
  = Throw "KV unreachable"
  /\ mappingKeys (store halfUpserted) !! "page-d"
     = Some (mappingOf "page-d" "notes/d")
  /\ fst (getMappingByKeepName (calm t0 page1 note1) "notes/d" halfUpserted)
     = Ok None
  /\ getMappingByKeepName (calm t0 page1 note1) "notes/c"
       (worldOf (storeOf threeMappings))
     = (Ok (Some (mappingOf "page-c" "notes/c")),
        tick (worldOf (storeOf threeMappings)) 2).
Proof. repeat split; vm_compute; reflexivity. Qed.

(** C9 (amended). The lookup by right-side identifier is a scan of the
    [mappings] dictionary of the state object, which is keyed by left-side
    identifier.  It reads the state object and answers from the first entry,
    in enumeration order, that carries the note name, whatever the entries
    after it: it then reads the primary record of that entry's key, with a
    second KV request (and answers [null] when that key is the empty
    string).  When no entry at all carries the name it answers [null]
    after the one request.  The dictionary is maintained eagerly, by the
    write path itself, with KV requests of its own: a completed upsert has
    issued three requests and leaves the record under its primary key and,
    unless its page id is [__proto__] and not yet an own key, in the
    dictionary; a completed delete has issued three requests and leaves the
    record in neither; and an upsert that throws after its first request
    was answered has stored the primary record and left the state object,
    with its dictionary, as it was. *)
Theorem lookup_by_name_is_a_scan :
  (forall e noteName w o1 k m o2,
     kv_reliable e ->
     index (store w) = (o1 ++ (k, m) :: o2)%list ->
     (forall k1 m1,
        In (k1, m1) o1 -> k1 <> k /\ keepNoteName m1 <> noteName) ->
     keepNoteName m = noteName ->
     getMappingByKeepName e noteName w
     = if String.eqb k "" then (Ok None, tick w 1)
       else (Ok (mappingKeys (store w) !! k), tick w 2))
  /\ (forall e noteName w,
        kv_reliable e ->
        (forall k1 m1,
           In (k1, m1) (index (store w)) -> keepNoteName m1 <> noteName) ->
        getMappingByKeepName e noteName w = (Ok None, tick w 1))
  /\ (forall e m w w',
        upsertMapping e m w = (Ok tt, w') ->
        kvCalls w' = 3 + kvCalls w
        /\ mappingKeys (store w') !! notionPageId m = Some m
        /\ prop_get (notionPageId m) (index (store w'))
           = if creates (notionPageId m) (index (store w)) then Some m
             else None)
  /\ (forall e pageId w w',
        deleteMapping e pageId w = (Ok tt, w') ->
        kvCalls w' = 3 + kvCalls w
        /\ mappingKeys (store w') !! pageId = None
        /\ prop_get pageId (index (store w')) = None)
  /\ (forall e m w w' message,
        upsertMapping e m w = (Throw message, w') ->
        kvFault e (kvCalls w) = None ->
        mappingKeys (store w') = <[notionPageId m := m]> (mappingKeys (store w))
        /\ stateKey (store w') = stateKey (store w)).
Proof.
  repeat apply conj.
  - intros e noteName w o1 k m o2 Hrel Hidx Hbefore Hname.
    rewrite getMappingByKeepName_run by exact Hrel.
    rewrite Hidx, find_first_entry by assumption. reflexivity.
  - intros e noteName w Hrel Hall.
    rewrite getMappingByKeepName_run by exact Hrel.
    rewrite find_no_entry by exact Hall. reflexivity.
  - intros e m w w' H. split.
    + revert H. unfold upsertMapping, getSyncState, kv_set_state, kv_request.
      munfold. intros H.
      repeat (case_match; simpl in *; simplify_eq); reflexivity.
    + apply upsertMapping_ok in H as [-> _]. simpl. split.
      * apply lookup_insert_eq.
      * unfold index at 1. simpl.
        rewrite prop_get_js_assign, String.eqb_refl. simpl.
        destruct (creates (notionPageId m) (index (store w))) eqn:C;
          [reflexivity|].
        unfold creates in C. apply orb_false_iff in C as [C _].
        apply hasOwnProperty_false in C. exact C.
  - intros e pageId w w' H. split.
    + revert H. unfold deleteMapping, getSyncState, kv_set_state, kv_request.
      munfold. intros H.
      repeat (case_match; simpl in *; simplify_eq); reflexivity.
    + apply deleteMapping_ok in H as [-> _]. simpl. split.
      * apply lookup_delete_eq.
      * unfold index at 1. simpl. apply prop_get_delete.
  - intros e m w w' message H Hkv. revert H.
    unfold upsertMapping, getSyncState, kv_set_state, kv_request.
    munfold. rewrite Hkv. simpl. intros H.
    repeat (case_match; simpl in *; simplify_eq); auto.
Qed.

Lemma lookup_by_name_is_a_scan_witness :
  getMappingByKeepName (calm t0 page1 note1) "notes/b"
    (worldOf (storeOf threeMappings))
  = (if String.eqb "page-b" "" then (Ok None,
                                     tick (worldOf (storeOf threeMappings)) 1)
     else (Ok (mappingKeys (store (worldOf (storeOf threeMappings)))
                 !! "page-b"),
           tick (worldOf (storeOf threeMappings)) 2))
  /\ getMappingByKeepName (calm t0 page1 note1) "notes/zz"
       (worldOf (storeOf threeMappings))
     = (Ok None, tick (worldOf (storeOf threeMappings)) 1)
  /\ (kvCalls (snd (upsertMapping (calm t0 page1 note1)
                      (mappingOf "page-d" "notes/d")
                      (worldOf (storeOf threeMappings))))
      = 3 + kvCalls (worldOf (storeOf threeMappings))
      /\ mappingKeys (store (snd (upsertMapping (calm t0 page1 note1)
                                    (mappingOf "page-d" "notes/d")
                                    (worldOf (storeOf threeMappings)))))
           !! notionPageId (mappingOf "page-d" "notes/d")
         = Some (mappingOf "page-d" "notes/d")
      /\ prop_get (notionPageId (mappingOf "page-d" "notes/d"))
           (index (store (snd (upsertMapping (calm t0 page1 note1)
                                 (mappingOf "page-d" "notes/d")
                                 (worldOf (storeOf threeMappings))))))
         = (if creates (notionPageId (mappingOf "page-d" "notes/d"))
                 (index (store (worldOf (storeOf threeMappings))))
            then Some (mappingOf "page-d" "notes/d") else None))
  /\ (kvCalls (snd (deleteMapping (calm t0 page1 note1) "page-b"
                      (worldOf (storeOf threeMappings))))
      = 3 + kvCalls (worldOf (storeOf threeMappings))
      /\ mappingKeys (store (snd (deleteMapping (calm t0 page1 note1) "page-b"
                                    (worldOf (storeOf threeMappings)))))
           !! "page-b" = None
      /\ prop_get "page-b"
           (index (store (snd (deleteMapping (calm t0 page1 note1) "page-b"
                                 (worldOf (storeOf threeMappings))))))
         = None)
  /\ (mappingKeys (store halfUpserted)
      = <[notionPageId (mappingOf "page-d" "notes/d")
            := mappingOf "page-d" "notes/d"]>
          (mappingKeys (store (worldOf (storeOf threeMappings))))
      /\ stateKey (store halfUpserted)
         = stateKey (store (worldOf (storeOf threeMappings)))).
Proof.
  destruct lookup_by_name_is_a_scan
    as (Hscan & Hnone & Hupsert & Hdelete & Hpartial).
  repeat apply conj.
  - apply (Hscan (calm t0 page1 note1) "notes/b"
             (worldOf (storeOf threeMappings))
             [("page-a", mappingOf "page-a" "notes/a")] "page-b"
             (mappingOf "page-b" "notes/b")
             [("page-c", mappingOf "page-c" "notes/c")]).
    + intros n. reflexivity.
    + reflexivity.
    + intros k1 m1 [[= <- <-]|[]]. split; discriminate.
    + reflexivity.
  - apply Hnone.
    + intros n. reflexivity.
    + intros k1 m1 [[= <- <-]|[[= <- <-]|[[= <- <-]|[]]]]; discriminate.
  - apply (Hupsert (calm t0 page1 note1) (mappingOf "page-d" "notes/d")
             (worldOf (storeOf threeMappings))).
    vm_compute. reflexivity.
  - apply (Hupsert (calm t0 page1 note1) (mappingOf "page-d" "notes/d")
             (worldOf (storeOf threeMappings))).
    vm_compute. reflexivity.
  - apply (Hupsert (calm t0 page1 note1) (mappingOf "page-d" "notes/d")
             (worldOf (storeOf threeMappings))).
    vm_compute. reflexivity.
  - apply (Hdelete (calm t0 page1 note1) "page-b"
             (worldOf (storeOf threeMappings))).
    vm_compute. reflexivity.
  - apply (Hdelete (calm t0 page1 note1) "page-b"
             (worldOf (storeOf threeMappings))).
    vm_compute. reflexivity.
  - apply (Hdelete (calm t0 page1 note1) "page-b"
             (worldOf (storeOf threeMappings))).
    vm_compute. reflexivity.
  - apply (Hpartial (kvDownFrom 2 t0 page1) (mappingOf "page-d" "notes/d")
             (worldOf (storeOf threeMappings)) halfUpserted "KV unreachable").
    + vm_compute. reflexivity.
    + reflexivity.
  - apply (Hpartial (kvDownFrom 2 t0 page1) (mappingOf "page-d" "notes/d")
             (worldOf (storeOf threeMappings)) halfUpserted "KV unreachable").
    + vm_compute. reflexivity.
    + reflexivity.
Defined.

(** The two keys [upsertMapping] treats apart.  A record upserted under an
    array index is enumerated before the records with ordinary page ids; a
    record upserted under [__proto__] is stored under its primary key and
    gets no entry in the dictionary, so the lookup by its note name finds
    nothing. *)
Example upsert_under_special_keys :
  keys (index (store (snd (upsertMapping (calm t0 page1 note1)
                             (mappingOf "7" "notes/d")
                             (worldOf (storeOf threeMappings))))))
  = ["7"; "page-a"; "page-b"; "page-c"]
  /\ keys (index (store (snd (upsertMapping (calm t0 page1 note1)
                                (mappingOf "__proto__" "notes/d")
                                (worldOf (storeOf threeMappings))))))
     = ["page-a"; "page-b"; "page-c"]
  /\ mappingKeys (store (snd (upsertMapping (calm t0 page1 note1)
                                (mappingOf "__proto__" "notes/d")
                                (worldOf (storeOf threeMappings)))))
       !! "__proto__"
     = Some (mappingOf "__proto__" "notes/d")
  /\ fst (getMappingByKeepName (calm t0 page1 note1) "notes/d"
            (snd (upsertMapping (calm t0 page1 note1)
                    (mappingOf "__proto__" "notes/d")
                    (worldOf (storeOf threeMappings)))))
     = Ok None.
Proof. repeat split; vm_compute; reflexivity. Qed.

(** * Further properties of the code *)

(** ** lib/sync-state.ts: the store operations *)

Lemma prop_set_prop_set {V} (k : string) (v1 v2 : V) (o : JsObject V) :
  prop_set k v2 (prop_set k v1 o) = prop_set k v2 o.
Proof.
  induction o as [|[k0 v0] o IH]; simpl.
  - rewrite String.eqb_refl. reflexivity.
  - destruct (String.eqb k0 k) eqn:E; simpl; rewrite E; [reflexivity|].
    rewrite IH. reflexivity.
Qed.

Lemma prop_set_placed {V} (k : string) (v1 v2 : V) (o1 o2 : JsObject V) :
  prop_get k o1 = None ->
  prop_set k v2 (o1 ++ (k, v1) :: o2)%list = (o1 ++ (k, v2) :: o2)%list.
Proof.
  induction o1 as [|[k0 v0] o1 IH]; simpl.
  - rewrite String.eqb_refl. reflexivity.
  - destruct (String.eqb k0 k); [discriminate|].
    intros H. rewrite IH by exact H. reflexivity.
Qed.

Lemma prop_set_insert_index {V} (n : N) (k : string) (v1 v2 : V)
    (o : JsObject V) :
  prop_get k o = None ->
  prop_set k v2 (insert_index n k v1 o) = insert_index n k v2 o.
Proof.
  induction o as [|[k0 v0] o IH]; simpl.
  - rewrite String.eqb_refl. reflexivity.
  - destruct (String.eqb k0 k) eqn:E; [discriminate|]. intros H.
    destruct (array_index k0) as [n0|]; simpl.
    + destruct (n0 <? n)%N; simpl.
      * rewrite E, IH by exact H. reflexivity.
      * rewrite String.eqb_refl. reflexivity.
    + rewrite String.eqb_refl. reflexivity.
Qed.

Lemma js_assign_twice {V} (k : string) (v1 v2 : V) (o : JsObject V) :
  js_assign k v2 (js_assign k v1 o) = js_assign k v2 o.
Proof.
  destruct (creates k o) eqn:C;
    [|rewrite (js_assign_proto k v1 o C); reflexivity].
  assert (Hown : hasOwnProperty k (js_assign k v1 o) = true).
  { apply hasOwnProperty_keys, keys_js_assign. auto. }
  unfold js_assign at 1. rewrite Hown.
  unfold js_assign. unfold creates in C.
  destruct (hasOwnProperty k o) eqn:H; [apply prop_set_prop_set|].
  simpl in C. apply negb_true_iff in C. rewrite C.
  apply hasOwnProperty_false in H.
  destruct (array_index k) as [n|].
  - apply prop_set_insert_index. exact H.
  - apply (prop_set_placed k v1 v2 o []). exact H.
Qed.

Lemma prop_get_delete_ne {V} (k k' : string) (o : JsObject V) :
  k <> k' -> prop_get k' (prop_delete k o) = prop_get k' o.
Proof.
  intros Hne. induction o as [|[k0 v0] o IH]; simpl; [reflexivity|].
  destruct (String.eqb k0 k) eqn:E; simpl.
  - apply String.eqb_eq in E. subst k0.
    apply String.eqb_neq in Hne. rewrite Hne. exact IH.
  - rewrite IH. reflexivity.
Qed.

Lemma upsert_store_twice (m1 m2 : SyncMapping) (kv : KV) :
  notionPageId m1 = notionPageId m2 ->
  upsert_store m2 (upsert_store m1 kv) = upsert_store m2 kv.
Proof.
  intros Hid. unfold upsert_store, index. simpl. rewrite Hid.
  rewrite insert_insert_eq, js_assign_twice. reflexivity.
Qed.

Lemma store_ok_delete (pageId : string) (kv : KV) :
  store_ok kv -> store_ok (delete_store pageId kv).
Proof.
  intros Hok k m. unfold delete_store, index at 1. simpl.
  destruct (String.eqb pageId k) eqn:E.
  - apply String.eqb_eq in E. subst k. rewrite prop_get_delete. discriminate.
  - apply String.eqb_neq in E. rewrite prop_get_delete_ne by exact E.
    intros H. destruct (Hok k m H) as (H1 & H2 & H3).
    rewrite lookup_delete_ne by exact E. auto.
Qed.

(** X1. Insert and lookup: after a completed [upsertMapping], [getMapping]
    returns the upserted record under its page id and, under any other id,
    what the store held before. *)
Theorem upsert_then_getMapping (e e' : Env) (m : SyncMapping) (w w' : World)
    (pageId : string) :
  upsertMapping e m w = (Ok tt, w') ->
  kvFault e' (kvCalls w') = None ->
  fst (getMapping e' pageId w')
  = Ok (if String.eqb (notionPageId m) pageId then Some m
        else mappingKeys (store w) !! pageId).
Proof.
  intros Hup Hkv. apply upsertMapping_ok in Hup as [Hs _].
  unfold getMapping, kv_request. rewrite Hkv, Hs. simpl.
  destruct (String.eqb (notionPageId m) pageId) eqn:E.
  - apply String.eqb_eq in E. subst. rewrite lookup_insert_eq. reflexivity.
  - apply String.eqb_neq in E. rewrite lookup_insert_ne by exact E.
    reflexivity.
Qed.

Lemma upsert_then_getMapping_witness :
  fst (getMapping (calm t0 page1 note1) "page-d"
         (snd (upsertMapping (calm t0 page1 note1)
                 (mappingOf "page-d" "notes/d")
                 (worldOf (storeOf threeMappings)))))
  = Ok (if String.eqb (notionPageId (mappingOf "page-d" "notes/d")) "page-d"
        then Some (mappingOf "page-d" "notes/d")
        else mappingKeys (store (worldOf (storeOf threeMappings))) !! "page-d").
Proof.
  apply (upsert_then_getMapping (calm t0 page1 note1) (calm t0 page1 note1)
           (mappingOf "page-d" "notes/d") (worldOf (storeOf threeMappings))).
  - vm_compute. reflexivity.
  - reflexivity.
Defined.

(** X2. The last writer wins, record by record: upserting a mapping and
    then another one for the same page leaves the store that upserting the
    second alone leaves.  In particular upserting the same record twice is
    upserting it once. *)
Theorem upsert_last_writer_wins (e1 e2 e3 : Env) (m1 m2 : SyncMapping)
    (w w1 w2 w3 : World) :
  notionPageId m1 = notionPageId m2 ->
  upsertMapping e1 m1 w = (Ok tt, w1) ->
  upsertMapping e2 m2 w1 = (Ok tt, w2) ->
  upsertMapping e3 m2 w = (Ok tt, w3) ->
  store w2 = store w3.
Proof.
  intros Hid H1 H2 H3.
  apply upsertMapping_ok in H1 as [H1 _].
  apply upsertMapping_ok in H2 as [H2 _].
  apply upsertMapping_ok in H3 as [H3 _].
  rewrite H2, H1, H3. apply upsert_store_twice. exact Hid.
Qed.

Lemma upsert_last_writer_wins_witness :
  store (snd (upsertMapping (calm t0 page1 note1) (mappingFrom keep (t0 + 7))
                (snd (upsertMapping (calm t0 page1 note1)
                        (mappingFrom notion t0) (worldOf emptyStore)))))
  = store (snd (upsertMapping (calm t0 page1 note1)
                  (mappingFrom keep (t0 + 7)) (worldOf emptyStore))).
Proof.
  apply (upsert_last_writer_wins (calm t0 page1 note1) (calm t0 page1 note1)
           (calm t0 page1 note1) (mappingFrom notion t0)
           (mappingFrom keep (t0 + 7)) (worldOf emptyStore)
           (snd (upsertMapping (calm t0 page1 note1) (mappingFrom notion t0)
                   (worldOf emptyStore))));
    vm_compute; reflexivity.
Defined.

(** X3. After a completed [deleteMapping] the page id has no primary
    record, every other primary record is as before, and no lookup by note
    name returns a mapping of that page when the store was well formed. *)
Theorem delete_then_lookups (e : Env) (pageId : string) (w w' : World) :
  deleteMapping e pageId w = (Ok tt, w') ->
  (forall k,
     mappingKeys (store w') !! k
     = if String.eqb pageId k then None else mappingKeys (store w) !! k)
  /\ (store_ok (store w) ->
      forall e' noteName m,
        fst (getMappingByKeepName e' noteName w') = Ok (Some m) ->
        notionPageId m <> pageId).
Proof.
  intros Hdel. apply deleteMapping_ok in Hdel as [Hs _]. split.
  - intros k. rewrite Hs. simpl. destruct (String.eqb pageId k) eqn:E.
    + apply String.eqb_eq in E. subst. apply lookup_delete_eq.
    + apply String.eqb_neq in E. apply lookup_delete_ne. exact E.
  - intros Hok e' noteName m Hres.
    destruct (getMappingByKeepName_cases e' noteName w') as [_ [[? Hx]|Hx]];
      rewrite Hx in Hres; [discriminate|].
    injection Hres as Hres.
    pose proof (lookupByName_find (store w') noteName) as Hfind.
    rewrite Hs in Hfind, Hres. specialize (Hfind (store_ok_delete _ _ Hok)).
    rewrite Hres in Hfind. destruct Hfind as (Hfind & _ & _).
    apply find_some in Hfind as [Hin _]. intros Heq. rewrite Heq in Hin.
    apply prop_get_keys in Hin as [m' Hm'].
    unfold delete_store, index at 1 in Hm'. simpl in Hm'.
    rewrite prop_get_delete in Hm'. discriminate.
Qed.

Lemma delete_then_lookups_witness :
  (forall k,
     mappingKeys (store (snd (deleteMapping (calm t0 page1 note1) "page-b"
                                (worldOf (storeOf threeMappings))))) !! k
     = if String.eqb "page-b" k then None
       else mappingKeys (store (worldOf (storeOf threeMappings))) !! k)
  /\ (store_ok (store (worldOf (storeOf threeMappings))) ->
      forall e' noteName m,
        fst (getMappingByKeepName e' noteName
               (snd (deleteMapping (calm t0 page1 note1) "page-b"
                       (worldOf (storeOf threeMappings)))))
        = Ok (Some m) ->
        notionPageId m <> "page-b").
Proof.
  apply (delete_then_lookups (calm t0 page1 note1) "page-b"
           (worldOf (storeOf threeMappings))).
  vm_compute. reflexivity.
Defined.

(** X4. [upsertMapping] is not atomic.  When it throws, the state object
    (and with it the index) is the one from before; the primary records are
    either untouched or already hold the new record. *)
Theorem failed_upsert_is_partial (e : Env) (m : SyncMapping) (w w' : World)
    (message : string) :
  upsertMapping e m w = (Throw message, w') ->
  stateKey (store w') = stateKey (store w)
  /\ calls w' = calls w
  /\ (mappingKeys (store w') = mappingKeys (store w)
      \/ mappingKeys (store w')
         = <[notionPageId m := m]> (mappingKeys (store w))).
Proof.
  unfold upsertMapping, getSyncState, kv_set_state, kv_request.
  munfold. intros H.
  repeat (case_match; simpl in *; simplify_eq); auto.
Qed.

Lemma failed_upsert_is_partial_witness :
  stateKey (store halfUpserted) = stateKey (store (worldOf (storeOf threeMappings)))
  /\ calls halfUpserted = calls (worldOf (storeOf threeMappings))
  /\ (mappingKeys (store halfUpserted)
      = mappingKeys (store (worldOf (storeOf threeMappings)))
      \/ mappingKeys (store halfUpserted)
         = <[notionPageId (mappingOf "page-d" "notes/d")
               := mappingOf "page-d" "notes/d"]>
             (mappingKeys (store (worldOf (storeOf threeMappings))))).
Proof.
  apply (failed_upsert_is_partial (kvDownFrom 2 t0 page1)
           (mappingOf "page-d" "notes/d") (worldOf (storeOf threeMappings))
           halfUpserted "KV unreachable").
  vm_compute. reflexivity.
Defined.

(** X5. After a completed [updateLastPolled], [getSyncState] returns the
    new timestamp together with the mappings dictionary from before, and no
    primary record has changed. *)
Theorem last_polled_round_trip (e e' : Env) (timestamp : Z) (w w' : World) :
  updateLastPolled e timestamp w = (Ok tt, w') ->
  kvFault e' (kvCalls w') = None ->
  fst (getSyncState e' w')
  = Ok {| lastPolledAt := timestamp; mappings := index (store w) |}
  /\ mappingKeys (store w') = mappingKeys (store w).
Proof.
  intros Hup Hkv. apply updateLastPolled_ok in Hup as [Hs _].
  unfold getSyncState, kv_request. munfold. rewrite Hkv, Hs. simpl. auto.
Qed.

Lemma last_polled_round_trip_witness :
  fst (getSyncState (calm t0 page1 note1)
         (snd (updateLastPolled (calm t0 page1 note1) (t0 + 9)
                 (worldOf (storeOf threeMappings)))))
  = Ok {| lastPolledAt := t0 + 9;
          mappings := index (store (worldOf (storeOf threeMappings))) |}
  /\ mappingKeys (store (snd (updateLastPolled (calm t0 page1 note1) (t0 + 9)
                                (worldOf (storeOf threeMappings)))))
     = mappingKeys (store (worldOf (storeOf threeMappings))).
Proof.
  apply (last_polled_round_trip (calm t0 page1 note1) (calm t0 page1 note1)
           (t0 + 9) (worldOf (storeOf threeMappings))).
  - vm_compute. reflexivity.
  - reflexivity.
Defined.

(** X6. The mapping writes keep the last-polled timestamp: a completed
    [upsertMapping] or [deleteMapping] rewrites the state object with the
    timestamp it read. *)
Theorem writes_keep_last_polled (e : Env) (m : SyncMapping) (pageId : string)
    (w w' : World) :
  upsertMapping e m w = (Ok tt, w') \/ deleteMapping e pageId w = (Ok tt, w') ->
  polledAt (store w') = polledAt (store w).
Proof.
  intros [H|H].
  - apply upsertMapping_ok in H as [-> _]. reflexivity.
  - apply deleteMapping_ok in H as [-> _]. reflexivity.
Qed.

Lemma writes_keep_last_polled_witness :
  polledAt (store (snd (upsertMapping (calm t0 page1 note1)
                          (mappingOf "page-d" "notes/d")
                          (snd (updateLastPolled (calm t0 page1 note1) (t0 + 9)
                                  (worldOf (storeOf threeMappings)))))))
  = polledAt (store (snd (updateLastPolled (calm t0 page1 note1) (t0 + 9)
                            (worldOf (storeOf threeMappings))))).
Proof.
  apply (writes_keep_last_polled (calm t0 page1 note1)
           (mappingOf "page-d" "notes/d") "page-d"
           (snd (updateLastPolled (calm t0 page1 note1) (t0 + 9)
                   (worldOf (storeOf threeMappings))))).
  left. vm_compute. reflexivity.
Defined.

(** The values of an object after an assignment. *)
Lemma prop_set_values {V} (k : string) (v : V) (o : JsObject V) :
  In k (keys o) ->
  exists o1 v0 o2,
    o = (o1 ++ (k, v0) :: o2)%list
    /\ prop_set k v o = (o1 ++ (k, v) :: o2)%list.
Proof.
  induction o as [|[k0 v0] o IH]; simpl; [tauto|].
  destruct (String.eqb k0 k) eqn:E.
  - apply String.eqb_eq in E. subst k0. intros _.
    exists [], v0, o. auto.
  - apply String.eqb_neq in E. intros [?|H]; [congruence|].
    destruct (IH H) as (o1 & w & o2 & Ho & Hset).
    exists ((k0, v0) :: o1), w, o2. simpl. rewrite <- Ho, Hset. auto.
Qed.

Lemma array_index_not_proto (k : string) (n : N) :
  array_index k = Some n -> k <> "__proto__".
Proof. intros H ->. vm_compute in H. discriminate. Qed.

(** X7. [getAllMappings] after a completed [upsertMapping].  When the page
    id was already a key of the dictionary, the record takes the place of
    the former one.  When it was not, the list is the former list when the
    page id is [__proto__] (the record is not listed), the former list
    followed by the record when the page id is another key that is not an
    array index, and the former list with the record inserted after the
    records of the array indices below its own, ahead of every other
    record, when the page id is an array index. *)
Theorem upsert_then_getAllMappings (e e1 e2 : Env) (m : SyncMapping)
    (w w' : World) :
  upsertMapping e m w = (Ok tt, w') ->
  kvFault e1 (kvCalls w) = None ->
  kvFault e2 (kvCalls w') = None ->
  exists before after,
    fst (getAllMappings e1 w) = Ok before
    /\ fst (getAllMappings e2 w') = Ok after
    /\ before = map snd (index (store w))
    /\ (In (notionPageId m) (keys (index (store w))) ->
        exists o1 m0 o2,
          index (store w) = (o1 ++ (notionPageId m, m0) :: o2)%list
          /\ after = (map snd o1 ++ m :: map snd o2)%list)
    /\ (~ In (notionPageId m) (keys (index (store w))) ->
        notionPageId m = "__proto__" ->
        after = before)
    /\ (~ In (notionPageId m) (keys (index (store w))) ->
        notionPageId m <> "__proto__" ->
        array_index (notionPageId m) = None ->
        after = (before ++ [m])%list)
    /\ (~ In (notionPageId m) (keys (index (store w))) ->
        forall n,
          array_index (notionPageId m) = Some n ->
          exists o1 o2,
            index (store w) = (o1 ++ o2)%list
            /\ after = (map snd o1 ++ m :: map snd o2)%list
            /\ (forall k1, In k1 (keys o1) ->
                  exists n1, array_index k1 = Some n1 /\ (n1 < n)%N)
            /\ match o2 with
               | [] => True
               | (k2, _) :: _ =>
                   forall n2, array_index k2 = Some n2 -> (n <= n2)%N
               end).
Proof.
  intros Hup H1 H2. apply upsertMapping_ok in Hup as [Hs _].
  unfold getAllMappings, getSyncState, kv_request. munfold.
  rewrite H1, H2, Hs. simpl.
  eexists _, _. split; [reflexivity|]. split; [reflexivity|].
  assert (Hidx : mappings match stateKey (store w) with
                           | Some s => s
                           | None => {| lastPolledAt := 0; mappings := [] |}
                           end = index (store w))
    by (unfold index; destruct (stateKey (store w)); reflexivity).
  rewrite Hidx. split; [reflexivity|].
  set (k := notionPageId m). set (o := index (store w)).
  assert (Hout : ~ In k (keys o) -> hasOwnProperty k o = false).
  { intros H. destruct (hasOwnProperty k o) eqn:E; [|reflexivity].
    apply hasOwnProperty_keys in E. contradiction. }
  repeat apply conj.
  - intros Hin.
    destruct (prop_set_values k m o Hin) as (o1 & m0 & o2 & Ho & Hset).
    exists o1, m0, o2. split; [exact Ho|].
    unfold js_assign. rewrite (proj2 (hasOwnProperty_keys k o) Hin), Hset.
    rewrite map_app. reflexivity.
  - intros Hnot Hproto. unfold js_assign.
    rewrite (Hout Hnot), Hproto. reflexivity.
  - intros Hnot Hproto Hidx'. unfold js_assign.
    apply String.eqb_neq in Hproto.
    rewrite (Hout Hnot), Hproto, Hidx', map_app. reflexivity.
  - intros Hnot n Hn. unfold js_assign.
    pose proof (array_index_not_proto k n Hn) as Hproto.
    apply String.eqb_neq in Hproto. rewrite (Hout Hnot), Hproto, Hn.
    destruct (insert_index_split n k m o)
      as (o1 & o2 & Ho & Hins & Hlow & Hhigh).
    exists o1, o2. rewrite Hins, map_app. auto.
Qed.

Lemma upsert_then_getAllMappings_witness :
  exists before after,
    fst (getAllMappings (calm t0 page1 note1) (worldOf (storeOf threeMappings)))
    = Ok before
    /\ fst (getAllMappings (calm t0 page1 note1)
              (snd (upsertMapping (calm t0 page1 note1)
                      (mappingOf "7" "notes/d")
                      (worldOf (storeOf threeMappings)))))
       = Ok after
    /\ before = map snd (index (store (worldOf (storeOf threeMappings))))
    /\ (In (notionPageId (mappingOf "7" "notes/d"))
          (keys (index (store (worldOf (storeOf threeMappings))))) ->
        exists o1 m0 o2,
          index (store (worldOf (storeOf threeMappings)))
          = (o1 ++ (notionPageId (mappingOf "7" "notes/d"), m0) :: o2)%list
          /\ after = (map snd o1 ++ mappingOf "7" "notes/d" :: map snd o2)%list)
    /\ (~ In (notionPageId (mappingOf "7" "notes/d"))
            (keys (index (store (worldOf (storeOf threeMappings))))) ->
        notionPageId (mappingOf "7" "notes/d") = "__proto__" ->
        after = before)
    /\ (~ In (notionPageId (mappingOf "7" "notes/d"))
            (keys (index (store (worldOf (storeOf threeMappings))))) ->
        notionPageId (mappingOf "7" "notes/d") <> "__proto__" ->
        array_index (notionPageId (mappingOf "7" "notes/d")) = None ->
        after = (before ++ [mappingOf "7" "notes/d"])%list)
    /\ (~ In (notionPageId (mappingOf "7" "notes/d"))
            (keys (index (store (worldOf (storeOf threeMappings))))) ->
        forall n,
          array_index (notionPageId (mappingOf "7" "notes/d")) = Some n ->
          exists o1 o2,
            index (store (worldOf (storeOf threeMappings))) = (o1 ++ o2)%list
            /\ after
               = (map snd o1 ++ mappingOf "7" "notes/d" :: map snd o2)%list
            /\ (forall k1, In k1 (keys o1) ->
                  exists n1, array_index k1 = Some n1 /\ (n1 < n)%N)
            /\ match o2 with
               | [] => True
               | (k2, _) :: _ =>
                   forall n2, array_index k2 = Some n2 -> (n <= n2)%N
               end).
Proof.
  apply (upsert_then_getAllMappings (calm t0 page1 note1)
           (calm t0 page1 note1) (calm t0 page1 note1)
           (mappingOf "7" "notes/d") (worldOf (storeOf threeMappings))).
  - vm_compute. reflexivity.
  - reflexivity.
  - reflexivity.
Defined.

(** At the input of the witness the new record is listed first. *)
Example array_index_is_listed_first :
  fst (getAllMappings (calm t0 page1 note1)
         (snd (upsertMapping (calm t0 page1 note1) (mappingOf "7" "notes/d")
                 (worldOf (storeOf threeMappings)))))
  = Ok (mappingOf "7" "notes/d" :: threeMappings).
Proof. vm_compute. reflexivity. Qed.

(** X8. In a well-formed store a lookup by note name is sound: the mapping
    [getMappingByKeepName] returns carries that note name, has a non-empty
    page id, and is the primary record of its page. *)
Theorem lookup_by_name_is_sound (e : Env) (noteName : string) (w : World)
    (m : SyncMapping) :
  store_ok (store w) ->
  fst (getMappingByKeepName e noteName w) = Ok (Some m) ->
  keepNoteName m = noteName
  /\ notionPageId m <> ""
  /\ mappingKeys (store w) !! notionPageId m = Some m.
Proof.
  intros Hok Hres.
  destruct (getMappingByKeepName_cases e noteName w) as [_ [[? Hx]|Hx]];
    rewrite Hx in Hres; [discriminate|].
  injection Hres as Hres.
  pose proof (lookupByName_find (store w) noteName Hok) as Hfind.
  rewrite Hres in Hfind. destruct Hfind as (Hfind & Hname & Hid).
  repeat split; auto.
  apply find_some in Hfind as [Hin _].
  apply prop_get_keys in Hin as [m' Hm'].
  destruct (Hok _ _ Hm') as (_ & Hprim & _).
  unfold lookupByName in Hres.
  destruct (find _ _) as [k|] eqn:F; [|discriminate].
  destruct (String.eqb k ""); [discriminate|].
  pose proof F as F'. apply find_some in F' as [Hk Hnames].
  apply prop_get_keys in Hk as [mk Hmk].
  destruct (Hok _ _ Hmk) as (_ & Hp & Hidk).
  rewrite Hp in Hres. injection Hres as <-. rewrite Hidk. exact Hp.
Qed.

Lemma lookup_by_name_is_sound_witness :
  keepNoteName (mappingOf "page-c" "notes/c") = "notes/c"
  /\ notionPageId (mappingOf "page-c" "notes/c") <> ""
  /\ mappingKeys (store (worldOf (storeOf threeMappings)))
       !! notionPageId (mappingOf "page-c" "notes/c")
     = Some (mappingOf "page-c" "notes/c").
Proof.
  apply (lookup_by_name_is_sound (calm t0 page1 note1) "notes/c"
           (worldOf (storeOf threeMappings))).
  - intros k m. unfold storeOf, threeMappings, index. simpl.
    repeat (case_match; simplify_eq); intros [= <-];
      repeat split; try discriminate; try reflexivity.
  - vm_compute. reflexivity.
Defined.

(** X9. The empty page id is a blind spot of the lookup by note name: a
    mapping upserted under the page id [""] is returned by [getMapping] but
    [getMappingByKeepName] answers [null] for its note name, because the
    page id found is tested for truthiness. *)
Theorem empty_page_id_is_not_found (e e' : Env) (m : SyncMapping)
    (w w' : World) :
  notionPageId m = "" ->
  (forall k m0,
     prop_get k (index (store w)) = Some m0 ->
     keepNoteName m0 <> keepNoteName m) ->
  upsertMapping e m w = (Ok tt, w') ->
  kv_reliable e' ->
  fst (getMapping e' "" w') = Ok (Some m)
  /\ fst (getMappingByKeepName e' (keepNoteName m) w') = Ok None.
Proof.
  intros Hid Hfresh Hup Hrel. apply upsertMapping_ok in Hup as [Hs _]. split.
  - unfold getMapping, kv_request. rewrite Hrel, Hs. simpl. rewrite Hid.
    rewrite lookup_insert_eq. reflexivity.
  - rewrite getMappingByKeepName_reliable by exact Hrel. rewrite Hs.
    unfold lookupByName. unfold upsert_store, index at 1 2. simpl.
    rewrite find_after_js_assign.
    + rewrite Hid. reflexivity.
    + apply creates_ordinary. rewrite Hid. discriminate.
    + right. apply find_all_false. intros k Hk.
      apply prop_get_keys in Hk as [m0 Hm0]. unfold names. rewrite Hm0.
      apply String.eqb_neq. eapply Hfresh. exact Hm0.
Qed.

Lemma empty_page_id_is_not_found_witness :
  fst (getMapping (calm t0 page1 note1) ""
         (snd (upsertMapping (calm t0 page1 note1) (mappingOf "" "notes/d")
                 (worldOf emptyStore))))
  = Ok (Some (mappingOf "" "notes/d"))
  /\ fst (getMappingByKeepName (calm t0 page1 note1)
            (keepNoteName (mappingOf "" "notes/d"))
            (snd (upsertMapping (calm t0 page1 note1) (mappingOf "" "notes/d")
                    (worldOf emptyStore))))
     = Ok None.
Proof.
  apply (empty_page_id_is_not_found (calm t0 page1 note1)
           (calm t0 page1 note1) (mappingOf "" "notes/d") (worldOf emptyStore)).
  - reflexivity.
  - intros k m0 H. discriminate.
  - vm_compute. reflexivity.
  - intros n. reflexivity.
Defined.

(** X10. The store operations keep the store well formed: a completed
    upsert of a record with a non-empty page id, a completed delete and a
    completed [updateLastPolled] all lead from a well-formed store to a
    well-formed store. *)
Theorem store_operations_keep_store_ok (e : Env) (w w' : World) :
  store_ok (store w) ->
  (exists m, notionPageId m <> "" /\ upsertMapping e m w = (Ok tt, w'))
  \/ (exists pageId, deleteMapping e pageId w = (Ok tt, w'))
  \/ (exists timestamp, updateLastPolled e timestamp w = (Ok tt, w')) ->
  store_ok (store w').
Proof.
  intros Hok [(m & Hid & H)|[(pageId & H)|(timestamp & H)]].
  - apply upsertMapping_ok in H as [-> _]. apply store_ok_upsert; assumption.
  - apply deleteMapping_ok in H as [-> _]. apply store_ok_delete; assumption.
  - apply updateLastPolled_ok in H as [-> _]. exact Hok.
Qed.

Lemma store_operations_keep_store_ok_witness :
  store_ok (store (snd (deleteMapping (calm t0 page1 note1) "page-1"
                          (snd (upsertMapping (calm t0 page1 note1)
                                  (mappingFrom keep t0)
                                  (worldOf emptyStore)))))).
Proof.
  apply (store_operations_keep_store_ok (calm t0 page1 note1)
           (snd (upsertMapping (calm t0 page1 note1) (mappingFrom keep t0)
                   (worldOf emptyStore)))).
  - apply (store_operations_keep_store_ok (calm t0 page1 note1)
             (worldOf emptyStore)).
    + apply store_ok_empty.
    + left. exists (mappingFrom keep t0). split; [discriminate|].
      vm_compute. reflexivity.
  - right. left. exists "page-1". vm_compute. reflexivity.
Defined.

(** ** The two drivers: what they write and what they never do *)

Lemma or_null_idem (s : option string) : or_null (or_null s) = or_null s.
Proof.
  destruct s as [s|]; simpl; [|reflexivity].
  destruct (String.eqb s "") eqn:E; simpl; [reflexivity|].
  rewrite E. reflexivity.
Qed.

Lemma webhook_calls (e : Env) (req : WebhookRequest) (w : World) :
  calls (snd (Webhook.handler e req w)) = calls w
  \/ calls (snd (Webhook.handler e req w))
     = (calls w
        ++ [match or_null (option_map keepNoteName
                             (mappingKeys (store w) !! payload_id (payload req)))
            with
            | Some noteName => KeepUpdate noteName
            | None => KeepCreate
            end])%list.
Proof.
  unfold Webhook.handler.
  destruct (negb (String.eqb (method req) "POST")); [left; reflexivity|].
  munfold. destruct (or_null (notion_signature req)); [|left; reflexivity].
  destruct (signatureCheck e) as [[|]|]; simpl; try (left; reflexivity).
  destruct (negb (String.eqb (object (payload req)) "page"));
    [left; reflexivity|].
  destruct (String.eqb (type (payload req)) "page_deleted");
    [left; reflexivity|].
  unfold getNotionPage. munfold.
  destruct (pageReply e) as [page|]; simpl; [|left; reflexivity].
  unfold getMapping, kv_request.
  destruct (kvFault e (kvCalls w)); simpl; [left; reflexivity|].
  destruct (shouldSkipDueToCooldown _ _ _ _); simpl; [left; reflexivity|].
  destruct (translation e); simpl; [|left; reflexivity].
  right. unfold upsertKeepNote, updateKeepNote, createKeepNote, remote_write.
  rewrite (or_null_idem (option_map keepNoteName _)).
  destruct (or_null (option_map keepNoteName _)); simpl;
    (destruct (keepReply e); simpl; [|reflexivity]);
    match goal with
    | |- context [upsertMapping ?e' ?m ?w'] =>
        pose proof (upsertMapping_calls e' m w') as Hc;
          destruct (upsertMapping e' m w') as [[[]|] w2]; simpl in *;
          exact Hc
    end.
Qed.

Lemma poll_calls (toTime : string -> option Z) (e : Env) (note : KeepNote)
    (s : PollState) :
  calls (world (snd (noteStep toTime e note s))) = calls (world s)
  \/ calls (world (snd (noteStep toTime e note s)))
     = (calls (world s)
        ++ [match lookupByName (store (world s)) (name note) with
            | Some m => NotionUpdate (notionPageId m)
            | None => NotionCreate (NOTION_DATABASE_ID e)
            end])%list.
Proof.
  pose proof (getMappingByKeepName_cases e (name note) (world s)) as [_ Hres].
  pose proof (getMappingByKeepName_frame e (name note) (world s)) as [_ Hc].
  unfold noteStep, processNote, updateNotionPage, createNotionPage,
    remote_write.
  destruct (trashed note); [left; reflexivity|].
  destruct (String.eqb (name note) ""); [left; reflexivity|].
  munfold.
  destruct (getMappingByKeepName e (name note) (world s)) as [[existing|] w1];
    simpl in *; [|left; exact Hc].
  destruct Hres as [[? ?]|Hres]; [discriminate|]. injection Hres as <-.
  destruct (shouldSkipDueToCooldown _ _ _ _); simpl; [left; exact Hc|].
  destruct (match existing with Some _ => _ | None => _ end); simpl;
    [left; exact Hc|].
  destruct (translation e); simpl; [|left; exact Hc].
  right. rewrite <- Hc.
  destruct existing as [m|]; simpl;
    (destruct (notionReply e); simpl; [|reflexivity]);
    match goal with
    | |- context [upsertMapping ?e' ?m' ?w'] =>
        pose proof (upsertMapping_calls e' m' w') as Hu;
          destruct (upsertMapping e' m' w') as [[[]|] w2]; simpl in *;
          exact Hu
    end.
Qed.

(** X11. One webhook delivery issues at most one write to Keep, and never
    a write to Notion.  When it writes, it updates the note the page is
    mapped to, and creates a note when the page has no mapping (or a mapping
    with an empty note name). *)
Theorem webhook_writes_the_mapped_note (e : Env) (req : WebhookRequest)
    (w : World) :
  exists cs,
    calls (snd (Webhook.handler e req w)) = (calls w ++ cs)%list
    /\ (cs = []
        \/ cs = [match mappingKeys (store w) !! payload_id (payload req) with
                 | Some m =>
                     if String.eqb (keepNoteName m) "" then KeepCreate
                     else KeepUpdate (keepNoteName m)
                 | None => KeepCreate
                 end]).
Proof.
  destruct (webhook_calls e req w) as [H|H].
  - exists []. rewrite app_nil_r. auto.
  - eexists. split; [exact H|]. right.
    destruct (mappingKeys (store w) !! payload_id (payload req)) as [m|];
      simpl; [|reflexivity].
    destruct (String.eqb (keepNoteName m) ""); reflexivity.
Qed.

(** X12. One iteration of the poll loop issues at most one write to
    Notion, and never a write to Keep.  When it writes, it updates the page
    of the mapping found for the note, and creates a page in the configured
    database when none is found. *)
Theorem poll_writes_the_mapped_page (toTime : string -> option Z) (e : Env)
    (note : KeepNote) (s : PollState) :
  exists cs,
    calls (world (snd (noteStep toTime e note s))) = (calls (world s) ++ cs)%list
    /\ (cs = []
        \/ cs = [match lookupByName (store (world s)) (name note) with
                 | Some m => NotionUpdate (notionPageId m)
                 | None => NotionCreate (NOTION_DATABASE_ID e)
                 end]).
Proof.
  destruct (poll_calls toTime e note s) as [H|H].
  - exists []. rewrite app_nil_r. auto.
  - eexists. split; [exact H|]. auto.
Qed.

(** X13. A poll batch issues at most one write per note it does not pass
    over: trashed and nameless notes cost no write. *)
Theorem poll_batch_write_bound (toTime : string -> option Z)
    (envs : nat -> Env) (notes : list KeepNote) (i : nat) (s : PollState) :
  length (calls (world (snd (pollLoop toTime envs i notes s))))
  <= length (calls (world s)) + length (List.filter isPolled notes).
Proof.
  revert i s. induction notes as [|note rest IH]; intros i s; simpl; [lia|].
  destruct (noteStep_effect toTime (envs i) note s) as (o & s1 & Hstep & _).
  unfold bind. specialize (IH (S i) s1).
  assert (Hone : length (calls (world s1))
                 <= length (calls (world s))
                    + (if isPolled note then 1 else 0)).
  { unfold isPolled. destruct (trashed note) eqn:Ht; simpl.
    - rewrite (ignored_note toTime (envs i) note s) in Hstep by auto.
      inversion Hstep. lia.
    - destruct (String.eqb (name note) "") eqn:Hn; simpl.
      + apply String.eqb_eq in Hn.
        rewrite (ignored_note toTime (envs i) note s) in Hstep by auto.
        inversion Hstep. lia.
      + destruct (poll_calls toTime (envs i) note s) as [H|H];
          rewrite Hstep in H; simpl in H; rewrite H;
          [|rewrite length_app; simpl]; lia. }
  rewrite Hstep. destruct (isPolled note); simpl in *; lia.
Qed.

(** X14. A request that is not an authenticated POST never reaches the
    store or Keep: the world is left as it was and the answer is 405 (wrong
    method), 401 (signature missing or wrong) or 500 (the verification
    threw). *)
Theorem unauthenticated_webhook_touches_nothing (e : Env)
    (req : WebhookRequest) (w : World) :
  method req <> "POST"
  \/ or_null (notion_signature req) = None
  \/ signatureCheck e <> Ok true ->
  exists r,
    Webhook.handler e req w = (Ok r, w)
    /\ (status r = 405 \/ status r = 401 \/ status r = 500).
Proof.
  intros H. unfold Webhook.handler.
  destruct (String.eqb (method req) "POST") eqn:Hm; simpl;
    [|eexists; split; [reflexivity | simpl; auto]].
  apply String.eqb_eq in Hm. munfold.
  destruct (or_null (notion_signature req));
    [|eexists; split; [reflexivity | simpl; auto]].
  destruct (signatureCheck e) as [[|]|]; simpl;
    try (eexists; split; [reflexivity | simpl; auto]).
  destruct H as [H|[H|H]]; congruence.
Qed.

Lemma unauthenticated_webhook_touches_nothing_witness :
  exists r,
    Webhook.handler (failingWrites t0)
      {| method := "POST"; notion_signature := None;
         payload := payload (pageUpdated "page-1") |}
      (worldOf (storeWith (mappingFrom keep t0)))
    = (Ok r, worldOf (storeWith (mappingFrom keep t0)))
    /\ (status r = 405 \/ status r = 401 \/ status r = 500).
Proof.
  apply (unauthenticated_webhook_touches_nothing (failingWrites t0)
           {| method := "POST"; notion_signature := None;
              payload := payload (pageUpdated "page-1") |}
           (worldOf (storeWith (mappingFrom keep t0)))).
  right. left. reflexivity.
Defined.

(** X15. The cron endpoint answers 405 exactly to a method other than GET,
    and 401 exactly to a GET in production that carries a non-empty
    [Authorization] header different from the expected bearer token; a GET
    in production without that header is not rejected.  A rejected request
    leaves the world as it was. *)
Theorem poll_rejects_exactly (toTime : string -> option Z) (pe : PollEnv)
    (req : PollRequest) (w : World) :
  exists resp w',
    PollKeep.handler toTime pe req w = (Ok resp, w')
    /\ (status resp = 405 <-> poll_method req <> "GET")
    /\ (status resp = 401 <->
        poll_method req = "GET"
        /\ NODE_ENV pe = Some "production"
        /\ exists h,
             authorization req = Some h
             /\ h <> ""
             /\ h <> bearer (VERCEL_CRON_SECRET pe))
    /\ (status resp = 405 \/ status resp = 401 -> w' = w).
Proof.
  unfold PollKeep.handler.
  destruct (String.eqb (poll_method req) "GET") eqn:Hm; simpl.
  2:{ apply String.eqb_neq in Hm. eexists _, _. split; [reflexivity|]. simpl.
      repeat split; auto; try tauto; try discriminate. }
  apply String.eqb_eq in Hm.
  assert (Hauth :
    (match authorization req with
     | Some h => negb (String.eqb h (bearer (VERCEL_CRON_SECRET pe)))
     | None => true
     end
     && match NODE_ENV pe with
        | Some v => String.eqb v "production"
        | None => false
        end
     && bool_decide (is_Some (or_null (authorization req))) = true)
    <-> (NODE_ENV pe = Some "production"
         /\ exists h, authorization req = Some h /\ h <> ""
                      /\ h <> bearer (VERCEL_CRON_SECRET pe))).
  { rewrite !andb_true_iff, bool_decide_eq_true. split.
    - intros [[H1 H2] [x H3]].
      destruct (NODE_ENV pe) as [v|]; [|discriminate].
      apply String.eqb_eq in H2. subst v. split; [reflexivity|].
      destruct (authorization req) as [h|]; [|discriminate]. exists h.
      simpl in H3. destruct (String.eqb h "") eqn:E; [discriminate|].
      apply String.eqb_neq in E. apply negb_true_iff, String.eqb_neq in H1.
      auto.
    - intros [-> (h & -> & H1 & H2)]. simpl.
      apply String.eqb_neq in H1, H2. rewrite H1, H2. eauto. }
  destruct (_ && _ && _) eqn:Hrej.
  - eexists _, _. split; [reflexivity|]. simpl.
    repeat split; auto; try tauto; try discriminate.
  - assert (Hno : ~ (NODE_ENV pe = Some "production"
                     /\ exists h, authorization req = Some h /\ h <> ""
                                  /\ h <> bearer (VERCEL_CRON_SECRET pe)))
      by (intros H; apply Hauth in H; discriminate).
    unfold try_catch, bind at 1, liftR at 1.
    destruct (listReply pe) as [notes|message].
    2:{ eexists _, _. split; [reflexivity|]. simpl.
        repeat split; try tauto; try discriminate;
          intros [H|H]; discriminate. }
    destruct (pollLoop_total toTime (noteEnv pe) notes 0
                {| world := w; summary := emptySummary |}) as [s' Hloop].
    rewrite Hloop. munfold.
    destruct (updateLastPolled (finalEnv pe) (nowPolled pe) (world s'))
      as [[[]|message] w2];
      (eexists _, _; split; [reflexivity|]; simpl;
       repeat split; try tauto; try discriminate;
       intros [H|H]; discriminate).
Qed.

(** X16. When the cron endpoint answers with a summary, the last-polled
    timestamp in the store is the clock reading taken after the loop. *)
Theorem poll_records_last_polled (toTime : string -> option Z) (pe : PollEnv)
    (req : PollRequest) (w w' : World) (resp : Response) (d : Summary) :
  PollKeep.handler toTime pe req w = (Ok resp, w') ->
  body resp = BPolled d ->
  polledAt (store w') = nowPolled pe.
Proof.
  unfold PollKeep.handler. intros H Hd.
  destruct (negb (String.eqb (poll_method req) "GET"));
    [inversion H; subst; discriminate|].
  destruct (_ && _ && _); [inversion H; subst; discriminate|].
  unfold try_catch, bind at 1, liftR at 1 in H.
  destruct (listReply pe) as [notes|message];
    [|inversion H; subst; discriminate].
  destruct (pollLoop_total toTime (noteEnv pe) notes 0
              {| world := w; summary := emptySummary |}) as [s' Hloop].
  rewrite Hloop in H. munfold.
  destruct (updateLastPolled (finalEnv pe) (nowPolled pe) (world s'))
    as [[[]|message] w2] eqn:Hup;
    [|inversion H; subst; discriminate].
  apply updateLastPolled_ok in Hup as [Hs _].
  inversion H; subst. rewrite Hs. reflexivity.
Qed.

Lemma poll_records_last_polled_witness :
  polledAt (store (snd (PollKeep.handler isoTime (cronEnv tenNotes tenEnvs)
                          cronRequest (worldOf emptyStore))))
  = nowPolled (cronEnv tenNotes tenEnvs).
Proof.
  apply (poll_records_last_polled isoTime (cronEnv tenNotes tenEnvs)
           cronRequest (worldOf emptyStore)
           (snd (PollKeep.handler isoTime (cronEnv tenNotes tenEnvs)
                   cronRequest (worldOf emptyStore)))
           (json 200
              (BPolled {| processed := 9; created := 9; updated := 0;
                          skipped := 0;
                          errors := [{| entry_id := "notes/d";
                                        entry_error := "TranslationError" |}] |}))
           {| processed := 9; created := 9; updated := 0; skipped := 0;
              errors := [{| entry_id := "notes/d";
                            entry_error := "TranslationError" |}] |}).
  - vm_compute. reflexivity.
  - reflexivity.
Defined.

(** X17. When [listKeepNotes] throws, the cron endpoint does nothing: no
    KV request, no write, and the world is left as it was. *)
Theorem failed_listing_touches_nothing (toTime : string -> option Z)
    (pe : PollEnv) (req : PollRequest) (w : World) (message : string) :
  listReply pe = Throw message ->
  snd (PollKeep.handler toTime pe req w) = w.
Proof.
  intros Hl. unfold PollKeep.handler.
  destruct (negb (String.eqb (poll_method req) "GET")); [reflexivity|].
  destruct (_ && _ && _); [reflexivity|].
  unfold try_catch, bind at 1, liftR at 1. rewrite Hl. reflexivity.
Qed.

Lemma failed_listing_touches_nothing_witness :
  snd (PollKeep.handler isoTime
         {| VERCEL_CRON_SECRET := Some "s3cret";
            NODE_ENV := Some "production";
            listReply := Throw "Keep API error: 401 ";
            noteEnv := tenEnvs;
            finalEnv := calm t0 page1 note1;
            nowPolled := t0 |}
         cronRequest (worldOf (storeOf threeMappings)))
  = worldOf (storeOf threeMappings).
Proof.
  apply (failed_listing_touches_nothing isoTime
           {| VERCEL_CRON_SECRET := Some "s3cret";
              NODE_ENV := Some "production";
              listReply := Throw "Keep API error: 401 ";
              noteEnv := tenEnvs;
              finalEnv := calm t0 page1 note1;
              nowPolled := t0 |}
           cronRequest (worldOf (storeOf threeMappings))
           "Keep API error: 401 ").
  reflexivity.
Defined.

(** X18. Every note of a batch that is not passed over is accounted for
    exactly once: after the loop, [processed + skipped + |errors|] has
    grown by the number of notes that are neither trashed nor nameless. *)
Theorem poll_accounts_for_every_note (toTime : string -> option Z)
    (envs : nat -> Env) (notes : list KeepNote) (i : nat) (s : PollState) :
  accounted (summary (snd (pollLoop toTime envs i notes s)))
  = accounted (summary s) + length (List.filter isPolled notes).
Proof.
  revert i s. induction notes as [|note rest IH]; intros i s; simpl; [lia|].
  pose proof (noteStep_accounted toTime (envs i) note s) as Hacc.
  destruct (noteStep_effect toTime (envs i) note s) as (o & s1 & Hstep & _).
  unfold bind. rewrite Hstep in *. simpl in Hacc. rewrite IH, Hacc.
  destruct (isPolled note); simpl; lia.
Qed.

Lemma upsert_store_index (m : SyncMapping) (kv : KV) :
  (creates (notionPageId m) (index kv) = true ->
   prop_get (notionPageId m) (index (upsert_store m kv)) = Some m)
  /\ (creates (notionPageId m) (index kv) = false ->
      notionPageId m = "__proto__"
      /\ index (upsert_store m kv) = index kv).
Proof.
  unfold upsert_store, index at 2 4. simpl. split; intros C.
  - rewrite prop_get_js_assign, String.eqb_refl, C. reflexivity.
  - rewrite js_assign_proto by exact C. split; [|reflexivity].
    unfold creates in C. apply orb_false_iff in C as [_ C].
    apply negb_false_iff, String.eqb_eq in C. exact C.
Qed.

(** X19. What an applied event records.  After a webhook delivery answered
    "Synced to Keep", the primary record of the page is the record built
    from the event: the page id of the notification, the name and update
    time of the note Keep returned, the edit time of the page Notion
    returned, origin Notion, and the clock reading of the write.  After a
    polled note that ended applied, it is the record built from the note
    and the page Notion returned, with origin Keep.  The index entry of the
    page is that same record, except when the page id is [__proto__] and
    the dictionary had no own entry of that name: the dictionary is then
    the one from before. *)
Theorem applied_event_records_mapping (toTime : string -> option Z) :
  (forall e req w w1 noteName,
     Webhook.handler e req w = (Ok (json 200 (BSynced noteName)), w1) ->
     exists page saved,
       pageReply e = Ok page
       /\ keepReply e = Ok saved
       /\ noteName = name saved
       /\ mappingKeys (store w1) !! payload_id (payload req)
          = Some {| notionPageId := payload_id (payload req);
                    keepNoteName := name saved;
                    lastSyncedNotionEditedTime := last_edited_time page;
                    lastSyncedKeepUpdateTime := updateTime saved;
                    lastWriteOrigin := notion;
                    lastWriteTimestamp := nowWrite e |}
       /\ (creates (payload_id (payload req)) (index (store w)) = true ->
           prop_get (payload_id (payload req)) (index (store w1))
           = mappingKeys (store w1) !! payload_id (payload req))
       /\ (creates (payload_id (payload req)) (index (store w)) = false ->
           payload_id (payload req) = "__proto__"
           /\ index (store w1) = index (store w)))
  /\ (forall e note s s1 o,
        noteStep toTime e note s = (Ok o, s1) ->
        o = AppliedUpdated \/ o = AppliedCreated ->
        exists page pageId,
          notionReply e = Ok page
          /\ match lookupByName (store (world s)) (name note) with
             | Some m0 => pageId = notionPageId m0
             | None => pageId = id page
             end
          /\ mappingKeys (store (world s1)) !! pageId
             = Some {| notionPageId := pageId;
                       keepNoteName := name note;
                       lastSyncedNotionEditedTime := last_edited_time page;
                       lastSyncedKeepUpdateTime := updateTime note;
                       lastWriteOrigin := keep;
                       lastWriteTimestamp := nowWrite e |}
          /\ (creates pageId (index (store (world s))) = true ->
              prop_get pageId (index (store (world s1)))
              = mappingKeys (store (world s1)) !! pageId)
          /\ (creates pageId (index (store (world s))) = false ->
              pageId = "__proto__"
              /\ index (store (world s1)) = index (store (world s)))).
Proof.
  split.
  - intros e req w w1 noteName H.
    destruct (webhook_applied e req w w1 noteName H)
      as (page & saved & Hp & Hk & Hn & ->).
    exists page, saved.
    match goal with
    | |- context [upsert_store ?m0 _] =>
        destruct (upsert_store_index m0 (store w)) as [Hyes Hno]
    end.
    simpl in Hyes, Hno. repeat split; auto.
    + simpl. apply lookup_insert_eq.
    + intros C. rewrite (Hyes C). simpl. rewrite lookup_insert_eq.
      reflexivity.
    + apply Hno; assumption.
    + apply Hno; assumption.
  - intros e note s s1 o H Ho.
    destruct (poll_applied toTime e note s s1 o H Ho)
      as (page & pageId & Hr & _ & Hprev & ->).
    exists page, pageId.
    match goal with
    | |- context [upsert_store ?m0 _] =>
        destruct (upsert_store_index m0 (store (world s))) as [Hyes Hno]
    end.
    simpl in Hyes, Hno. repeat split; auto.
    + simpl. apply lookup_insert_eq.
    + intros C. rewrite (Hyes C). simpl. rewrite lookup_insert_eq.
      reflexivity.
    + apply Hno; assumption.
    + apply Hno; assumption.
Qed.

Lemma applied_event_records_mapping_witness :
  (exists page saved,
     pageReply (calm t0 page1 note1) = Ok page
     /\ keepReply (calm t0 page1 note1) = Ok saved
     /\ "notes/n1" = name saved
     /\ mappingKeys (store afterWebhook) !! payload_id (payload (pageUpdated "page-1"))
        = Some {| notionPageId := payload_id (payload (pageUpdated "page-1"));
                  keepNoteName := name saved;
                  lastSyncedNotionEditedTime := last_edited_time page;
                  lastSyncedKeepUpdateTime := updateTime saved;
                  lastWriteOrigin := notion;
                  lastWriteTimestamp := nowWrite (calm t0 page1 note1) |}
     /\ (creates (payload_id (payload (pageUpdated "page-1")))
           (index (store (worldOf emptyStore))) = true ->
         prop_get (payload_id (payload (pageUpdated "page-1")))
           (index (store afterWebhook))
         = mappingKeys (store afterWebhook)
             !! payload_id (payload (pageUpdated "page-1")))
     /\ (creates (payload_id (payload (pageUpdated "page-1")))
           (index (store (worldOf emptyStore))) = false ->
         payload_id (payload (pageUpdated "page-1")) = "__proto__"
         /\ index (store afterWebhook) = index (store (worldOf emptyStore))))
  /\ (exists page pageId,
        notionReply (calm t0 page1 note1) = Ok page
        /\ match lookupByName (store (world (startOf emptyStore))) (name note1)
           with
           | Some m0 => pageId = notionPageId m0
           | None => pageId = id page
           end
        /\ mappingKeys (store (world afterPoll)) !! pageId
           = Some {| notionPageId := pageId;
                     keepNoteName := name note1;
                     lastSyncedNotionEditedTime := last_edited_time page;
                     lastSyncedKeepUpdateTime := updateTime note1;
                     lastWriteOrigin := keep;
                     lastWriteTimestamp := nowWrite (calm t0 page1 note1) |}
        /\ (creates pageId (index (store (world (startOf emptyStore)))) = true ->
            prop_get pageId (index (store (world afterPoll)))
            = mappingKeys (store (world afterPoll)) !! pageId)
        /\ (creates pageId (index (store (world (startOf emptyStore)))) = false ->
            pageId = "__proto__"
            /\ index (store (world afterPoll))
               = index (store (world (startOf emptyStore))))).
Proof.
  split.
  - apply (proj1 (applied_event_records_mapping isoTime) (calm t0 page1 note1)
             (pageUpdated "page-1") (worldOf emptyStore) afterWebhook
             "notes/n1").
    vm_compute. reflexivity.
  - apply (proj2 (applied_event_records_mapping isoTime) (calm t0 page1 note1)
             note1 (startOf emptyStore) afterPoll AppliedCreated).
    + vm_compute. reflexivity.
    + right. reflexivity.
Defined.

(** ** lib/mapping.ts *)

Lemma prefix_split (p s : string) :
  String.prefix p s = true -> s = p ++ drop (String.length p) s.
Proof.
  revert s. induction p as [|a p IH]; intros s; simpl.
  - destruct s; reflexivity.
  - destruct s as [|b s]; simpl; [discriminate|].
    destruct (Ascii.ascii_dec a b) as [->|]; [|discriminate].
    intros H. change (String b s = String b (p ++ drop (String.length p) s)).
    f_equal. apply IH. exact H.
Qed.

Lemma prefix_append (p s : string) : String.prefix p (p ++ s) = true.
Proof.
  induction p as [|a p IH].
  - destruct s; reflexivity.
  - change (String.prefix (String a p) (String a (p ++ s)) = true). simpl.
    destruct (Ascii.ascii_dec a a); [exact IH | congruence].
Qed.

Lemma drop_append (p s : string) : drop (String.length p) (p ++ s) = s.
Proof.
  induction p as [|a p IH]; [destruct s; reflexivity|].
  change (drop (S (String.length p)) (String a (p ++ s)) = s). exact IH.
Qed.

(** X20. Note names and note ids: [extractKeepNoteId] undoes
    [buildKeepNoteName], and [buildKeepNoteName] undoes [extractKeepNoteId]
    exactly on the names that start with [notes/] (elsewhere the first
    [notes/] inside the name is cut out, or nothing is). *)
Theorem note_id_round_trip (noteId noteName : string) :
  extractKeepNoteId (buildKeepNoteName noteId) = noteId
  /\ (buildKeepNoteName (extractKeepNoteId noteName) = noteName
      <-> String.prefix "notes/" noteName = true).
Proof.
  unfold extractKeepNoteId, buildKeepNoteName. split.
  - destruct noteId; reflexivity.
  - split.
    + intros <-. apply prefix_append.
    + intros H. pose proof (prefix_split _ _ H) as Hs.
      destruct noteName as [|c s]; [discriminate|].
      unfold remove_first. fold remove_first. rewrite H.
      symmetry. exact Hs.
Qed.

Lemma or_default_truthy (s : option string) (d : string) :
  truthy d = true -> truthy (or_default s d) = true.
Proof.
  intros Hd. unfold or_default. destruct s as [s|]; [|exact Hd].
  destruct (truthy s) eqn:E; [exact E | exact Hd].
Qed.

Lemma fold_keeps_property {V A} (f : JsObject V -> A -> JsObject V)
    (k : string) :
  (forall o x, is_Some (prop_get k o) -> is_Some (prop_get k (f o x))) ->
  forall l o, is_Some (prop_get k o) -> is_Some (prop_get k (fold_left f l o)).
Proof.
  intros Hf l. induction l as [|x l IH]; intros o Ho; simpl; auto.
Qed.

Lemma js_assign_keeps_property {V} (key k : string) (v : V) (o : JsObject V) :
  is_Some (prop_get k o) -> is_Some (prop_get k (js_assign key v o)).
Proof.
  intros H. rewrite prop_get_js_assign.
  destruct (String.eqb key k && creates key o); [eauto | exact H].
Qed.

Lemma assign_items_other (k : string) (items : list ListItem) :
  forall init,
    (forall it, In it items -> item_text it <> k) ->
    prop_get k (fold_left assign_item items init) = prop_get k init.
Proof.
  induction items as [|it items IH]; intros init H; simpl; [reflexivity|].
  rewrite IH by (intros; apply H; simpl; auto).
  unfold assign_item. rewrite prop_get_js_assign.
  destruct (String.eqb (item_text it) k) eqn:E; [|reflexivity].
  apply String.eqb_eq in E. exfalso. eapply H; simpl; eauto.
Qed.

Lemma assign_items_member (items : list ListItem) :
  forall init it,
    NoDup (map item_text items) ->
    In it items ->
    item_text it <> "__proto__" ->
    prop_get (item_text it) (fold_left assign_item items init)
    = Some (PCheckbox (checked it)).
Proof.
  induction items as [|x items IH]; intros init it Hnd Hin Hproto; simpl;
    [destruct Hin|].
  inversion Hnd as [|? ? Hx Hnd']; subst.
  destruct Hin as [->|Hin].
  - rewrite assign_items_other.
    + unfold assign_item.
      rewrite prop_get_js_assign, String.eqb_refl, creates_ordinary
        by exact Hproto.
      reflexivity.
    + intros it' Hit' Heq. apply Hx. rewrite <- Heq.
      apply list_elem_of_In, in_map. exact Hit'.
  - apply IH; assumption.
Qed.

Lemma assign_items_origin (k : string) (p : NotionProp)
    (items : list ListItem) :
  forall init,
    prop_get k (fold_left assign_item items init) = Some p ->
    prop_get k init = Some p
    \/ exists it, In it items /\ item_text it = k /\ p = PCheckbox (checked it).
Proof.
  induction items as [|x items IH]; intros init H; simpl in *; [auto|].
  destruct (IH _ H) as [H0|(it & Hin & Hk & Hp)].
  - unfold assign_item in H0. rewrite prop_get_js_assign in H0.
    destruct (String.eqb (item_text x) k) eqn:E; [|auto].
    destruct (creates (item_text x) init); simpl in H0; [|auto].
    apply String.eqb_eq in E. injection H0 as <-. right. eauto.
  - right. eauto.
Qed.

Lemma listItems_member (properties : JsObject PropertyValue) (it : ListItem) :
  In it (listItems properties)
  <-> exists v,
        In (item_text it, v) properties
        /\ has_type "checkbox" v = true
        /\ checked it = pcheckbox v.
Proof.
  unfold listItems. rewrite in_flat_map. split.
  - intros ([k v] & Hin & Hit).
    destruct (has_type "checkbox" v) eqn:E; [|destruct Hit].
    destruct Hit as [<-|[]]. exists v. cbn [item_text checked].
    unfold extractCheckbox. rewrite E. auto.
  - intros (v & Hin & Ht & Hc). exists (item_text it, v). split; [exact Hin|].
    rewrite Ht. left. unfold extractCheckbox. rewrite Ht. cbn [negb].
    rewrite <- Hc. destruct it; reflexivity.
Qed.

Lemma listItems_NoDup (properties : JsObject PropertyValue) :
  NoDup (keys properties) -> NoDup (map item_text (listItems properties)).
Proof.
  induction properties as [|[k v] ps IH]; simpl; intros H; [constructor|].
  inversion H as [|? ? Hk Hnd]; subst.
  destruct (has_type "checkbox" v); simpl; [|apply IH; exact Hnd].
  constructor; [|apply IH; exact Hnd].
  intros Hin. apply list_elem_of_In, in_map_iff in Hin as (it & Hit & Hin).
  apply listItems_member in Hin as (v' & Hin & _).
  apply Hk. unfold keys. rewrite <- Hit.
  apply (in_map fst) in Hin. apply list_elem_of_In. exact Hin.
Qed.

(** X21. A page with checkboxes, sent to Keep and read back.  Translating
    a page that has at least one checkbox property to a note and the note
    back to Notion properties returns every checkbox property under its own
    name with its own value (the name [__proto__] apart), and returns
    nothing else but the title under [Name]: the rich-text properties of
    such a page are lost. *)
Theorem checklist_round_trip (matchLine : string -> option (string * string))
    (properties : JsObject PropertyValue) :
  NoDup (keys properties) ->
  existsb (has_type "checkbox") (map snd properties) = true ->
  (forall k v,
     In (k, v) properties ->
     has_type "checkbox" v = true ->
     k <> "__proto__" ->
     prop_get k (keepToNotion matchLine (notionToKeep properties))
     = Some (PCheckbox (pcheckbox v)))
  /\ (forall k p,
        prop_get k (keepToNotion matchLine (notionToKeep properties)) = Some p ->
        (k = "Name" /\ exists t, p = PTitle t /\ t <> "")
        \/ exists v,
             In (k, v) properties
             /\ has_type "checkbox" v = true
             /\ p = PCheckbox (pcheckbox v)).
Proof.
  intros Hnd Hcb.
  assert (Hback :
    keepToNotion matchLine (notionToKeep properties)
    = fold_left assign_item (listItems properties)
        [("Name", PTitle (or_default (Some (extractNotionTitle properties))
                            "Untitled"))]).
  { unfold keepToNotion, notionToKeep, text_of, items_of.
    cbn [note_title note_body]. rewrite Hcb. cbn [body_text body_list].
    rewrite or_default_truthy by reflexivity. reflexivity. }
  rewrite Hback. split.
  - intros k v Hin Ht Hproto.
    apply (assign_items_member (listItems properties) _
             {| item_text := k; checked := pcheckbox v |}).
    + apply listItems_NoDup. exact Hnd.
    + apply listItems_member. exists v. auto.
    + exact Hproto.
  - intros k p H. apply assign_items_origin in H as [H|(it & Hin & Hk & Hp)].
    + left. cbn [prop_get] in H.
      destruct (String.eqb "Name" k) eqn:E; [|discriminate].
      apply String.eqb_eq in E. injection H as <-. split; [auto|].
      eexists. split; [reflexivity|].
      pose proof (or_default_truthy (Some (extractNotionTitle properties))
                    "Untitled" eq_refl) as Htr.
      unfold truthy in Htr. apply negb_true_iff, String.eqb_neq in Htr.
      exact Htr.
    + right. apply listItems_member in Hin as (v & Hin & Ht & Hc).
      exists v. rewrite <- Hk, Hp, Hc. auto.
Qed.

Lemma checklist_round_trip_witness :
  (forall k v,
     In (k, v) taskPage ->
     has_type "checkbox" v = true ->
     k <> "__proto__" ->
     prop_get k (keepToNotion matchNothing (notionToKeep taskPage))
     = Some (PCheckbox (pcheckbox v)))
  /\ (forall k p,
        prop_get k (keepToNotion matchNothing (notionToKeep taskPage)) = Some p ->
        (k = "Name" /\ exists t, p = PTitle t /\ t <> "")
        \/ exists v,
             In (k, v) taskPage
             /\ has_type "checkbox" v = true
             /\ p = PCheckbox (pcheckbox v)).
Proof.
  apply (checklist_round_trip matchNothing taskPage).
  - repeat constructor; rewrite ?list_elem_of_In; simpl;
      intuition discriminate.
  - reflexivity.
Defined.

(** The page of the witness comes back as its title and its two
    checkboxes; the rich text [Notes] is gone. *)
Example task_page_round_trip :
  keepToNotion matchNothing (notionToKeep taskPage)
  = [("Name", PTitle "Groceries"); ("Milk", PCheckbox true);
     ("Eggs", PCheckbox false)].
Proof. reflexivity. Qed.

Lemma keys_of_property {V} (k : string) (o : JsObject V) :
  is_Some (prop_get k o) -> keys o <> [].
Proof. destruct o; [intros [? ?]; discriminate | discriminate]. Qed.

Lemma keepToNotion_keeps_name (matchLine : string -> option (string * string))
    (note : NoteContent) (t : string) :
  note_title note = Some t -> t <> "" ->
  is_Some (prop_get "Name" (keepToNotion matchLine note)).
Proof.
  intros Ht Hne. apply String.eqb_neq in Hne.
  unfold keepToNotion. rewrite Ht.
  replace (truthy t) with true by (unfold truthy; rewrite Hne; reflexivity).
  assert (H0 : is_Some (prop_get "Name" [("Name", PTitle t)]))
    by (simpl; eauto).
  assert (Hitems : forall items,
            is_Some (prop_get "Name"
                       (fold_left
                          (fun props item =>
                             js_assign (item_text item)
                               (PCheckbox (checked item)) props)
                          items [("Name", PTitle t)]))).
  { intros items. apply fold_keeps_property; [|exact H0].
    intros o x. apply js_assign_keeps_property. }
  destruct (text_of note) as [text|].
  - destruct (truthy text).
    + apply fold_keeps_property; [|exact H0].
      intros o line Ho. destruct (matchLine line) as [[key value]|];
        [apply js_assign_keeps_property|]; exact Ho.
    + destruct (items_of note); [apply Hitems | exact H0].
  - destruct (items_of note); [apply Hitems | exact H0].
Qed.

(** X22. The properties handed to [createNotionPage] are never empty.  For
    a note with a non-empty title they are the translated properties and
    contain [Name]; when the translation yields no property at all they are
    the default pair [Name] (the title, or "Untitled") and [Notes] (the body
    text, or the empty string). *)
Theorem create_properties_are_never_empty
    (matchLine : string -> option (string * string)) (note : NoteContent) :
  keys (createProperties matchLine note) <> []
  /\ (forall t,
        note_title note = Some t -> t <> "" ->
        createProperties matchLine note = keepToNotion matchLine note
        /\ is_Some (prop_get "Name" (createProperties matchLine note)))
  /\ (keys (keepToNotion matchLine note) = [] ->
      createProperties matchLine note
      = [("Name", PTitle (or_default (note_title note) "Untitled"));
         ("Notes", PRichText (or_default (text_of note) ""))]).
Proof.
  unfold createProperties, buildDefaultNotionProperties.
  repeat apply conj.
  - destruct (keys (keepToNotion matchLine note)) eqn:E; simpl.
    + discriminate.
    + rewrite E. discriminate.
  - intros t Ht Hne.
    pose proof (keepToNotion_keeps_name matchLine note t Ht Hne) as Hname.
    pose proof (keys_of_property _ _ Hname) as Hkeys.
    destruct (keys (keepToNotion matchLine note)); [congruence|].
    simpl. auto.
  - intros ->. reflexivity.
Qed.

Lemma create_properties_are_never_empty_witness :
  keys (createProperties matchNothing (notionToKeep taskPage)) <> []
  /\ (forall t,
        note_title (notionToKeep taskPage) = Some t -> t <> "" ->
        createProperties matchNothing (notionToKeep taskPage)
        = keepToNotion matchNothing (notionToKeep taskPage)
        /\ is_Some (prop_get "Name"
                      (createProperties matchNothing (notionToKeep taskPage))))
  /\ (keys (keepToNotion matchNothing (notionToKeep taskPage)) = [] ->
      createProperties matchNothing (notionToKeep taskPage)
      = [("Name", PTitle (or_default (note_title (notionToKeep taskPage))
                            "Untitled"));
         ("Notes", PRichText (or_default (text_of (notionToKeep taskPage)) ""))]).
Proof.
  exact (create_properties_are_never_empty matchNothing
           (notionToKeep taskPage)).
Defined.

(** ** lib/notion-client.ts: the signature check *)

(** X23. A signature of the wrong length is not answered 401.  For an
    authenticated-looking POST whose signature check is the one of
    [verifyNotionWebhook], a signature whose length differs from the length
    of the digest makes [timingSafeEqual] throw and the webhook answer 500;
    a wrong signature of the right length is answered 401 "Invalid
    signature".  In both cases the world is left as it was. *)
Theorem wrong_signature_answers (hmacSha256Hex : string -> string -> string)
    (e : Env) (req : WebhookRequest) (w : World)
    (body signature secret : string) :
  method req = "POST" ->
  notion_signature req = Some signature ->
  signature <> "" ->
  signatureCheck e = verifyNotionWebhook hmacSha256Hex body signature secret ->
  signature <> hmacSha256Hex secret body ->
  Webhook.handler e req w
  = (Ok (if Nat.eqb (String.length signature)
              (String.length (hmacSha256Hex secret body))
         then json 401 (BError "Invalid signature")
         else json 500 (BInternalError
                          "Input buffers must have the same byte length")),
     w).
Proof.
  intros Hm Hs Hne Hcheck Hwrong.
  apply String.eqb_neq in Hne, Hwrong.
  unfold Webhook.handler. rewrite Hm, Hs. simpl. rewrite Hne.
  munfold. rewrite Hcheck.
  unfold verifyNotionWebhook, timingSafeEqual.
  destruct (Nat.eqb _ _); [rewrite Hwrong|]; reflexivity.
Qed.

Lemma wrong_signature_answers_witness :
  Webhook.handler
    {| kvFault := fun _ => None; nowCooldown := t0; nowWrite := t0;
       signatureCheck := verifyNotionWebhook constantDigest "{}" "sig" "k";
       pageReply := Ok page1; translation := Ok tt; keepReply := Ok note1;
       notionReply := Ok page1; NOTION_DATABASE_ID := "db" |}
    (pageUpdated "page-1") (worldOf emptyStore)
  = (Ok (if Nat.eqb (String.length "sig")
              (String.length (constantDigest "k" "{}"))
         then json 401 (BError "Invalid signature")
         else json 500 (BInternalError
                          "Input buffers must have the same byte length")),
     worldOf emptyStore).
Proof.
  apply (wrong_signature_answers constantDigest _ (pageUpdated "page-1")
           (worldOf emptyStore) "{}" "sig" "k");
    try reflexivity; discriminate.
Defined.

(** ** api/internal/sync.ts *)

Lemma getAllMappings_frame (e : Env) (w : World) :
  store (snd (getAllMappings e w)) = store w
  /\ calls (snd (getAllMappings e w)) = calls w.
Proof.
  unfold getAllMappings. munfold.
  pose proof (getSyncState_frame e w) as H.
  destruct (getSyncState e w) as [[state|] w1]; simpl in *; exact H.
Qed.

Lemma list_entries_state (se : SyncEnv) (l : list SyncMapping) (w : World) :
  snd (map_throwing
         (fun m =>
            let! iso := liftR (toISOString se (lastWriteTimestamp m)) in
            ret (mappingEntry m iso)) l w) = w.
Proof.
  induction l as [|m l IH]; simpl; [reflexivity|]. munfold.
  destruct (toISOString se (lastWriteTimestamp m)); simpl; [|reflexivity].
  destruct (map_throwing _ l w) as [[ys|] w1]; simpl in *; exact IH.
Qed.

Lemma list_entries_ok (se : SyncEnv) (l : list SyncMapping) (w w' : World)
    (entries : list MappingEntry) :
  map_throwing
    (fun m =>
       let! iso := liftR (toISOString se (lastWriteTimestamp m)) in
       ret (mappingEntry m iso)) l w = (Ok entries, w') ->
  Forall2
    (fun m en =>
       exists iso,
         toISOString se (lastWriteTimestamp m) = Ok iso
         /\ en = mappingEntry m iso)
    l entries.
Proof.
  revert entries w'.
  induction l as [|m l IH]; intros entries w'; simpl; munfold.
  - intros [= <- _]. constructor.
  - destruct (toISOString se (lastWriteTimestamp m)) as [iso|] eqn:E; simpl;
      [|discriminate].
    destruct (map_throwing _ l w) as [[ys|] w1] eqn:Hrest; simpl;
      [|discriminate].
    intros [= <- _]. constructor; eauto.
Qed.

Lemma list_entries_throw (se : SyncEnv) (l : list SyncMapping) (w : World) :
  (exists m message,
     In m l /\ toISOString se (lastWriteTimestamp m) = Throw message) ->
  exists message,
    fst (map_throwing
           (fun m =>
              let! iso := liftR (toISOString se (lastWriteTimestamp m)) in
              ret (mappingEntry m iso)) l w) = Throw message.
Proof.
  induction l as [|m l IH]; intros (m' & message & Hin & Hm); [destruct Hin|].
  simpl. munfold.
  destruct (toISOString se (lastWriteTimestamp m)) as [iso|] eqn:E; simpl;
    [|eauto].
  destruct Hin as [->|Hin]; [congruence|].
  destruct IH as [message' H]; [eauto|].
  destruct (map_throwing _ l w) as [[ys|] w1]; simpl in *; [discriminate|].
  eauto.
Qed.

Ltac sync_cases :=
  unfold InternalSync.handler, InternalSync.handleStatus,
    InternalSync.handleListMappings, InternalSync.handleForceSync,
    InternalSync.listKeepNotes, InternalSync.queryNotionDatabase;
  munfold.

(** What the endpoint answers once the method and the key are accepted. *)
Lemma internal_dispatch (se : SyncEnv) (req : SyncRequest) (w : World) :
  sync_method req = "POST" ->
  x_api_key req = INTERNAL_API_KEY se ->
  exists resp w',
    InternalSync.handler se req w = (Ok resp, w')
    /\ (sync_status resp = 200 \/ sync_status resp = 400
        \/ sync_status resp = 500)
    /\ store w' = store w
    /\ calls w' = calls w.
Proof.
  intros Hm Hk.
  pose proof (getAllMappings_frame (storeEnv se) w) as [Hs Hc].
  sync_cases. rewrite Hm, Hk. simpl. rewrite bool_decide_eq_true_2 by reflexivity.
  simpl.
  destruct (sync_body req) as [body|]; simpl;
    [|eexists _, _; split; [reflexivity | simpl; auto 6]].
  destruct (action body) as [a|]; simpl;
    [|eexists _, _; split; [reflexivity | simpl; auto 6]].
  destruct (String.eqb a "status").
  { destruct (getAllMappings (storeEnv se) w) as [[ms|] w1]; simpl in *;
      [|eexists _, _; split; [reflexivity | simpl; auto 6]].
    destruct (keepNotesReply se); simpl;
      [|eexists _, _; split; [reflexivity | simpl; auto 6]].
    destruct (notionPagesReply se); simpl;
      eexists _, _; (split; [reflexivity | simpl; auto 6]). }
  destruct (String.eqb a "list-mappings").
  { destruct (getAllMappings (storeEnv se) w) as [[ms|] w1]; simpl in *;
      [|eexists _, _; split; [reflexivity | simpl; auto 6]].
    pose proof (list_entries_state se ms w1) as Hw.
    destruct (map_throwing _ ms w1) as [[ys|] w2]; simpl in *; subst w2;
      eexists _, _; (split; [reflexivity | simpl; auto 6]). }
  destruct (String.eqb a "force-sync");
    [|eexists _, _; split; [reflexivity | simpl; auto 6]].
  destruct (or_null (direction body)) as [d|]; simpl;
    [|eexists _, _; split; [reflexivity | simpl; auto 6]].
  match goal with
  | |- context [if ?c then _ else _] => destruct c
  end; simpl; eexists _, _; (split; [reflexivity | simpl; auto 6]).
Qed.

(** X24. The internal endpoint answers 405 exactly to a method other than
    POST, and 401 exactly to a POST whose [x-api-key] header differs from
    [INTERNAL_API_KEY], both taken as values that may be absent: when no key
    is configured, a request without the header is let in.  A rejected
    request leaves the world as it was. *)
Theorem internal_endpoint_rejects_exactly (se : SyncEnv) (req : SyncRequest)
    (w : World) :
  exists resp w',
    InternalSync.handler se req w = (Ok resp, w')
    /\ (sync_status resp = 405 <-> sync_method req <> "POST")
    /\ (sync_status resp = 401 <->
        sync_method req = "POST" /\ x_api_key req <> INTERNAL_API_KEY se)
    /\ (sync_status resp = 405 \/ sync_status resp = 401 -> w' = w).
Proof.
  destruct (String.eqb (sync_method req) "POST") eqn:Hm.
  - apply String.eqb_eq in Hm.
    destruct (decide (x_api_key req = INTERNAL_API_KEY se)) as [Hk|Hk].
    + destruct (internal_dispatch se req w Hm Hk)
        as (resp & w' & H & Hst & _ & _).
      exists resp, w'. split; [exact H|].
      repeat split; try tauto; intros; lia.
    + unfold InternalSync.handler. rewrite Hm. simpl.
      rewrite bool_decide_eq_false_2 by exact Hk. simpl.
      eexists _, _. split; [reflexivity|]. simpl.
      repeat split; try tauto; try discriminate.
  - unfold InternalSync.handler. rewrite Hm. simpl.
    apply String.eqb_neq in Hm.
    eexists _, _. split; [reflexivity|]. simpl.
    repeat split; try tauto; try discriminate.
Qed.

(** X25. The internal endpoint is read-only: whatever the request, it
    leaves the store as it was and issues no write to Keep or Notion. *)
Theorem internal_endpoint_is_read_only (se : SyncEnv) (req : SyncRequest)
    (w : World) :
  store (snd (InternalSync.handler se req w)) = store w
  /\ calls (snd (InternalSync.handler se req w)) = calls w.
Proof.
  destruct (String.eqb (sync_method req) "POST") eqn:Hm.
  - apply String.eqb_eq in Hm.
    destruct (decide (x_api_key req = INTERNAL_API_KEY se)) as [Hk|Hk].
    + destruct (internal_dispatch se req w Hm Hk)
        as (resp & w' & H & _ & Hs & Hc).
      rewrite H. auto.
    + unfold InternalSync.handler. rewrite Hm. simpl.
      rewrite bool_decide_eq_false_2 by exact Hk. auto.
  - unfold InternalSync.handler. rewrite Hm. auto.
Qed.

(** X26. The force-sync action synchronises nothing: it performs no KV
    request and no remote call, leaves the world as it was, and answers 200
    exactly when the direction is one of the three it knows, 400
    otherwise. *)
Theorem force_sync_does_nothing (se : SyncEnv) (req : SyncRequest) (w : World)
    (body : SyncRequestBody) :
  sync_method req = "POST" ->
  x_api_key req = INTERNAL_API_KEY se ->
  sync_body req = Some body ->
  action body = Some "force-sync" ->
  exists resp,
    InternalSync.handler se req w = (Ok resp, w)
    /\ (sync_status resp = 200 <->
        exists d, direction body = Some d /\ In d InternalSync.validDirections)
    /\ (sync_status resp = 200 \/ sync_status resp = 400).
Proof.
  intros Hm Hk Hb Ha. sync_cases. rewrite Hm, Hk, Hb, Ha. simpl.
  rewrite bool_decide_eq_true_2 by reflexivity. simpl.
  destruct (direction body) as [d|]; simpl.
  2:{ eexists. split; [reflexivity|]. simpl. split; [|auto].
      split; [discriminate | intros (d & H & _); discriminate]. }
  destruct (String.eqb d "") eqn:Hd; simpl.
  { apply String.eqb_eq in Hd. subst d.
    eexists. split; [reflexivity|]. simpl. split; [|auto].
    split; [discriminate|].
    intros (d & [= <-] & [H|[H|[H|[]]]]); discriminate. }
  destruct (String.eqb d "notion-to-keep" || (String.eqb d "keep-to-notion"
            || (String.eqb d "both" || false))) eqn:Hv; simpl;
    (eexists; split; [reflexivity|]; simpl; split; [|auto]).
  - split; [|reflexivity]. intros _. exists d. split; [reflexivity|].
    rewrite !orb_true_iff in Hv. rewrite !String.eqb_eq in Hv.
    simpl. intuition (try discriminate; auto).
  - split; [discriminate|]. intros (d' & [= <-] & Hin).
    rewrite !orb_false_iff in Hv. rewrite !String.eqb_neq in Hv.
    simpl in Hin. intuition congruence.
Qed.

Lemma force_sync_does_nothing_witness :
  exists resp,
    InternalSync.handler syncEnv (syncRequest "force-sync" (Some "both"))
      (worldOf (storeOf threeMappings))
    = (Ok resp, worldOf (storeOf threeMappings))
    /\ (sync_status resp = 200 <->
        exists d,
          direction {| action := Some "force-sync"; direction := Some "both" |}
          = Some d
          /\ In d InternalSync.validDirections)
    /\ (sync_status resp = 200 \/ sync_status resp = 400).
Proof.
  apply (force_sync_does_nothing syncEnv
           (syncRequest "force-sync" (Some "both"))
           (worldOf (storeOf threeMappings))
           {| action := Some "force-sync"; direction := Some "both" |});
    reflexivity.
Defined.

Lemma list_entries_throw_inv (se : SyncEnv) (l : list SyncMapping) (w : World)
    (message : string) :
  fst (map_throwing
         (fun m =>
            let! iso := liftR (toISOString se (lastWriteTimestamp m)) in
            ret (mappingEntry m iso)) l w) = Throw message ->
  exists m, In m l /\ toISOString se (lastWriteTimestamp m) = Throw message.
Proof.
  induction l as [|m l IH]; simpl; munfold; [discriminate|].
  destruct (toISOString se (lastWriteTimestamp m)) as [iso|] eqn:E; simpl.
  - destruct (map_throwing _ l w) as [[ys|] w1]; simpl in *; [discriminate|].
    intros H. destruct (IH H) as (m' & Hin & Hm'). eauto.
  - intros [= <-]. eauto.
Qed.

(** X27. The list-mappings action, when the state object can be read.  An
    answer with entries has one entry per mapping of the index, in index
    order, carrying the fields of the mapping and its timestamp formatted
    by [toISOString]; and the answer is 500 exactly when the timestamp of
    some mapping cannot be formatted: one invalid timestamp fails the whole
    listing. *)
Theorem list_mappings_entries (se : SyncEnv) (req : SyncRequest) (w : World)
    (body : SyncRequestBody) :
  sync_method req = "POST" ->
  x_api_key req = INTERNAL_API_KEY se ->
  sync_body req = Some body ->
  action body = Some "list-mappings" ->
  kvFault (storeEnv se) (kvCalls w) = None ->
  exists resp w',
    InternalSync.handler se req w = (Ok resp, w')
    /\ (forall entries,
          sync_answer resp = SMappings entries ->
          sync_status resp = 200
          /\ Forall2
               (fun m en =>
                  exists iso,
                    toISOString se (lastWriteTimestamp m) = Ok iso
                    /\ en = mappingEntry m iso)
               (map snd (index (store w))) entries)
    /\ (sync_status resp = 500 <->
        exists m message,
          In m (map snd (index (store w)))
          /\ toISOString se (lastWriteTimestamp m) = Throw message).
Proof.
  intros Hm Hk Hb Ha Hkv.
  assert (Hall : getAllMappings (storeEnv se) w
                 = (Ok (map snd (index (store w))), tick w 1)).
  { unfold getAllMappings, getSyncState, kv_request, index, tick. munfold.
    rewrite Hkv. simpl. destruct (stateKey (store w)); reflexivity. }
  sync_cases. rewrite Hm, Hk, Hb, Ha. simpl.
  rewrite bool_decide_eq_true_2 by reflexivity. simpl. rewrite Hall. simpl.
  pose proof (list_entries_ok se (map snd (index (store w))) (tick w 1)) as Hok.
  pose proof (list_entries_throw se (map snd (index (store w))) (tick w 1))
    as Hthrow.
  pose proof (list_entries_throw_inv se (map snd (index (store w))) (tick w 1))
    as Hinv.
  destruct (map_throwing _ (map snd (index (store w))) (tick w 1))
    as [[ys|message] w2]; simpl in *;
    (eexists _, _; split; [reflexivity|]; simpl; split).
  - intros entries [= <-]. split; [reflexivity|]. eapply Hok. reflexivity.
  - split; [discriminate|]. intros H. destruct (Hthrow H). discriminate.
  - intros entries H. discriminate.
  - split; [|reflexivity]. intros _.
    destruct (Hinv message eq_refl) as (m & Hin & Ht). eauto.
Qed.

Lemma list_mappings_entries_witness :
  exists resp w',
    InternalSync.handler syncEnv (syncRequest "list-mappings" None)
      (worldOf (storeOf threeMappings)) = (Ok resp, w')
    /\ (forall entries,
          sync_answer resp = SMappings entries ->
          sync_status resp = 200
          /\ Forall2
               (fun m en =>
                  exists iso,
                    toISOString syncEnv (lastWriteTimestamp m) = Ok iso
                    /\ en = mappingEntry m iso)
               (map snd (index (store (worldOf (storeOf threeMappings)))))
               entries)
    /\ (sync_status resp = 500 <->
        exists m message,
          In m (map snd (index (store (worldOf (storeOf threeMappings)))))
          /\ toISOString syncEnv (lastWriteTimestamp m) = Throw message).
Proof.
  apply (list_mappings_entries syncEnv (syncRequest "list-mappings" None)
           (worldOf (storeOf threeMappings))
           {| action := Some "list-mappings"; direction := None |});
    reflexivity.
Defined.

(** ** The cooldown window and the version check, seen from a caller *)

(** X28. The cooldown window closes and never reopens by itself: for a
    given mapping and origin, an event that is suppressed at some instant
    is suppressed at every earlier instant, so once an event is let through
    every later event is let through until the mapping is written again; and
    a longer cooldown suppresses whatever a shorter one suppresses. *)
Theorem cooldown_window_is_an_interval (now now' : Z)
    (mapping : option SyncMapping) (o : Origin) (c c' : Z) :
  (now <= now')%Z ->
  (c <= c')%Z ->
  (shouldSkipDueToCooldown now' mapping o c = true ->
   shouldSkipDueToCooldown now mapping o c = true)
  /\ (shouldSkipDueToCooldown now mapping o c = true ->
      shouldSkipDueToCooldown now mapping o c' = true).
Proof.
  intros Hn Hc. unfold shouldSkipDueToCooldown.
  destruct mapping as [m|]; [|auto].
  destruct (negb (origin_eqb (lastWriteOrigin m) o)); [auto|].
  rewrite !Z.ltb_lt. split; lia.
Qed.

Lemma cooldown_window_is_an_interval_witness :
  (shouldSkipDueToCooldown (t0 + 20000) (Some (mappingFrom keep t0)) keep 30000
   = true ->
   shouldSkipDueToCooldown (t0 + 10) (Some (mappingFrom keep t0)) keep 30000
   = true)
  /\ (shouldSkipDueToCooldown (t0 + 10) (Some (mappingFrom keep t0)) keep 30000
      = true ->
      shouldSkipDueToCooldown (t0 + 10) (Some (mappingFrom keep t0)) keep 60000
      = true).
Proof.
  apply (cooldown_window_is_an_interval (t0 + 10) (t0 + 20000)
           (Some (mappingFrom keep t0)) keep 30000 60000); lia.
Defined.

(** X29. A change made in Keep is propagated.  For a mapped note that the
    guard does not suppress and whose update time is after the recorded one
    (or is missing or unreadable on either side), with the KV store and the
    translator answering, the poll loop updates the page of the mapping;
    when Notion answers too, the iteration ends applied, the counters
    [updated] and [processed] grow by one, and the mapping records the new
    update time with Keep as origin. *)
Theorem newer_note_is_propagated (toTime : string -> option Z) (e : Env)
    (note : KeepNote) (s : PollState) (m : SyncMapping) (page : NotionPage) :
  polled note ->
  kv_reliable e ->
  lookupByName (store (world s)) (name note) = Some m ->
  shouldSkipDueToCooldown (nowCooldown e) (Some m) keep defaultCooldownMs
  = false ->
  match getTime toTime (updateTime note),
        getTime toTime (lastSyncedKeepUpdateTime m) with
  | Some current, Some last => (last < current)%Z
  | _, _ => True
  end ->
  translation e = Ok tt ->
  notionReply e = Ok page ->
  exists s',
    noteStep toTime e note s = (Ok AppliedUpdated, s')
    /\ calls (world s')
       = (calls (world s) ++ [NotionUpdate (notionPageId m)])%list
    /\ summary s' = processed_incr (updated_incr (summary s))
    /\ mappingKeys (store (world s')) !! notionPageId m
       = Some {| notionPageId := notionPageId m;
                 keepNoteName := name note;
                 lastSyncedNotionEditedTime := last_edited_time page;
                 lastSyncedKeepUpdateTime := updateTime note;
                 lastWriteOrigin := keep;
                 lastWriteTimestamp := nowWrite e |}.
Proof.
  intros [Htrashed Hname] Hrel Hm Hguard Hnewer Htr Hreply.
  pose proof (getMappingByKeepName_reliable e (name note) (world s) Hrel)
    as Hres.
  pose proof (getMappingByKeepName_frame e (name note) (world s)) as [Hs Hc].
  apply String.eqb_neq in Hname.
  assert (Hle : js_le (getTime toTime (updateTime note))
                  (getTime toTime (lastSyncedKeepUpdateTime m)) = false).
  { unfold js_le.
    destruct (getTime toTime (updateTime note)) as [current|]; [|reflexivity].
    destruct (getTime toTime (lastSyncedKeepUpdateTime m)) as [last|];
      [|reflexivity].
    apply Z.leb_gt. exact Hnewer. }
  unfold noteStep, processNote, updateNotionPage, remote_write.
  rewrite Htrashed, Hname. munfold.
  destruct (getMappingByKeepName e (name note) (world s)) as [r w1];
    simpl in *. rewrite Hres, Hm. simpl. rewrite Hguard, Hle, Htr. simpl.
  rewrite Hreply. simpl.
  match goal with
  | |- context [upsertMapping ?e' ?m' ?w'] =>
      destruct (upsertMapping_reliable e' m' w' Hrel) as [w2 Hup];
        rewrite Hup; simpl;
        apply upsertMapping_ok in Hup as [Hst Hcs]; simpl in Hst, Hcs
  end.
  eexists. split; [reflexivity|]. simpl. rewrite Hcs, Hst, Hc.
  repeat split. simpl. apply lookup_insert_eq.
Qed.

Lemma newer_note_is_propagated_witness :
  exists s',
    noteStep isoTime (calm (t0 + 5000) page1 note1)
      {| name := "notes/n1"; updateTime := Some "2024-01-01T00:00:12.000Z";
         trashed := false |}
      {| world := afterWebhook; summary := emptySummary |}
    = (Ok AppliedUpdated, s')
    /\ calls (world s')
       = (calls afterWebhook ++ [NotionUpdate (notionPageId (mappingFrom notion t0))])%list
    /\ summary s' = processed_incr (updated_incr emptySummary)
    /\ mappingKeys (store (world s')) !! notionPageId (mappingFrom notion t0)
       = Some {| notionPageId := notionPageId (mappingFrom notion t0);
                 keepNoteName := "notes/n1";
                 lastSyncedNotionEditedTime := last_edited_time page1;
                 lastSyncedKeepUpdateTime := Some "2024-01-01T00:00:12.000Z";
                 lastWriteOrigin := keep;
                 lastWriteTimestamp := nowWrite (calm (t0 + 5000) page1 note1) |}.
Proof.
  apply (newer_note_is_propagated isoTime (calm (t0 + 5000) page1 note1)
           {| name := "notes/n1"; updateTime := Some "2024-01-01T00:00:12.000Z";
              trashed := false |}
           {| world := afterWebhook; summary := emptySummary |}
           (mappingFrom notion t0) page1).
  - split; [reflexivity | discriminate].
  - intros n. reflexivity.
  - vm_compute. reflexivity.
  - reflexivity.
  - vm_compute. reflexivity.
  - reflexivity.
  - reflexivity.
Defined.
